(** * KernelSU su-compat interception and SUSFS concealment registries

    A shallow embedding of

      - [ksu_sucompat_common] and its three entry points
        ([ksu_handle_faccessat], [ksu_handle_stat],
        [ksu_handle_execve_sucompat]) of the su-compat dispatcher, and
      - the SUSFS registries of [fs/susfs.c]: [susfs_add_sus_path],
        [susfs_add_sus_mount], [susfs_add_try_umount], [susfs_try_umount]
        and the two inode-marking helpers,

    with the properties the design document states about them.

    Kernel state that the C code reaches through globals ([current], the
    hash table, the two lists, the inode flags) is threaded explicitly, and
    what the code does to the outside world (user copies, log lines,
    unmount calls) is recorded in the state in program order.  Constants
    and helpers that are declared elsewhere ([KSUD_PATH], the SUSFS
    constants, [ksu_is_allow_uid], the outcome of [kmalloc]) are parameters
    of the code, so the theorems hold for any value of theirs; the user
    copy primitives and [kern_path] act on an explicit user address space
    and name space. *)

From stdpp Require Import gmap strings list fin_maps.
From Stdlib Require Import ZArith Lia.
From Stdlib Require Import Strings.Byte Strings.Ascii.

Local Open Scope Z_scope.

#[global] Instance byte_eq_dec : EqDecision byte := Byte.byte_eq_dec.

(** ** Part I: the su-compat dispatcher *)

Module Sucompat.

(** *** User memory and the current task *)

(** One byte of the calling process' address space.  [cell_nofault] tells
    whether the byte can be read while page faults are disabled (the page is
    present); [cell_writable] whether a store to it succeeds. *)
Record ucell := UCell {
  cell_byte : byte;
  cell_nofault : bool;
  cell_writable : bool
}.

(** What the handlers do to the outside world, in program order. *)
Inductive event :=
  | EvCopyNofault (addr : Z) (count : nat)
  | EvCopyFromUser (addr : Z) (count : nat)
  | EvCopyToUser (addr : Z) (data : list byte)
  | EvPrInfo (syscall_name : string) (msg : string)
  | EvEscapeToRoot.

(** [current] and the globals the dispatcher reads.  Addresses are 64-bit
    values, [NULL] is [0]; an address absent from [umem] is unmapped. *)
Record task := Task {
  ksu_sucompat_non_kp : bool;
  current_uid : Z;
  ksu_is_allow_uid : Z → bool;
  umem : gmap Z ucell;
  current_user_stack_pointer : Z;
  cred_is_root : bool;
  trace : list event
}.

Definition NULL : Z := 0.

Definition set_umem (m : gmap Z ucell) (st : task) : task :=
  Task (ksu_sucompat_non_kp st) (current_uid st) (ksu_is_allow_uid st) m
       (current_user_stack_pointer st) (cred_is_root st) (trace st).

Definition emit (e : event) (st : task) : task :=
  Task (ksu_sucompat_non_kp st) (current_uid st) (ksu_is_allow_uid st)
       (umem st) (current_user_stack_pointer st) (cred_is_root st)
       (trace st ++ [e]).

(** Modelled from the spec: [ksu_escape_to_root] is declared [extern]; the
    design document describes it as raising the caller's effective and
    saved credentials to the maximal privilege level. *)
Definition ksu_escape_to_root (st : task) : task :=
  Task (ksu_sucompat_non_kp st) (current_uid st) (ksu_is_allow_uid st)
       (umem st) (current_user_stack_pointer st) true
       (trace st ++ [EvEscapeToRoot]).

Definition pr_info (syscall_name msg : string) (st : task) : task :=
  emit (EvPrInfo syscall_name msg) st.

(** The longest prefix of [addr, addr+n) that can be read; with [fast] the
    read stops at the first byte that would need a page fault. *)
Fixpoint user_read (m : gmap Z ucell) (fast : bool) (addr : Z) (n : nat)
  : list byte :=
  match n with
  | O => []
  | S k =>
      match m !! addr with
      | Some c =>
          if fast && negb (cell_nofault c) then []
          else cell_byte c :: user_read m fast (addr + 1) k
      | None => []
      end
  end.

(** Stores [d] at [addr] byte by byte; stops at the first byte that is
    unmapped or read-only and reports how many bytes were not stored. *)
Fixpoint user_write (m : gmap Z ucell) (addr : Z) (d : list byte)
  : gmap Z ucell * nat :=
  match d with
  | [] => (m, O)
  | b :: d' =>
      match m !! addr with
      | Some c =>
          if cell_writable c
          then user_write (<[addr := UCell b (cell_nofault c) true]> m)
                          (addr + 1) d'
          else (m, length d)
      | None => (m, length d)
      end
  end.

Definition EFAULT : Z := 14.

(** Modelled from the spec: [ksu_copy_from_user_nofault] is defined outside
    the sources at hand; the design document calls it the fast,
    potentially-fault-prone read.  It returns [0] when all [count] bytes
    were read without a page fault and [-EFAULT] otherwise; the bytes read
    so far are left in [dst]. *)
Definition ksu_copy_from_user_nofault (st : task) (dst : list byte)
    (unsafe_addr : Z) (count : nat) : Z * list byte * task :=
  let got := user_read (umem st) true unsafe_addr count in
  let st' := emit (EvCopyNofault unsafe_addr count) st in
  if decide (length got = count) then (0, got, st')
  else (- EFAULT, got ++ drop (length got) dst, st').

(** Modelled from the spec: [copy_from_user] is the kernel's own; the
    design document calls it the slower, guaranteed-safe copy.  It returns
    the number of bytes that could not be copied and zero-fills the rest of
    the destination. *)
Definition copy_from_user (st : task) (dst : list byte)
    (from : Z) (n : nat) : Z * list byte * task :=
  let got := user_read (umem st) false from n in
  let rest := (n - length got)%nat in
  (Z.of_nat rest, got ++ replicate rest x00, emit (EvCopyFromUser from n) st).

(** Modelled from the spec: [copy_to_user] is the kernel's own; it stores
    into the caller's memory and returns the number of bytes that could not
    be stored. *)
Definition copy_to_user (st : task) (to : Z) (from : list byte)
  : Z * task :=
  let '(m, rest) := user_write (umem st) to from in
  (Z.of_nat rest, emit (EvCopyToUser to from) (set_umem m st)).

(** *** The code of the dispatcher *)

Definition c_string (s : string) : list byte :=
  String.list_byte_of_string s ++ [x00].

Definition SU_PATH : string := "/system/bin/su".
Definition SH_PATH : string := "/system/bin/sh".

Section Dispatcher.

(** [KSUD_PATH] comes from [ksud.h]. *)
Variable KSUD_PATH : string.

(** [static void __user *userspace_stack_buffer(const void *d, size_t len)] *)
Definition userspace_stack_buffer (st : task) (d : list byte) : Z * task :=
  let len := Z.of_nat (length d) in
  let p := (current_user_stack_pointer st - len) `mod` 2 ^ 64 in
  let '(r, st') := copy_to_user st p d in
  (if decide (r ≠ 0) then NULL else p, st').

Definition sh_user_path (st : task) : Z * task :=
  let sh_path := c_string "/system/bin/sh" in
  userspace_stack_buffer st sh_path.

Definition ksud_user_path (st : task) : Z * task :=
  let ksud_path := c_string KSUD_PATH in
  userspace_stack_buffer st ksud_path.

(** [ksu_copy_from_user_retry]: the fast read, then the slow one. *)
Definition ksu_copy_from_user_retry (st : task) (dst : list byte)
    (unsafe_addr : Z) (count : nat) : Z * list byte * task :=
  let '(ret, dst', st') :=
    ksu_copy_from_user_nofault st dst unsafe_addr count in
  if decide (ret = 0) then (ret, dst', st')
  else copy_from_user st' dst' unsafe_addr count.

(** [memcmp(a, b, n)]: the difference of the first bytes that differ. *)
Fixpoint memcmp (a b : list byte) (n : nat) : Z :=
  match n, a, b with
  | S k, x :: a', y :: b' =>
      if decide (x = y) then memcmp a' b' k
      else Z.of_N (Byte.to_N x) - Z.of_N (Byte.to_N y)
  | _, _, _ => 0
  end.

(** [ksu_sucompat_common(filename_user, syscall_name, escalate)].
    [filename_user] is [None] for a null [filename_user] and [Some p] when
    [*filename_user] is [p]; the second component of the result is
    [*filename_user] on return. *)
Definition ksu_sucompat_common (st : task) (filename_user : option Z)
    (syscall_name : string) (escalate : bool) : Z * option Z * task :=
  let su := c_string SU_PATH in
  if negb (ksu_sucompat_non_kp st) then (0, filename_user, st)
  else if negb (ksu_is_allow_uid st (current_uid st))
  then (0, filename_user, st)
  else
    match filename_user with
    | None => (0, filename_user, st)
    | Some fu =>
        (* char path[sizeof(su) + 1]; its initial contents are never read *)
        let sizeof_path := (length su + 1)%nat in
        let path := replicate sizeof_path x00 in
        let '(r, path, st1) :=
          ksu_copy_from_user_retry st path fu sizeof_path in
        if decide (r ≠ 0) then (0, Some fu, st1)
        else
          let path := <[(sizeof_path - 1)%nat := x00]> path in
          if decide (memcmp path su (length su) ≠ 0) then (0, Some fu, st1)
          else if escalate then
            let st2 := pr_info syscall_name "su found" st1 in
            let '(p, st3) := ksud_user_path st2 in
            (0, Some p, ksu_escape_to_root st3)
          else
            let st2 := pr_info syscall_name "su->sh!" st1 in
            let '(p, st3) := sh_user_path st2 in
            (0, Some p, st3)
    end.

Definition ksu_handle_faccessat (st : task) (filename_user : option Z) :=
  ksu_sucompat_common st filename_user "faccessat" false.

Definition ksu_handle_stat (st : task) (filename_user : option Z) :=
  ksu_sucompat_common st filename_user "newfstatat" false.

Definition ksu_handle_execve_sucompat (st : task) (filename_user : option Z) :=
  ksu_sucompat_common st filename_user "sys_execve" true.

End Dispatcher.

(** *** Concrete address spaces, for running the handlers *)

(** [bs] mapped at [base], every byte with the same attributes. *)
Fixpoint map_bytes (base : Z) (bs : list byte) (nofault writable : bool)
    (m : gmap Z ucell) : gmap Z ucell :=
  match bs with
  | [] => m
  | b :: bs' =>
      <[base := UCell b nofault writable]>
        (map_bytes (base + 1) bs' nofault writable m)
  end.

(** The request names its target by the NUL-terminated string [s] at [p]:
    the bytes of [s] and its terminator can be read there. *)
Definition target_path_is (m : gmap Z ucell) (p : Z) (s : string) : bool :=
  bool_decide (user_read m false p (length (c_string s)) = c_string s).

(** Where [userspace_stack_buffer] puts [d], and whether the store there
    goes through. *)
Definition stack_slot (st : task) (d : list byte) : Z :=
  (current_user_stack_pointer st - Z.of_nat (length d)) `mod` 2 ^ 64.

Definition can_stage (st : task) (d : list byte) : bool :=
  bool_decide ((user_write (umem st) (stack_slot st d) d).2 = O).

(** The whole of [path], 16 bytes, can be fetched from [p]. *)
Definition path_readable (st : task) (p : Z) : bool :=
  bool_decide (length (user_read (umem st) false p 16) = 16%nat).

(** The outcome [r] of a handler leaves the request as it was: same target
    pointer, same user memory, same credentials. *)
Definition untouched (st : task) (p : Z) (r : Z * option Z * task) : Prop :=
  r.1 = (0, Some p) ∧ umem r.2 = umem st ∧
  cred_is_root r.2 = cred_is_root st.

(** The outcome [r] of a handler points the request at a copy of [d] staged
    in user memory. *)
Definition rewritten_to (st : task) (d : list byte)
    (r : Z * option Z * task) : Prop :=
  r.1 = (0, Some (stack_slot st d)) ∧
  user_read (umem r.2) false (stack_slot st d) (length d) = d.

(** The events a handler added to the trace. *)
Definition new_events (st : task) (r : Z * option Z * task) : list event :=
  drop (length (trace st)) (trace r.2).

Definition allow_only (uid : Z) : Z → bool := λ u, bool_decide (u = uid).

(** A process with uid 10123.  Of its address space the model lists the
    64 read-only bytes from [base] on, which hold [s] at address [at_addr]
    and zero bytes elsewhere, and the top 64 bytes of the stack page
    [0x7ff000, 0x800000), the user stack pointer being at its top; every
    other address faults. *)
Definition demo_task (enabled : bool) (allowed : Z → bool)
    (base at_addr : Z) (s : list byte) (stack_writable : bool) : task :=
  Task enabled 10123 allowed
       (map_bytes at_addr s true false
          (map_bytes base (replicate 64 x00) true false
             (map_bytes 8388544 (replicate 64 x00) true stack_writable ∅)))
       8388608 false [].

(** Requests used as running examples. *)
Definition ksud_path_demo : string := "/data/adb/ksud".

(** The trigger path at the start of the page [0x1000, 0x2000); the target
    pointer is [0x1000]. *)
Definition task_su : task :=
  demo_task true (allow_only 10123) 4096 4096 (c_string SU_PATH) true.

(** The trigger path and its terminator in the last 15 bytes of the page
    [0x1000, 0x2000), the page after it not being mapped; the target
    pointer is [0x1ff1]. *)
Definition task_su_at_end_of_mapping : task :=
  demo_task true (allow_only 10123) 8128 8177 (c_string SU_PATH) true.

(** The request of [task_su] after [ksu_sucompat_exit]. *)
Definition task_su_hooks_off : task :=
  demo_task false (allow_only 10123) 4096 4096 (c_string SU_PATH) true.

(** The request of [task_su] from a process whose stack cannot be
    written. *)
Definition task_su_stack_readonly : task :=
  demo_task true (allow_only 10123) 4096 4096 (c_string SU_PATH) false.

(** The request of [task_su] from a uid that is not allowed. *)
Definition task_su_stranger : task :=
  demo_task true (allow_only 0) 4096 4096 (c_string SU_PATH) true.

(** A request for a strict extension of the trigger path. *)
Definition task_sux : task :=
  demo_task true (allow_only 10123) 4096 4096 (c_string "/system/bin/sux")
            true.

End Sucompat.

(** ** Part II: the SUSFS registries of [fs/susfs.c] *)

Module Susfs.

(** *** Kernel objects *)

(** What [kern_path(name, LOOKUP_FOLLOW, &p)] hands back on success:
    [p.mnt->mnt_sb->s_type->name], [real_mount(p.mnt)->mnt_group_id] and
    [d_inode(p.dentry)], the latter [None] for a negative dentry.  Inodes
    are named by their address, so two paths may share one. *)
Record path := Path {
  s_type_name : string;
  mnt_group_id : Z;
  d_inode : option nat
}.

Inductive log_level := KERN_INFO | KERN_ERR.

Inductive log_arg := ArgS (s : string) | ArgZ (z : Z).

(** One line of the kernel log: the function that wrote it, the format
    string as it stands in the source, and the arguments. *)
Record log_line := LogLine {
  log_lvl : log_level;
  log_func : string;
  log_fmt : string;
  log_args : list log_arg
}.

(** A call [ksu_try_umount(mnt, check_mnt, flags, uid)]. *)
Record umount_call := UmountCall {
  um_mnt : string;
  um_check_mnt : bool;
  um_flags : Z;
  um_uid : Z
}.

(** [struct st_susfs_sus_path] and [struct st_susfs_sus_path_hlist] (without
    its list node): the two fields the code names. *)
Record st_susfs_sus_path := SusPath {
  sp_target_ino : Z;
  sp_target_pathname : string
}.

(** Modelled from the spec: [struct st_susfs_sus_mount] is declared in
    [linux/susfs.h]; the design document lists the record as pathname,
    device and flags.  The code names [target_pathname] and [target_dev]
    and copies the structure as a block. *)
Record st_susfs_sus_mount := SusMount {
  sm_target_pathname : string;
  sm_target_dev : Z;
  sm_flags : Z
}.

(** [struct st_susfs_try_umount]. *)
Record st_susfs_try_umount := TryUmount {
  tu_target_pathname : string;
  tu_mnt_mode : Z
}.

(** The globals of [susfs.c] together with the part of the VFS it touches.
    [SUS_PATH_HLIST] maps a bucket number to its chain, head first; a bucket
    without an entry in the map is empty, and only the bucket numbers below
    [HASH_SIZE] are ever used.  [namei] holds the pathnames that resolve,
    [i_state] the [i_state] word of each inode, [path_refs] the number of
    path references taken and not yet put. *)
Record kernel := Kernel {
  namei : gmap string path;
  i_state : gmap nat Z;
  path_refs : Z;
  SUS_PATH_HLIST : gmap Z (list st_susfs_sus_path);
  LH_SUS_MOUNT : list st_susfs_sus_mount;
  LH_TRY_UMOUNT_PATH : list st_susfs_try_umount;
  susfs_is_log_enabled : bool;
  klog : list log_line;
  umounts : list umount_call
}.

Definition set_i_state (f : gmap nat Z) (k : kernel) : kernel :=
  Kernel (namei k) f (path_refs k) (SUS_PATH_HLIST k) (LH_SUS_MOUNT k)
         (LH_TRY_UMOUNT_PATH k) (susfs_is_log_enabled k) (klog k) (umounts k).

Definition set_path_refs (n : Z) (k : kernel) : kernel :=
  Kernel (namei k) (i_state k) n (SUS_PATH_HLIST k) (LH_SUS_MOUNT k)
         (LH_TRY_UMOUNT_PATH k) (susfs_is_log_enabled k) (klog k) (umounts k).

Definition set_SUS_PATH_HLIST (t : gmap Z (list st_susfs_sus_path))
    (k : kernel) : kernel :=
  Kernel (namei k) (i_state k) (path_refs k) t (LH_SUS_MOUNT k)
         (LH_TRY_UMOUNT_PATH k) (susfs_is_log_enabled k) (klog k) (umounts k).

Definition set_LH_SUS_MOUNT (l : list st_susfs_sus_mount) (k : kernel)
  : kernel :=
  Kernel (namei k) (i_state k) (path_refs k) (SUS_PATH_HLIST k) l
         (LH_TRY_UMOUNT_PATH k) (susfs_is_log_enabled k) (klog k) (umounts k).

Definition set_LH_TRY_UMOUNT_PATH (l : list st_susfs_try_umount)
    (k : kernel) : kernel :=
  Kernel (namei k) (i_state k) (path_refs k) (SUS_PATH_HLIST k)
         (LH_SUS_MOUNT k) l (susfs_is_log_enabled k) (klog k) (umounts k).

Definition set_klog (l : list log_line) (k : kernel) : kernel :=
  Kernel (namei k) (i_state k) (path_refs k) (SUS_PATH_HLIST k)
         (LH_SUS_MOUNT k) (LH_TRY_UMOUNT_PATH k) (susfs_is_log_enabled k) l
         (umounts k).

Definition set_umounts (l : list umount_call) (k : kernel) : kernel :=
  Kernel (namei k) (i_state k) (path_refs k) (SUS_PATH_HLIST k)
         (LH_SUS_MOUNT k) (LH_TRY_UMOUNT_PATH k) (susfs_is_log_enabled k)
         (klog k) l.

(** [SUSFS_LOGI] and [SUSFS_LOGE]: a line is written only while
    [susfs_is_log_enabled] is set. *)
Definition SUSFS_LOG (lvl : log_level) (func fmt : string)
    (args : list log_arg) (k : kernel) : kernel :=
  if susfs_is_log_enabled k
  then set_klog (klog k ++ [LogLine lvl func fmt args]) k
  else k.

Definition SUSFS_LOGI := SUSFS_LOG KERN_INFO.
Definition SUSFS_LOGE := SUSFS_LOG KERN_ERR.

(** Modelled from the spec: [kern_path] is the kernel's own; it resolves a
    pathname to a live filesystem object.  [None] is a non-zero return; a
    successful lookup takes a reference on the path, which [path_put] gives
    back. *)
Definition kern_path (k : kernel) (name : string) : option path * kernel :=
  match namei k !! name with
  | Some p => (Some p, set_path_refs (path_refs k + 1) k)
  | None => (None, k)
  end.

Definition path_put (k : kernel) : kernel :=
  set_path_refs (path_refs k - 1) k.

(** [inode->i_state] of the inode at address [i]. *)
Definition inode_state (k : kernel) (i : nat) : Z := i_state k !!! i.

(** [if (!(inode->i_state & flag)) inode->i_state |= flag;] *)
Definition inode_set_flag (flag : Z) (i : nat) (k : kernel) : kernel :=
  if decide (Z.land (inode_state k i) flag = 0)
  then set_i_state (<[i := Z.lor (inode_state k i) flag]> (i_state k)) k
  else k.

(** [strncpy(dst, src, n)] into a fresh buffer, read back as a C string:
    at most [n] characters of [src].  This is exact when [src] is shorter
    than [n]; for a longer [src] the C code writes no terminator. *)
Definition strncpy (src : string) (n : nat) : string :=
  String.substring 0 n src.

(** The state in which the first registration finds the system: the name
    space is [fs], the registries are empty, logging is enabled. *)
Definition boot (fs : gmap string path) : kernel :=
  Kernel fs ∅ 0 ∅ [] [] true [] [].

(** *** The code of the registries *)

(** The constants of [linux/susfs.h], [linux/fs.h] and [linux/hash.h] that
    the code names, and [decode_dev] for whichever of [huge_decode_dev],
    [new_decode_dev] and [old_decode_dev] the configuration selects.  None
    of them is defined in the sources, so the code is read for any values. *)
Class constants := Constants {
  SUSFS_MAX_LEN_PATHNAME : nat;
  INODE_STATE_SUS_PATH : Z;
  INODE_STATE_SUS_MOUNT : Z;
  DEFAULT_SUS_MNT_GROUP_ID : Z;
  TRY_UMOUNT_DEFAULT : Z;
  TRY_UMOUNT_DETACH : Z;
  MNT_DETACH : Z;
  GOLDEN_RATIO_64 : Z;
  decode_dev : Z → Z
}.

Section Registries.

Context `{constants}.

(** [DEFINE_HASHTABLE(SUS_PATH_HLIST, 10)] *)
Definition HASH_BITS : Z := 10.
Definition HASH_SIZE : nat := Z.to_nat (2 ^ HASH_BITS).

(** Modelled from the spec: the records are kept in a bucketed table keyed
    by [target_ino]; [hash_min] of [linux/hashtable.h] is not part of the
    sources.  For an [unsigned long] key it is [hash_64]: the top
    [HASH_BITS] bits of the 64-bit product with the golden-ratio constant. *)
Definition hash_min (val : Z) : Z :=
  Z.shiftr ((val * GOLDEN_RATIO_64) `mod` 2 ^ 64) (64 - HASH_BITS).

Definition bucket (t : gmap Z (list st_susfs_sus_path)) (bkt : Z)
  : list st_susfs_sus_path := default [] (t !! bkt).

(** [hash_add]: the node goes to the head of the chain of its key. *)
Definition hash_add (t : gmap Z (list st_susfs_sus_path))
    (node : st_susfs_sus_path) (key : Z) : gmap Z (list st_susfs_sus_path) :=
  <[hash_min key := node :: bucket t (hash_min key)]> t.

(** The buckets in the order [hash_for_each] walks them. *)
Definition hash_buckets : list Z := Z.of_nat <$> seq 0 HASH_SIZE.

(** The entries in the order [hash_for_each] visits them. *)
Definition hash_entries (t : gmap Z (list st_susfs_sus_path))
  : list st_susfs_sus_path :=
  concat (bucket t <$> hash_buckets).

(** The walk over one chain in [susfs_add_sus_path]: the first entry whose
    pathname is [name] is unlinked and freed, and the walk stops. *)
Fixpoint chain_del (name : string) (c : list st_susfs_sus_path)
  : option (list st_susfs_sus_path) :=
  match c with
  | [] => None
  | tmp_entry :: c' =>
      if decide (sp_target_pathname tmp_entry = name) then Some c'
      else (tmp_entry ::.) <$> chain_del name c'
  end.

(** [hash_for_each_safe] with the [hash_del] and [break] of
    [susfs_add_sus_path]; [None] when no entry has that pathname. *)
Fixpoint hash_del_first (name : string) (t : gmap Z (list st_susfs_sus_path))
    (bkts : list Z) : option (gmap Z (list st_susfs_sus_path)) :=
  match bkts with
  | [] => None
  | bkt :: bkts' =>
      match chain_del name (bucket t bkt) with
      | Some c' => Some (<[bkt := c']> t)
      | None => hash_del_first name t bkts'
      end
  end.

(** [static int susfs_update_sus_path_inode(char *target_pathname)] *)
Definition susfs_update_sus_path_inode (k : kernel) (target_pathname : string)
  : Z * kernel :=
  let func := "susfs_update_sus_path_inode" in
  match kern_path k target_pathname with
  | (None, k) =>
      (1, SUSFS_LOGE func "Failed opening file '%s'\n"
            [ArgS target_pathname] k)
  | (Some p, k) =>
      let dev_type := s_type_name p in
      if decide (dev_type = "tmpfs" ∨ dev_type = "fuse") then
        let k := SUSFS_LOGE func
          "target_pathname: '%s' cannot be added since its filesystem type is '%s'\n"
          [ArgS target_pathname; ArgS dev_type] k in
        (1, path_put k)
      else
        match d_inode p with
        | None =>
            let k := SUSFS_LOGE func "inode is NULL\n" [] k in
            (1, path_put k)
        | Some inode =>
            let k := inode_set_flag INODE_STATE_SUS_PATH inode k in
            (0, path_put k)
        end
  end.

(** [int susfs_add_sus_path(struct st_susfs_sus_path* __user user_info)].
    [user_info] is [None] when [copy_from_user] fails; [kmalloc_ok] tells
    whether the allocation of the new entry succeeds. *)
Definition susfs_add_sus_path (k : kernel)
    (user_info : option st_susfs_sus_path) (kmalloc_ok : bool) : Z * kernel :=
  let func := "susfs_add_sus_path" in
  match user_info with
  | None => (1, SUSFS_LOGE func "failed copying from userspace\n" [] k)
  | Some info =>
      let '(update_hlist, k) :=
        match hash_del_first (sp_target_pathname info) (SUS_PATH_HLIST k)
                hash_buckets with
        | Some t => (true, set_SUS_PATH_HLIST t k)
        | None => (false, k)
        end in
      if negb kmalloc_ok
      then (1, SUSFS_LOGE func "no enough memory\n" [] k)
      else
        let new_entry :=
          SusPath (sp_target_ino info)
                  (strncpy (sp_target_pathname info)
                           (SUSFS_MAX_LEN_PATHNAME - 1)) in
        match susfs_update_sus_path_inode k (sp_target_pathname new_entry) with
        | (0, k) =>
            let k := set_SUS_PATH_HLIST
                       (hash_add (SUS_PATH_HLIST k) new_entry
                                 (sp_target_ino info)) k in
            let k :=
              if update_hlist : bool then
                SUSFS_LOGI func
                  "target_ino: '%lu', target_pathname: '%s' is successfully updated to SUS_PATH_HLIST\n"
                  [ArgZ (sp_target_ino new_entry);
                   ArgS (sp_target_pathname new_entry)] k
              else
                SUSFS_LOGI func
                  "target_ino: '%lu', target_pathname: '%s' is successfully added to SUS_PATH_HLIST\n"
                  [ArgZ (sp_target_ino new_entry);
                   ArgS (sp_target_pathname new_entry)] k in
            (0, k)
        | (_, k) => (1, k)
        end
  end.

(** [int susfs_sus_ino_for_filldir64(unsigned long ino)]:
    [hash_for_each_possible] walks the chain of [ino] only. *)
Definition susfs_sus_ino_for_filldir64 (k : kernel) (ino : Z) : Z :=
  if existsb (λ entry, bool_decide (sp_target_ino entry = ino))
             (bucket (SUS_PATH_HLIST k) (hash_min ino))
  then 1 else 0.

(** [static void susfs_update_sus_mount_inode(char *target_pathname)].
    The early return for a mount with a peer group does not give the path
    back. *)
Definition susfs_update_sus_mount_inode (k : kernel) (target_pathname : string)
  : kernel :=
  let func := "susfs_update_sus_mount_inode" in
  match kern_path k target_pathname with
  | (None, k) =>
      SUSFS_LOGE func "Failed opening file '%s'\n" [ArgS target_pathname] k
  | (Some p, k) =>
      if decide (mnt_group_id p > 0 ∧
                 mnt_group_id p < DEFAULT_SUS_MNT_GROUP_ID)
      then
        SUSFS_LOGE func
          "skip setting SUS_MOUNT inode state for path '%s' since its source mount has a legit peer group id\n"
          [ArgS target_pathname] k
      else
        match d_inode p with
        | None =>
            let k := path_put k in
            SUSFS_LOGE func "inode is NULL\n" [] k
        | Some inode =>
            let k := inode_set_flag INODE_STATE_SUS_MOUNT inode k in
            path_put k
        end
  end.

(** The position of the first entry of [LH_SUS_MOUNT] with that pathname. *)
Fixpoint sus_mount_find (name : string) (l : list st_susfs_sus_mount)
  : option nat :=
  match l with
  | [] => None
  | cursor :: l' =>
      if decide (sm_target_pathname cursor = name) then Some O
      else S <$> sus_mount_find name l'
  end.

(** [int susfs_add_sus_mount(struct st_susfs_sus_mount* __user user_info)] *)
Definition susfs_add_sus_mount (k : kernel)
    (user_info : option st_susfs_sus_mount) (kmalloc_ok : bool) : Z * kernel :=
  let func := "susfs_add_sus_mount" in
  match user_info with
  | None => (1, SUSFS_LOGE func "failed copying from userspace\n" [] k)
  | Some info =>
      let info :=
        SusMount (sm_target_pathname info) (decode_dev (sm_target_dev info))
                 (sm_flags info) in
      match sus_mount_find (sm_target_pathname info) (LH_SUS_MOUNT k) with
      | Some cursor =>
          let k := set_LH_SUS_MOUNT (<[cursor := info]> (LH_SUS_MOUNT k)) k in
          let k := susfs_update_sus_mount_inode k (sm_target_pathname info) in
          let k := SUSFS_LOGI func
            "target_pathname: '%s', target_dev: '%lu', is successfully updated to LH_SUS_MOUNT\n"
            [ArgS (sm_target_pathname info); ArgZ (sm_target_dev info)] k in
          (0, k)
      | None =>
          if negb kmalloc_ok
          then (1, SUSFS_LOGE func "no enough memory\n" [] k)
          else
            let k := susfs_update_sus_mount_inode k (sm_target_pathname info) in
            let k := set_LH_SUS_MOUNT (LH_SUS_MOUNT k ++ [info]) k in
            let k := SUSFS_LOGI func
              "target_pathname: '%s', target_dev: '%lu', is successfully added to LH_SUS_MOUNT\n"
              [ArgS (sm_target_pathname info); ArgZ (sm_target_dev info)] k in
            (0, k)
      end
  end.

(** [int susfs_add_try_umount(struct st_susfs_try_umount* __user user_info)] *)
Definition susfs_add_try_umount (k : kernel)
    (user_info : option st_susfs_try_umount) (kmalloc_ok : bool)
  : Z * kernel :=
  let func := "susfs_add_try_umount" in
  match user_info with
  | None => (1, SUSFS_LOGE func "failed copying from userspace\n" [] k)
  | Some info =>
      if existsb (λ cursor, bool_decide (tu_target_pathname info =
                                          tu_target_pathname cursor))
                 (LH_TRY_UMOUNT_PATH k)
      then
        (1, SUSFS_LOGE func
              "target_pathname: '%s' is already created in LH_TRY_UMOUNT_PATH\n"
              [ArgS (tu_target_pathname info)] k)
      else if negb kmalloc_ok
      then (1, SUSFS_LOGE func "no enough memory\n" [] k)
      else
        let k := set_LH_TRY_UMOUNT_PATH (LH_TRY_UMOUNT_PATH k ++ [info]) k in
        let k := SUSFS_LOGI func
          "target_pathname: '%s', mnt_mode: %d, is successfully added to LH_TRY_UMOUNT_PATH\n"
          [ArgS (tu_target_pathname info); ArgZ (tu_mnt_mode info)] k in
        (0, k)
  end.

(** [ksu_try_umount] is [extern]; the call is recorded. *)
Definition ksu_try_umount (mnt : string) (check_mnt : bool) (flags uid : Z)
    (k : kernel) : kernel :=
  set_umounts (umounts k ++ [UmountCall mnt check_mnt flags uid]) k.

(** The body of the loop of [susfs_try_umount]. *)
Definition try_umount_one (target_uid : Z) (k : kernel)
    (cursor : st_susfs_try_umount) : kernel :=
  if decide (tu_mnt_mode cursor = TRY_UMOUNT_DEFAULT) then
    ksu_try_umount (tu_target_pathname cursor) false 0 target_uid k
  else if decide (tu_mnt_mode cursor = TRY_UMOUNT_DETACH) then
    ksu_try_umount (tu_target_pathname cursor) false MNT_DETACH target_uid k
  else
    SUSFS_LOGE "susfs_try_umount"
      "failed umounting '%s' for uid: %d, mnt_mode '%d' not supported\n"
      [ArgS (tu_target_pathname cursor); ArgZ target_uid;
       ArgZ (tu_mnt_mode cursor)] k.

(** [list_for_each_entry_reverse]: from the tail of the list to its head. *)
Definition list_for_each_entry_reverse {A S : Type} (body : S → A → S)
    (l : list A) (s : S) : S :=
  foldl body s (reverse l).

(** [void susfs_try_umount(uid_t target_uid)] *)
Definition susfs_try_umount (k : kernel) (target_uid : Z) : kernel :=
  list_for_each_entry_reverse (try_umount_one target_uid)
    (LH_TRY_UMOUNT_PATH k) k.

(** [void susfs_set_log(bool enabled)]; its own message is printed with
    [pr_info], whatever the switch says. *)
Definition susfs_set_log (k : kernel) (enabled : bool) : kernel :=
  let msg := if enabled then "susfs: enable logging to kernel"
             else "susfs: disable logging to kernel" in
  Kernel (namei k) (i_state k) (path_refs k) (SUS_PATH_HLIST k)
         (LH_SUS_MOUNT k) (LH_TRY_UMOUNT_PATH k) enabled
         (klog k ++ [LogLine KERN_INFO "" msg []]) (umounts k).

(** *** Notions used to state the properties *)

(** The live records of the path registry that carry the pathname [name]. *)
Definition live_records (t : gmap Z (list st_susfs_sus_path)) (name : string)
  : nat :=
  length (filter (λ e, sp_target_pathname e = name) (hash_entries t)).

(** The inode carries the mark [flag], by the test the kernel applies:
    [inode->i_state & flag]. *)
Definition inode_marked (flag : Z) (k : kernel) (i : nat) : bool :=
  bool_decide (Z.land (inode_state k i) flag ≠ 0).

(** The object a pathname may be concealed through: the lookup succeeds,
    the filesystem is neither "tmpfs" nor "fuse", the dentry has an inode. *)
Definition sus_path_target (k : kernel) (name : string) : option nat :=
  match namei k !! name with
  | Some p =>
      if decide (s_type_name p = "tmpfs" ∨ s_type_name p = "fuse") then None
      else d_inode p
  | None => None
  end.

(** Two states that differ in the kernel log at most. *)
Definition same_but_log (k k' : kernel) : Prop :=
  namei k' = namei k ∧ i_state k' = i_state k ∧ path_refs k' = path_refs k ∧
  SUS_PATH_HLIST k' = SUS_PATH_HLIST k ∧ LH_SUS_MOUNT k' = LH_SUS_MOUNT k ∧
  LH_TRY_UMOUNT_PATH k' = LH_TRY_UMOUNT_PATH k ∧
  susfs_is_log_enabled k' = susfs_is_log_enabled k ∧ umounts k' = umounts k.

(** The object a mount may be concealed through: the lookup succeeds, the
    mount has no peer group below the reserved range, the dentry has an
    inode. *)
Definition sus_mount_target (k : kernel) (name : string) : option nat :=
  match namei k !! name with
  | Some p =>
      if decide (0 < mnt_group_id p < DEFAULT_SUS_MNT_GROUP_ID) then None
      else d_inode p
  | None => None
  end.

(** No two live records of the path registry carry the same pathname. *)
Definition sus_path_distinct (k : kernel) : Prop :=
  ∀ q, (live_records (SUS_PATH_HLIST k) q ≤ 1)%nat.

(** The pathnames on the mount registry and on the unmount ledger. *)
Definition sus_mount_names (k : kernel) : list string :=
  sm_target_pathname <$> LH_SUS_MOUNT k.

Definition try_umount_names (k : kernel) : list string :=
  tu_target_pathname <$> LH_TRY_UMOUNT_PATH k.

(** The pathname and its terminator fit in the [SUSFS_MAX_LEN_PATHNAME - 1]
    bytes that [strncpy] copies, so that the stored copy is terminated. *)
Definition fits_pathname (name : string) : Prop :=
  (String.length name < SUSFS_MAX_LEN_PATHNAME - 1)%nat.

(** The rest of the kernel may change anything but the three registries. *)
Definition same_registries (k k' : kernel) : Prop :=
  SUS_PATH_HLIST k' = SUS_PATH_HLIST k ∧
  LH_SUS_MOUNT k' = LH_SUS_MOUNT k ∧
  LH_TRY_UMOUNT_PATH k' = LH_TRY_UMOUNT_PATH k.

(** The states of a running system: [susfs_init], then any sequence of
    calls into [susfs.c] interleaved with other kernel activity. *)
Inductive reachable : kernel → Prop :=
  | reach_boot fs : reachable (boot fs)
  | reach_other k k' :
      reachable k → same_registries k k' → reachable k'
  | reach_add_sus_path k user_info kmalloc_ok :
      reachable k →
      (∀ info, user_info = Some info →
               fits_pathname (sp_target_pathname info)) →
      reachable (susfs_add_sus_path k user_info kmalloc_ok).2
  | reach_add_sus_mount k user_info kmalloc_ok :
      reachable k →
      reachable (susfs_add_sus_mount k user_info kmalloc_ok).2
  | reach_add_try_umount k user_info kmalloc_ok :
      reachable k →
      reachable (susfs_add_try_umount k user_info kmalloc_ok).2
  | reach_try_umount k target_uid :
      reachable k → reachable (susfs_try_umount k target_uid).



(** The line [susfs_add_try_umount] logs for a pathname already on the
    ledger. *)
Definition already_created_line (name : string) : log_line :=
  LogLine KERN_ERR "susfs_add_try_umount"
    "target_pathname: '%s' is already created in LH_TRY_UMOUNT_PATH\n"
    [ArgS name].

End Registries.

(** *** A concrete system, for running the functions *)

(** [new_decode_dev] of [linux/kdev_t.h]. *)
Definition new_decode_dev (dev : Z) : Z :=
  let major := Z.shiftr (Z.land dev 1048320) 8 in
  let minor := Z.lor (Z.land dev 255) (Z.land (Z.shiftr dev 12) 1048320) in
  Z.lor (Z.shiftl major 20) minor.

(** One choice of the constants: the pathname buffer has 256 bytes, the two
    inode flags are bits 24 and 25, peer groups from 1000 on are reserved. *)
Definition demo_constants : constants := {|
  SUSFS_MAX_LEN_PATHNAME := 256;
  INODE_STATE_SUS_PATH := 16777216;
  INODE_STATE_SUS_MOUNT := 33554432;
  DEFAULT_SUS_MNT_GROUP_ID := 1000;
  TRY_UMOUNT_DEFAULT := 0;
  TRY_UMOUNT_DETACH := 1;
  MNT_DETACH := 2;
  GOLDEN_RATIO_64 := 7046029254386353131;
  decode_dev := new_decode_dev
|}.

(** A name space with one object per case the code distinguishes. *)
Definition demo_fs : gmap string path :=
  {[ "/system/addon.d" := Path "ext4" 0 (Some 11%nat);
     "/vendor/bin/install-recovery.sh" := Path "erofs" 0 (Some 12%nat);
     "/sdcard/TWRP" := Path "fuse" 0 (Some 13%nat);
     "/debug_ramdisk" := Path "tmpfs" 0 (Some 14%nat);
     "/data/adb/modules" := Path "f2fs" 5 (Some 15%nat);
     "/system/etc/hosts" := Path "ext4" 1000 (Some 16%nat);
     "/dev/negative" := Path "ext4" 0 None ]}.

Definition set_namei (fs : gmap string path) (k : kernel) : kernel :=
  Kernel fs (i_state k) (path_refs k) (SUS_PATH_HLIST k) (LH_SUS_MOUNT k)
         (LH_TRY_UMOUNT_PATH k) (susfs_is_log_enabled k) (klog k) (umounts k).

Definition demo_kernel : kernel := boot demo_fs.

(** Requests of the control channel used as running examples. *)
Definition hide_addon_d : st_susfs_sus_path :=
  SusPath 4242 "/system/addon.d".
Definition hide_addon_d_again : st_susfs_sus_path :=
  SusPath 4243 "/system/addon.d".
Definition hide_twrp : st_susfs_sus_path := SusPath 77 "/sdcard/TWRP".

Definition mount_modules : st_susfs_sus_mount :=
  SusMount "/data/adb/modules" 2049 0.
Definition mount_modules_again : st_susfs_sus_mount :=
  SusMount "/data/adb/modules" 66311 7.
Definition mount_hosts : st_susfs_sus_mount :=
  SusMount "/system/etc/hosts" 2050 0.
Definition mount_addon_d : st_susfs_sus_mount :=
  SusMount "/system/addon.d" 2051 0.

Definition umount_system : st_susfs_try_umount := TryUmount "/system" 0.
Definition umount_system_detach : st_susfs_try_umount :=
  TryUmount "/system" 1.
Definition umount_vendor : st_susfs_try_umount := TryUmount "/vendor" 1.
Definition umount_product : st_susfs_try_umount := TryUmount "/product" 0.

End Susfs.

(** ** Part III: the control surface of [fs/susfs.c] as a whole *)

Module SusfsCalls.

Import Susfs.

Section Calls.

Context `{constants}.

(** One call into [susfs.c] from the control channel or the cleanup hook,
    with what the call finds outside the module: whether the record can be
    copied from user space and whether [kmalloc] succeeds. *)
Inductive susfs_call :=
  | AddSusPath (user_info : option st_susfs_sus_path) (kmalloc_ok : bool)
  | AddSusMount (user_info : option st_susfs_sus_mount) (kmalloc_ok : bool)
  | AddTryUmount (user_info : option st_susfs_try_umount) (kmalloc_ok : bool)
  | TryUmountAll (target_uid : Z)
  | SetLog (enabled : bool).

(** The state a call leaves behind. *)
Definition run (k : kernel) (c : susfs_call) : kernel :=
  match c with
  | AddSusPath user_info kmalloc_ok =>
      (susfs_add_sus_path k user_info kmalloc_ok).2
  | AddSusMount user_info kmalloc_ok =>
      (susfs_add_sus_mount k user_info kmalloc_ok).2
  | AddTryUmount user_info kmalloc_ok =>
      (susfs_add_try_umount k user_info kmalloc_ok).2
  | TryUmountAll target_uid => susfs_try_umount k target_uid
  | SetLog enabled => susfs_set_log k enabled
  end.


(** The [ksu_try_umount] calls a replay adds to the record of calls. *)
Definition replayed (k : kernel) (target_uid : Z) : list umount_call :=
  drop (length (umounts k)) (umounts (susfs_try_umount k target_uid)).

End Calls.

End SusfsCalls.

(** ** Part IV: the rest of the su-compat file *)

Module SucompatRest.

Import Sucompat.

Definition set_non_kp (b : bool) (st : task) : task :=
  Task b (current_uid st) (ksu_is_allow_uid st) (umem st)
       (current_user_stack_pointer st) (cred_is_root st) (trace st).

(** [void ksu_sucompat_init()] *)
Definition ksu_sucompat_init (st : task) : task :=
  pr_info ""
    "ksu_sucompat_init: hooks enabled: execve/execveat_su, faccessat, stat, devpts"
    (set_non_kp true st).

(** [void ksu_sucompat_exit()] *)
Definition ksu_sucompat_exit (st : task) : task :=
  pr_info ""
    "ksu_sucompat_exit: hooks disabled: execve/execveat_su, faccessat, stat, devpts"
    (set_non_kp false st).

(** What [*filename_ptr] may be for [ksu_handle_execveat_sucompat]: the
    argument itself null, an error pointer, or a [struct filename] whose
    [name] points at the bytes [name] of kernel memory. *)
Inductive filename_arg :=
  | FilenameNull
  | FilenameErr (errno : Z)
  | Filename (name : list byte).

(** [memcpy(dst, src, n)] for a source of at least [n] bytes. *)
Definition memcpy (dst src : list byte) (n : nat) : list byte :=
  take n src ++ drop n dst.

Section Rest.

Variable KSUD_PATH : string.

(** [ksu_handle_execveat_sucompat], compiled with
    [KSU_USE_STRUCT_FILENAME]: the path is in kernel memory already. *)
Definition ksu_handle_execveat_sucompat (st : task)
    (filename_ptr : filename_arg) : Z * filename_arg * task :=
  let sh := c_string KSUD_PATH in
  let su := c_string SU_PATH in
  if negb (ksu_sucompat_non_kp st) then (0, filename_ptr, st)
  else if negb (ksu_is_allow_uid st (current_uid st))
  then (0, filename_ptr, st)
  else
    match filename_ptr with
    | FilenameNull => (0, filename_ptr, st)
    | FilenameErr _ => (0, filename_ptr, st)
    | Filename name =>
        if decide (memcmp name su (length su) ≠ 0)
        then (0, filename_ptr, st)
        else
          let st := pr_info "" "do_execveat_common su found" st in
          let name := memcpy name sh (length sh) in
          (0, Filename name, ksu_escape_to_root st)
    end.

End Rest.

(** [int ksu_handle_devpts(struct inode *inode)], "dummified". *)
Definition ksu_handle_devpts (sec_sid : option Z) : Z * option Z :=
  (0, sec_sid).

(** [int __ksu_handle_devpts(struct inode *inode)].  [has_mm] is
    [current->mm != NULL], [sec_sid] the [sid] of the inode's security
    structure, [None] when the inode has none; the result carries the
    [sid] on return. *)
Definition __ksu_handle_devpts (st : task) (has_mm : bool)
    (ksu_devpts_sid : Z) (sec_sid : option Z) : Z * option Z :=
  if negb (ksu_sucompat_non_kp st) then (0, sec_sid)
  else if negb has_mm then (0, sec_sid)
  else
    let uid := current_uid st in
    if decide (uid `mod` 100000 < 10000) then (0, sec_sid)
    else if negb (ksu_is_allow_uid st uid) then (0, sec_sid)
    else if decide (ksu_devpts_sid ≠ 0)
    then (0, match sec_sid with
             | Some _ => Some ksu_devpts_sid
             | None => None
             end)
    else (0, sec_sid).

(** The address range [userspace_stack_buffer] may store [d] in. *)
Definition in_stack_slot (st : task) (d : list byte) (a : Z) : Prop :=
  stack_slot st d ≤ a < stack_slot st d + Z.of_nat (length d).


(** The shell, uid 2000, allow-listed, hooks enabled. *)
Definition task_shell : task :=
  Task true 2000 (allow_only 2000) ∅ 0 false [].

(** A name buffer of 32 bytes holding the trigger path. *)
Definition name_su : list byte :=
  c_string SU_PATH ++ replicate 17 x00.

End SucompatRest.

(** ** Part V: the uname store of [fs/susfs.c] *)

Module Uname.

Import Susfs.

(** [struct new_utsname]. *)
Record new_utsname := NewUtsname {
  sysname : string;
  nodename : string;
  release : string;
  version : string;
  machine : string;
  domainname : string
}.

(** [struct st_susfs_uname]: the two fields the code names. *)
Record st_susfs_uname := SusfsUname {
  un_release : string;
  un_version : string
}.

(** [my_uname], the live [utsname()] and the state the log lives in. *)
Record uts_kernel := UtsKernel {
  base : kernel;
  my_uname : st_susfs_uname;
  utsname : new_utsname
}.

Section Spoof.

(** [__NEW_UTS_LEN] of [linux/utsname.h]; every field of the two
    structures is an array of one byte more. *)
Variable NEW_UTS_LEN : nat.

(** [static void susfs_my_uname_init(void)] *)
Definition susfs_my_uname_init (uk : uts_kernel) : uts_kernel :=
  UtsKernel (base uk) (SusfsUname "" "") (utsname uk).

(** [int susfs_set_uname(struct st_susfs_uname* __user user_info)];
    [user_info] is [None] when [copy_from_user] fails.  [strncpy] fills
    all [__NEW_UTS_LEN] bytes it is given and the byte after them is never
    written, so the field reads back as at most [__NEW_UTS_LEN]
    characters of the source. *)
Definition susfs_set_uname (uk : uts_kernel)
    (user_info : option st_susfs_uname) : Z * uts_kernel :=
  match user_info with
  | None =>
      (1, UtsKernel
            (SUSFS_LOGE "susfs_set_uname" "failed copying from userspace.\n"
               [] (base uk))
            (my_uname uk) (utsname uk))
  | Some info =>
      let rel :=
        if decide (un_release info = "default")
        then strncpy (release (utsname uk)) NEW_UTS_LEN
        else strncpy (un_release info) NEW_UTS_LEN in
      let ver :=
        if decide (un_version info = "default")
        then strncpy (version (utsname uk)) NEW_UTS_LEN
        else strncpy (un_version info) NEW_UTS_LEN in
      (0, UtsKernel
            (SUSFS_LOGI "susfs_set_uname"
               "setting spoofed release: '%s', version: '%s'\n"
               [ArgS rel; ArgS ver] (base uk))
            (SusfsUname rel ver) (utsname uk))
  end.

(** [void susfs_spoof_uname(struct new_utsname* tmp)]; [locked] is what
    [spin_is_locked(&susfs_uname_spin_lock)] returns.  The last byte of
    each array of [tmp] is taken to be NUL, as it is in a copy of
    [utsname()]. *)
Definition susfs_spoof_uname (uk : uts_kernel) (locked : bool)
    (tmp : new_utsname) : new_utsname :=
  if bool_decide (un_release (my_uname uk) = "") || locked then tmp
  else
    NewUtsname (sysname tmp) (nodename tmp)
               (strncpy (un_release (my_uname uk)) NEW_UTS_LEN)
               (strncpy (un_version (my_uname uk)) NEW_UTS_LEN)
               (machine tmp) (domainname tmp).

(** What [uname] reports for the spoofed fields once a record has been
    set: the live value for "default", else the value given, cut to
    [__NEW_UTS_LEN] characters. *)
Definition effective (live given : string) : string :=
  strncpy (if decide (given = "default") then live else given) NEW_UTS_LEN.

End Spoof.

(** A state for running the functions. *)
Definition demo_uts : uts_kernel :=
  UtsKernel demo_kernel (SusfsUname "" "")
    (NewUtsname "Linux" "localhost" "3.18.140-perf+"
       "#1 SMP PREEMPT Mon Nov 2 2026" "aarch64" "(none)").

End Uname.

(** ** Part VI: the FPC1020 platform driver *)

Module Fpc1020.

Inductive log_kind := DEV_ERR | DEV_DBG | DEV_INFO | PRINTK | PR_INFO.

Inductive log_val :=
  | ValS (s : string)
  | ValD (z : Z).

(** The calls the driver makes into the rest of the kernel.  A regulator,
    a pin controller or a pin state is named by its handle, the value of
    the pointer; the device and its device-tree node, which never change,
    are left out of the arguments. *)
Inductive hw_call :=
  | RegulatorGet (name : string)
  | RegulatorCountVoltages (vreg : Z)
  | RegulatorSetVoltage (vreg vmin vmax : Z)
  | RegulatorSetLoad (vreg ua_load : Z)
  | RegulatorEnable (vreg : Z)
  | RegulatorIsEnabled (vreg : Z)
  | RegulatorDisable (vreg : Z)
  | RegulatorPut (vreg : Z)
  | PinctrlSelectState (pinctrl state : Z)
  | PinctrlLookupState (pinctrl : Z) (name : string)
  | DevmPinctrlGet
  | OfGetNamedGpio (label : string)
  | OfPropertyReadBool (name : string)
  | DevmGpioRequest (gpio : Z) (label : string)
  | DevmGpioFree (gpio : Z)
  | GpioIsValid (gpio : Z)
  | GpioToIrq (gpio : Z)
  | DeviceInitWakeup (val : Z)
  | DevmRequestThreadedIrq (irq irqflags : Z)
  | DevmFreeIrq (irq : Z)
  | EnableIrqWake (irq : Z)
  | UsleepRange (min max : Z)
  | GpioGetValue (gpio : Z)
  | MutexLock
  | MutexUnlock
  | MutexDestroy
  | PmWakeupEvent (msecs : Z)
  | WakeupSourceTrash
  | SysfsNotify (attr : string)
  | SysfsRemoveGroup
  | FbUnregisterClient
  | ScheduleWork
  | MdssPrimPanelFbUnblank (timeout : Z)
  | Log (kind : log_kind) (fmt : string) (args : list log_val).

(** [struct vreg_config] *)
Record vreg_config := VregConfig {
  vc_name : string;
  vmin : Z;
  vmax : Z;
  ua_load : Z
}.

(** [struct fpc1020_data]: the fields the functions below use, and the
    calls made so far with what each returned. *)
Record fpc1020_data := Fpc1020Data {
  fingerprint_pinctrl : Z;
  pinctrl_state : list Z;
  vreg : list Z;
  irq_gpio : Z;
  rst_gpio : Z;
  prepared : bool;
  compatible_enabled : bool;
  wakeup_enabled : Z;
  fb_black : bool;
  wait_finger_down : bool;
  hw : list (hw_call * Z)
}.

Definition set_hw (x : list (hw_call * Z)) (d : fpc1020_data) :=
  Fpc1020Data (fingerprint_pinctrl d) (pinctrl_state d) (vreg d) (irq_gpio d) (rst_gpio d)
    (prepared d) (compatible_enabled d) (wakeup_enabled d) (fb_black d)
    (wait_finger_down d) x.

Definition set_vreg (x : list Z) (d : fpc1020_data) :=
  Fpc1020Data (fingerprint_pinctrl d) (pinctrl_state d) x (irq_gpio d) (rst_gpio d)
    (prepared d) (compatible_enabled d) (wakeup_enabled d) (fb_black d)
    (wait_finger_down d) (hw d).

Definition set_prepared (x : bool) (d : fpc1020_data) :=
  Fpc1020Data (fingerprint_pinctrl d) (pinctrl_state d) (vreg d) (irq_gpio d) (rst_gpio d)
    x (compatible_enabled d) (wakeup_enabled d) (fb_black d)
    (wait_finger_down d) (hw d).

Definition set_wakeup_enabled (x : Z) (d : fpc1020_data) :=
  Fpc1020Data (fingerprint_pinctrl d) (pinctrl_state d) (vreg d) (irq_gpio d) (rst_gpio d)
    (prepared d) (compatible_enabled d) x (fb_black d)
    (wait_finger_down d) (hw d).

Definition set_fb_black (x : bool) (d : fpc1020_data) :=
  Fpc1020Data (fingerprint_pinctrl d) (pinctrl_state d) (vreg d) (irq_gpio d) (rst_gpio d)
    (prepared d) (compatible_enabled d) (wakeup_enabled d) x
    (wait_finger_down d) (hw d).

Definition set_wait_finger_down (x : bool) (d : fpc1020_data) :=
  Fpc1020Data (fingerprint_pinctrl d) (pinctrl_state d) (vreg d) (irq_gpio d) (rst_gpio d)
    (prepared d) (compatible_enabled d) (wakeup_enabled d) (fb_black d)
    x (hw d).

Definition set_fingerprint_pinctrl (x : Z) (d : fpc1020_data) :=
  Fpc1020Data x (pinctrl_state d) (vreg d) (irq_gpio d) (rst_gpio d)
    (prepared d) (compatible_enabled d) (wakeup_enabled d) (fb_black d)
    (wait_finger_down d) (hw d).

Definition set_pinctrl_state (x : list Z) (d : fpc1020_data) :=
  Fpc1020Data (fingerprint_pinctrl d) x (vreg d) (irq_gpio d) (rst_gpio d)
    (prepared d) (compatible_enabled d) (wakeup_enabled d) (fb_black d)
    (wait_finger_down d) (hw d).

Definition set_irq_gpio (x : Z) (d : fpc1020_data) :=
  Fpc1020Data (fingerprint_pinctrl d) (pinctrl_state d) (vreg d) x (rst_gpio d)
    (prepared d) (compatible_enabled d) (wakeup_enabled d) (fb_black d)
    (wait_finger_down d) (hw d).

Definition set_rst_gpio (x : Z) (d : fpc1020_data) :=
  Fpc1020Data (fingerprint_pinctrl d) (pinctrl_state d) (vreg d) (irq_gpio d) x
    (prepared d) (compatible_enabled d) (wakeup_enabled d) (fb_black d)
    (wait_finger_down d) (hw d).

Definition set_compatible_enabled (x : bool) (d : fpc1020_data) :=
  Fpc1020Data (fingerprint_pinctrl d) (pinctrl_state d) (vreg d) (irq_gpio d) (rst_gpio d)
    (prepared d) x (wakeup_enabled d) (fb_black d)
    (wait_finger_down d) (hw d).

Definition FPC_TTW_HOLD_TIME : Z := 2000.
Definition FP_UNLOCK_REJECTION_TIMEOUT : Z := FPC_TTW_HOLD_TIME - 500.
Definition RESET_LOW_SLEEP_MIN_US : Z := 5000.
Definition RESET_LOW_SLEEP_MAX_US : Z := RESET_LOW_SLEEP_MIN_US + 100.
Definition RESET_HIGH_SLEEP1_MIN_US : Z := 100.
Definition RESET_HIGH_SLEEP1_MAX_US : Z := RESET_HIGH_SLEEP1_MIN_US + 100.
Definition RESET_HIGH_SLEEP2_MIN_US : Z := 5000.
Definition RESET_HIGH_SLEEP2_MAX_US : Z := RESET_HIGH_SLEEP2_MIN_US + 100.
Definition PWR_ON_SLEEP_MIN_US : Z := 100.
Definition PWR_ON_SLEEP_MAX_US : Z := PWR_ON_SLEEP_MIN_US + 900.

Definition pctl_names : list string :=
  ["fpc1020_reset_reset"; "fpc1020_reset_active"; "fpc1020_irq_active"].

Definition vreg_conf : list vreg_config :=
  [VregConfig "vdd_ana" 1800000 1800000 6000;
   VregConfig "vcc_spi" 1800000 1800000 10;
   VregConfig "vdd_io" 1800000 1800000 6000].

Definition EINVAL : Z := 22.
Definition EPROBE_DEFER : Z := 517.

(** [IS_ERR] and [PTR_ERR] of [linux/err.h]: the last 4095 addresses are
    error values, read as negative numbers. *)
Definition IS_ERR (p : Z) : bool := bool_decide (-4095 ≤ p ≤ -1).
Definition PTR_ERR (p : Z) : Z := p.

(** The loops over [vreg_conf] and [pctl_names]: the index of the first
    entry [n] with [strncmp(n, name, strlen(n)) == 0], that is, the first
    entry that [name] starts with. *)
Fixpoint first_match (names : list string) (name : string) (i : nat)
  : option nat :=
  match names with
  | [] => None
  | n :: rest =>
      if String.prefix n name then Some i
      else first_match rest name (S i)
  end.

(** Constants of [linux/fb.h], [linux/notifier.h], [linux/irqreturn.h]
    and [linux/interrupt.h]. *)
Class fb_constants := FbConstants {
  FB_EVENT_BLANK : Z;
  FB_BLANK_POWERDOWN : Z;
  FB_BLANK_UNBLANK : Z;
  NOTIFY_OK : Z;
  IRQ_HANDLED : Z;
  IRQF_TRIGGER_RISING : Z;
  IRQF_ONESHOT : Z;
  IRQF_NO_SUSPEND : Z
}.

Section Driver.

(** What a call into the kernel returns, given the calls made before it.
    The result of a call that returns nothing is not used. *)
Variable env : list (hw_call * Z) → hw_call → Z.

Context `{fb_constants}.

(** [sscanf(buf, "%15[^,],%c", name, &op)] of [regulator_enable_set]:
    [Some (name, op)] when it returns 2, the number of conversions asked
    for, and [None] otherwise. *)
Variable sscanf_name_op : string → option (string * Ascii.ascii).

Definition call (c : hw_call) (d : fpc1020_data) : Z * fpc1020_data :=
  let r := env (hw d) c in
  (r, set_hw (hw d ++ [(c, r)]) d).

Definition void (c : hw_call) (d : fpc1020_data) : fpc1020_data :=
  (call c d).2.

Definition dev_err (fmt : string) (args : list log_val) :=
  void (Log DEV_ERR fmt args).
Definition dev_dbg (fmt : string) (args : list log_val) :=
  void (Log DEV_DBG fmt args).
Definition dev_info (fmt : string) (args : list log_val) :=
  void (Log DEV_INFO fmt args).
Definition printk (fmt : string) (args : list log_val) :=
  void (Log PRINTK fmt args).
Definition pr_info (fmt : string) (args : list log_val) :=
  void (Log PR_INFO fmt args).

(** [static int vreg_setup(fpc1020, name, enable)] *)
Definition vreg_setup (d : fpc1020_data) (name : string) (enable : bool)
  : Z * fpc1020_data :=
  match first_match (vc_name <$> vreg_conf) name 0 with
  | None => (- EINVAL, dev_err "Regulator %s not found\n" [ValS name] d)
  | Some i =>
      let conf := default (VregConfig "" 0 0 0) (vreg_conf !! i) in
      let vreg0 := default 0 (vreg d !! i) in
      if enable then
        let '(failed, vreg1, d) :=
          if decide (vreg0 = 0) then
            let '(v, d) := call (RegulatorGet name) d in
            if IS_ERR v
            then (true, v, dev_err "Unable to get %s\n" [ValS name] d)
            else (false, v, d)
          else (false, vreg0, d) in
        if failed then (PTR_ERR vreg1, d)
        else
          let '(n, d) := call (RegulatorCountVoltages vreg1) d in
          let d :=
            if decide (n > 0) then
              let '(rc, d) :=
                call (RegulatorSetVoltage vreg1 (vmin conf) (vmax conf)) d in
              if decide (rc ≠ 0)
              then dev_err "Unable to set voltage on %s, %d\n"
                     [ValS name; ValD rc] d
              else d
            else d in
          let '(rc, d) := call (RegulatorSetLoad vreg1 (ua_load conf)) d in
          let d :=
            if decide (rc < 0)
            then dev_err "Unable to set current on %s, %d\n"
                   [ValS name; ValD rc] d
            else d in
          let '(rc, d) := call (RegulatorEnable vreg1) d in
          let '(vreg2, d) :=
            if decide (rc ≠ 0)
            then (0, void (RegulatorPut vreg1)
                       (dev_err "error enabling %s: %d\n"
                          [ValS name; ValD rc] d))
            else (vreg1, d) in
          (rc, set_vreg (<[i := vreg2]> (vreg d)) d)
      else
        let d :=
          if decide (vreg0 ≠ 0) then
            let '(en, d) := call (RegulatorIsEnabled vreg0) d in
            let d :=
              if decide (en ≠ 0)
              then dev_dbg "disabled %s\n" [ValS name]
                     (void (RegulatorDisable vreg0) d)
              else d in
            let d := void (RegulatorPut vreg0) d in
            set_vreg (<[i := 0]> (vreg d)) d
          else d in
        (0, d)
  end.

(** [clk_enable_set] *)
Definition clk_enable_set (d : fpc1020_data) (buf : string) (count : Z)
  : Z * fpc1020_data :=
  (count,
   dev_dbg "clk_enable sysfs node not enabled in platform driver\n" [] d).

(** [static int select_pin_ctl(fpc1020, name)] *)
Definition select_pin_ctl (d : fpc1020_data) (name : string)
  : Z * fpc1020_data :=
  match first_match pctl_names name 0 with
  | Some i =>
      let '(rc, d) :=
        call (PinctrlSelectState (fingerprint_pinctrl d)
                (default 0 (pinctrl_state d !! i))) d in
      (rc, if decide (rc ≠ 0)
           then dev_err "cannot select '%s'\n" [ValS name] d
           else dev_dbg "Selected '%s'\n" [ValS name] d)
  | None =>
      (- EINVAL,
       dev_err "%s:'%s' not found\n" [ValS "select_pin_ctl"; ValS name] d)
  end.

(** [pinctl_set] *)
Definition pinctl_set (d : fpc1020_data) (buf : string) (count : Z)
  : Z * fpc1020_data :=
  let d := void MutexLock d in
  let '(rc, d) := select_pin_ctl d buf in
  let d := void MutexUnlock d in
  (if decide (rc ≠ 0) then rc else count, d).

(** [regulator_enable_set] *)
Definition regulator_enable_set (d : fpc1020_data) (buf : string)
    (count : Z) : Z * fpc1020_data :=
  match sscanf_name_op buf with
  | None => (- EINVAL, d)
  | Some (name, op) =>
      let run (enable : bool) :=
        let d := void MutexLock d in
        let '(rc, d) := vreg_setup d name enable in
        let d := void MutexUnlock d in
        (if decide (rc ≠ 0) then rc else count, d) in
      if decide (op = "e"%char) then run true
      else if decide (op = "d"%char) then run false
      else (- EINVAL, d)
  end.

(** [static int hw_reset(fpc1020)] *)
Definition hw_reset (d : fpc1020_data) : Z * fpc1020_data :=
  let '(rc, d) := select_pin_ctl d "fpc1020_reset_active" in
  if decide (rc ≠ 0) then (rc, d)
  else
    let d :=
      void (UsleepRange RESET_HIGH_SLEEP1_MIN_US RESET_HIGH_SLEEP1_MAX_US) d in
    let '(rc, d) := select_pin_ctl d "fpc1020_reset_reset" in
    if decide (rc ≠ 0) then (rc, d)
    else
      let d :=
        void (UsleepRange RESET_LOW_SLEEP_MIN_US RESET_LOW_SLEEP_MAX_US) d in
      let '(rc, d) := select_pin_ctl d "fpc1020_reset_active" in
      if decide (rc ≠ 0) then (rc, d)
      else
        let d :=
          void (UsleepRange RESET_HIGH_SLEEP2_MIN_US
                  RESET_HIGH_SLEEP2_MAX_US) d in
        let '(irq, d) := call (GpioGetValue (irq_gpio d)) d in
        (rc, dev_info "IRQ after reset %d\n" [ValD irq] d).

(** [hw_reset_set] *)
Definition hw_reset_set (d : fpc1020_data) (buf : string) (count : Z)
  : Z * fpc1020_data :=
  if String.prefix "reset" buf then
    let d := void MutexLock d in
    let '(rc, d) := hw_reset d in
    let d := void MutexUnlock d in
    (if decide (rc ≠ 0) then rc else count, d)
  else (- EINVAL, d).

(** The labels [exit], [exit_1] and [exit_2] of [device_prepare]. *)
Definition device_prepare_exit (d : fpc1020_data) : fpc1020_data :=
  set_prepared false d.

Definition device_prepare_exit_1 (d : fpc1020_data) : fpc1020_data :=
  device_prepare_exit (vreg_setup d "vcc_spi" false).2.

Definition device_prepare_exit_2 (d : fpc1020_data) : fpc1020_data :=
  device_prepare_exit_1 (vreg_setup d "vdd_io" false).2.

(** [static int device_prepare(fpc1020, enable)] *)
Definition device_prepare (d : fpc1020_data) (enable : bool)
  : Z * fpc1020_data :=
  let d := void MutexLock d in
  let '(rc, d) :=
    if enable && negb (prepared d) then
      let d := set_prepared true d in
      let d := (select_pin_ctl d "fpc1020_reset_reset").2 in
      let '(rc, d) := vreg_setup d "vcc_spi" true in
      if decide (rc ≠ 0) then (rc, device_prepare_exit d)
      else
        let '(rc, d) := vreg_setup d "vdd_io" true in
        if decide (rc ≠ 0) then (rc, device_prepare_exit_1 d)
        else
          let '(rc, d) := vreg_setup d "vdd_ana" true in
          if decide (rc ≠ 0) then (rc, device_prepare_exit_2 d)
          else
            let d :=
              void (UsleepRange PWR_ON_SLEEP_MIN_US PWR_ON_SLEEP_MAX_US) d in
            (rc, (select_pin_ctl d "fpc1020_reset_active").2)
    else if negb enable && prepared d then
      let d := (select_pin_ctl d "fpc1020_reset_reset").2 in
      let d :=
        void (UsleepRange PWR_ON_SLEEP_MIN_US PWR_ON_SLEEP_MAX_US) d in
      let d := (vreg_setup d "vdd_ana" false).2 in
      (0, device_prepare_exit_2 d)
    else (0, d) in
  (rc, void MutexUnlock d).

(** [device_prepare_set] *)
Definition device_prepare_set (d : fpc1020_data) (buf : string) (count : Z)
  : Z * fpc1020_data :=
  if String.prefix "enable" buf then
    let '(rc, d) := device_prepare d true in
    (if decide (rc ≠ 0) then rc else count, d)
  else if String.prefix "disable" buf then
    let '(rc, d) := device_prepare d false in
    (if decide (rc ≠ 0) then rc else count, d)
  else (- EINVAL, d).

(** [wakeup_enable_set] *)
Definition wakeup_enable_set (d : fpc1020_data) (buf : string) (count : Z)
  : Z * fpc1020_data :=
  let d := void MutexLock d in
  let '(ret, d) :=
    if String.prefix "enable" buf then (count, set_wakeup_enabled 1 d)
    else if String.prefix "disable" buf then (count, set_wakeup_enabled 0 d)
    else (- EINVAL, d) in
  (ret, void MutexUnlock d).

(** [irq_ack] *)
Definition irq_ack (d : fpc1020_data) (buf : string) (count : Z)
  : Z * fpc1020_data :=
  (count, dev_dbg "%s\n" [ValS "irq_ack"] d).

(** [fingerdown_wait_set] *)
Definition fingerdown_wait_set (d : fpc1020_data) (buf : string) (count : Z)
  : Z * fpc1020_data :=
  let d := dev_err "%s\n" [ValS "fingerdown_wait_set"] d in
  if String.prefix "enable" buf then (count, set_wait_finger_down true d)
  else if String.prefix "disable" buf
  then (count, set_wait_finger_down false d)
  else (- EINVAL, d).

(** [static int fpc1020_request_named_gpio(fpc1020, label, gpio)];
    [set_gpio] stores through the pointer [gpio]. *)
Definition fpc1020_request_named_gpio (d : fpc1020_data) (label : string)
    (set_gpio : Z → fpc1020_data → fpc1020_data) : Z * fpc1020_data :=
  let '(rc, d) := call (OfGetNamedGpio label) d in
  if decide (rc < 0)
  then (rc, dev_err "failed to get '%s'\n" [ValS label] d)
  else
    let gpio := rc in
    let d := set_gpio gpio d in
    let '(rc, d) := call (DevmGpioRequest gpio label) d in
    if decide (rc ≠ 0)
    then (rc, dev_err "failed to request gpio %d\n" [ValD gpio] d)
    else (0, dev_dbg "%s %d\n" [ValS label; ValD gpio] d).

(** The loop of [compatible_all_set] over [pctl_names], from index [i]
    on; [false] when a state is not found. *)
Fixpoint lookup_states (names : list string) (i : nat) (d : fpc1020_data)
  : bool * fpc1020_data :=
  match names with
  | [] => (true, d)
  | n :: rest =>
      let '(state, d) :=
        call (PinctrlLookupState (fingerprint_pinctrl d) n) d in
      if IS_ERR state
      then (false, dev_err "cannot find '%s'\n" [ValS n] d)
      else
        let d := dev_info "found pin control %s\n" [ValS n] d in
        let d := set_pinctrl_state (<[i := state]> (pinctrl_state d)) d in
        lookup_states rest (S i) d
  end.

(** [compatible_all_set].  Every failure leaves through the label [exit],
    which returns [-EINVAL]; otherwise the function ends with [hw_reset]
    and returns [count]. *)
Definition compatible_all_set (d : fpc1020_data) (buf : string) (count : Z)
  : Z * fpc1020_data :=
  let d :=
    dev_err "compatible all enter %d\n"
      [ValD (Z.b2z (compatible_enabled d))] d in
  let finish (d : fpc1020_data) := (count, (hw_reset d).2) in
  if String.prefix "enable" buf && negb (compatible_enabled d) then
    let '(rc, d) :=
      fpc1020_request_named_gpio d "fpc,gpio_irq" set_irq_gpio in
    if decide (rc ≠ 0) then (- EINVAL, d)
    else
      let '(rc, d) :=
        fpc1020_request_named_gpio d "fpc,gpio_rst" set_rst_gpio in
      let d := dev_err "fpc request reset result = %d\n" [ValD rc] d in
      if decide (rc ≠ 0) then (- EINVAL, d)
      else
        let '(pinctrl, d) := call DevmPinctrlGet d in
        let d := set_fingerprint_pinctrl pinctrl d in
        if IS_ERR pinctrl then
          if decide (PTR_ERR pinctrl = - EPROBE_DEFER)
          then (- EINVAL, dev_info "pinctrl not ready\n" [] d)
          else
            let d := dev_err "Target does not use pinctrl\n" [] d in
            (- EINVAL, set_fingerprint_pinctrl 0 d)
        else
          let '(found, d) := lookup_states pctl_names 0 d in
          if negb found then (- EINVAL, d)
          else
            let '(rc, d) := select_pin_ctl d "fpc1020_reset_reset" in
            if decide (rc ≠ 0) then (- EINVAL, d)
            else
              let '(rc, d) := select_pin_ctl d "fpc1020_irq_active" in
              if decide (rc ≠ 0) then (- EINVAL, d)
              else
                let irqf := Z.lor IRQF_TRIGGER_RISING IRQF_ONESHOT in
                let '(wakeup, d) :=
                  call (OfPropertyReadBool "fpc,enable-wakeup") d in
                let '(irqf, d) :=
                  if decide (wakeup ≠ 0)
                  then (Z.lor irqf IRQF_NO_SUSPEND,
                        void (DeviceInitWakeup 1) d)
                  else (irqf, d) in
                let '(irq, d) := call (GpioToIrq (irq_gpio d)) d in
                let '(rc, d) := call (DevmRequestThreadedIrq irq irqf) d in
                if decide (rc ≠ 0) then
                  let '(irq, d) := call (GpioToIrq (irq_gpio d)) d in
                  (- EINVAL,
                   dev_err "could not request irq %d\n" [ValD irq] d)
                else
                  let '(irq, d) := call (GpioToIrq (irq_gpio d)) d in
                  let d := dev_dbg "requested irq %d\n" [ValD irq] d in
                  let '(irq, d) := call (GpioToIrq (irq_gpio d)) d in
                  let d := void (EnableIrqWake irq) d in
                  let d := set_compatible_enabled true d in
                  let '(on_boot, d) :=
                    call (OfPropertyReadBool "fpc,enable-on-boot") d in
                  let d :=
                    if decide (on_boot ≠ 0) then
                      let d := dev_info "Enabling hardware\n" [] d in
                      (device_prepare d true).2
                    else d in
                  finish d
  else if String.prefix "disable" buf && compatible_enabled d then
    let '(valid, d) := call (GpioIsValid (irq_gpio d)) d in
    let d :=
      if decide (valid ≠ 0)
      then pr_info "remove irq_gpio success\n" []
             (void (DevmGpioFree (irq_gpio d)) d)
      else d in
    let '(valid, d) := call (GpioIsValid (rst_gpio d)) d in
    let d :=
      if decide (valid ≠ 0)
      then pr_info "remove rst_gpio success\n" []
             (void (DevmGpioFree (rst_gpio d)) d)
      else d in
    let '(irq, d) := call (GpioToIrq (irq_gpio d)) d in
    let d := void (DevmFreeIrq irq) d in
    let d := set_compatible_enabled false d in
    finish d
  else finish d.

(** [static void notification_work(struct work_struct *work)] *)
Definition notification_work (d : fpc1020_data) : fpc1020_data :=
  printk "unblank\n" []
    (void (MdssPrimPanelFbUnblank FP_UNLOCK_REJECTION_TIMEOUT) d).

(** [static irqreturn_t fpc1020_irq_handler(int irq, void *handle)]; the
    wake-up event is recorded with its time in milliseconds. *)
Definition fpc1020_irq_handler (d : fpc1020_data) : Z * fpc1020_data :=
  let d := dev_err "%s\n" [ValS "fpc1020_irq_handler"] d in
  let d :=
    if decide (wakeup_enabled d ≠ 0)
    then void (PmWakeupEvent FPC_TTW_HOLD_TIME) d
    else d in
  let d := void (SysfsNotify "irq") d in
  let d :=
    if wait_finger_down d && fb_black d then
      let d := printk "%s enter\n" [ValS "fpc1020_irq_handler"] d in
      let d := set_wait_finger_down false d in
      void ScheduleWork d
    else d in
  (IRQ_HANDLED, d).

(** [fpc_fb_notif_callback(nb, val, data)].  [data] is [None] for a null
    [data], [Some None] when [evdata->data] is null and [Some (Some b)]
    when it points at [b]; the device found through [container_of] is
    never null. *)
Definition fpc_fb_notif_callback (d : fpc1020_data) (val : Z)
    (data : option (option Z)) : Z * fpc1020_data :=
  if decide (val ≠ FB_EVENT_BLANK) then (0, d)
  else
    let d :=
      printk "[info] %s value = %d\n"
        [ValS "fpc_fb_notif_callback"; ValD val] d in
    let d :=
      match data with
      | Some (Some blank) =>
          if decide (blank = FB_BLANK_POWERDOWN) then set_fb_black true d
          else if decide (blank = FB_BLANK_UNBLANK)
          then set_fb_black false d
          else printk "%s defalut\n" [ValS "fpc_fb_notif_callback"] d
      | _ => d
      end in
    (NOTIFY_OK, d).

(** [static int fpc1020_remove(struct platform_device *pdev)] *)
Definition fpc1020_remove (d : fpc1020_data) : Z * fpc1020_data :=
  let d := void FbUnregisterClient d in
  let d := void SysfsRemoveGroup d in
  let d := void MutexDestroy d in
  let d := void WakeupSourceTrash d in
  let d := (vreg_setup d "vdd_ana" false).2 in
  let d := (vreg_setup d "vdd_io" false).2 in
  let d := (vreg_setup d "vcc_spi" false).2 in
  (0, dev_info "%s\n" [ValS "fpc1020_remove"] d).

(** [n] interrupts in a row. *)
Fixpoint interrupts (n : nat) (d : fpc1020_data) : fpc1020_data :=
  match n with
  | O => d
  | S k => interrupts k (fpc1020_irq_handler d).2
  end.

(** A run of framebuffer notifications, each a [val] and a [data]. *)
Definition notifications (evs : list (Z * option (option Z)))
    (d : fpc1020_data) : fpc1020_data :=
  foldl (λ d e, (fpc_fb_notif_callback d e.1 e.2).2) d evs.

(** The blank state a framebuffer notification carries, if it is an
    [FB_EVENT_BLANK] with data. *)
Definition blank_of (e : Z * option (option Z)) : option Z :=
  if decide (e.1 = FB_EVENT_BLANK) then mjoin e.2 else None.

(** What can happen to a bound device: a write to one of its nine sysfs
    nodes, an interrupt, a framebuffer notification, the deferred work,
    its removal. *)
Inductive driver_op :=
  | OpPinctlSet (buf : string) (count : Z)
  | OpRegulatorEnableSet (buf : string) (count : Z)
  | OpCompatibleAllSet (buf : string) (count : Z)
  | OpHwResetSet (buf : string) (count : Z)
  | OpDevicePrepareSet (buf : string) (count : Z)
  | OpWakeupEnableSet (buf : string) (count : Z)
  | OpClkEnableSet (buf : string) (count : Z)
  | OpIrqAck (buf : string) (count : Z)
  | OpFingerdownWaitSet (buf : string) (count : Z)
  | OpIrq
  | OpFbNotify (val : Z) (data : option (option Z))
  | OpNotificationWork
  | OpRemove.

Definition run_op (d : fpc1020_data) (op : driver_op) : Z * fpc1020_data :=
  match op with
  | OpPinctlSet buf count => pinctl_set d buf count
  | OpRegulatorEnableSet buf count => regulator_enable_set d buf count
  | OpCompatibleAllSet buf count => compatible_all_set d buf count
  | OpHwResetSet buf count => hw_reset_set d buf count
  | OpDevicePrepareSet buf count => device_prepare_set d buf count
  | OpWakeupEnableSet buf count => wakeup_enable_set d buf count
  | OpClkEnableSet buf count => clk_enable_set d buf count
  | OpIrqAck buf count => irq_ack d buf count
  | OpFingerdownWaitSet buf count => fingerdown_wait_set d buf count
  | OpIrq => fpc1020_irq_handler d
  | OpFbNotify val data => fpc_fb_notif_callback d val data
  | OpNotificationWork => (0, notification_work d)
  | OpRemove => fpc1020_remove d
  end.

Definition run_ops (ops : list driver_op) (d : fpc1020_data)
  : fpc1020_data :=
  foldl (λ d op, (run_op d op).2) d ops.

End Driver.

(** The calls made since the state [d], with what they returned. *)
Definition since (d d' : fpc1020_data) : list (hw_call * Z) :=
  drop (length (hw d)) (hw d').

Definition calls_since (d d' : fpc1020_data) : list hw_call :=
  (since d d').*1.

(** A handle, or nothing for a null pointer. *)
Definition held1 (v : Z) : list Z := if decide (v = 0) then [] else [v].

(** The regulator handles a device holds in its slots. *)
Definition held (d : fpc1020_data) : list Z :=
  filter (λ v, v ≠ 0) (vreg d).

(** The handles [regulator_get] handed out in a run of calls (error values
    and null pointers are not handles), and the handles given back with
    [regulator_put]. *)
Definition got (evs : list (hw_call * Z)) : list Z :=
  omap (λ e, match e.1 with
             | RegulatorGet _ =>
                 if IS_ERR e.2 then None
                 else if decide (e.2 = 0) then None else Some e.2
             | _ => None
             end) evs.

Definition puts (evs : list (hw_call * Z)) : list Z :=
  omap (λ e, match e.1 with
             | RegulatorPut v => if decide (v = 0) then None else Some v
             | _ => None
             end) evs.

(** The pin states selected in a run of calls, each with the result of
    selecting it. *)
Definition selects (evs : list (hw_call * Z)) : list (Z * Z) :=
  omap (λ e, match e.1 with
             | PinctrlSelectState _ s => Some (s, e.2)
             | _ => None
             end) evs.

(** The lock and unlock calls in a run of calls. *)
Definition locks (evs : list (hw_call * Z)) : list hw_call :=
  omap (λ e, match e.1 with
             | MutexLock => Some MutexLock
             | MutexUnlock => Some MutexUnlock
             | _ => None
             end) evs.

(** A run of calls without its log lines. *)
Definition without_logs (evs : list (hw_call * Z)) : list hw_call :=
  omap (λ e, match e.1 with
             | Log _ _ _ => None
             | c => Some c
             end) evs.

(** From [d] to [d'] calls are only added, the number of slots stays the
    same, and every handle is accounted for: what was held and what was
    handed out is what was given back and what is held now. *)
Definition conserved (d d' : fpc1020_data) : Prop :=
  length (vreg d') = length (vreg d) ∧
  (∃ evs, hw d' = hw d ++ evs) ∧
  held d ++ got (since d d') ≡ₚ puts (since d d') ++ held d'.

(** The fields of the device other than the regulator slots and the
    record of calls. *)
Definition same_settings (d d' : fpc1020_data) : Prop :=
  fingerprint_pinctrl d' = fingerprint_pinctrl d ∧
  pinctrl_state d' = pinctrl_state d ∧
  irq_gpio d' = irq_gpio d ∧ rst_gpio d' = rst_gpio d ∧
  prepared d' = prepared d ∧ compatible_enabled d' = compatible_enabled d ∧
  wakeup_enabled d' = wakeup_enabled d ∧ fb_black d' = fb_black d ∧
  wait_finger_down d' = wait_finger_down d.

Definition is_get (c : hw_call) : option string :=
  match c with RegulatorGet n => Some n | _ => None end.

Definition is_schedule (c : hw_call) : bool :=
  match c with ScheduleWork => true | _ => false end.

Definition is_wakeup (c : hw_call) : bool :=
  match c with PmWakeupEvent _ => true | _ => false end.

Definition is_notify (c : hw_call) : bool :=
  match c with SysfsNotify _ => true | _ => false end.

(** How many of a run of calls satisfy [p]. *)
Definition count_calls (p : hw_call → bool) (evs : list (hw_call * Z))
  : nat :=
  length (filter (λ e, p e.1 = true) evs).

(** The fields of the device other than the record of calls. *)
Definition same_device (d d' : fpc1020_data) : Prop :=
  fingerprint_pinctrl d' = fingerprint_pinctrl d ∧
  pinctrl_state d' = pinctrl_state d ∧ vreg d' = vreg d ∧
  irq_gpio d' = irq_gpio d ∧ rst_gpio d' = rst_gpio d ∧
  prepared d' = prepared d ∧ compatible_enabled d' = compatible_enabled d ∧
  wakeup_enabled d' = wakeup_enabled d ∧ fb_black d' = fb_black d ∧
  wait_finger_down d' = wait_finger_down d.

(** A device after [fpc1020_probe]: nothing held, nothing prepared. *)
Definition demo_device : fpc1020_data :=
  Fpc1020Data 100 [101; 102; 103] [0; 0; 0] 48 49 false false 0 false false
    [].

(** A prepared device holding the handles 1003, 1001 and 1002 for
    vdd_ana, vcc_spi and vdd_io. *)
Definition demo_powered : fpc1020_data :=
  Fpc1020Data 100 [101; 102; 103] [1003; 1001; 1002] 48 49 true false 0
    false false [].

(** A device that waits for a finger with the screen black, allowed to
    wake the platform up. *)
Definition demo_waiting : fpc1020_data :=
  Fpc1020Data 100 [101; 102; 103] [0; 0; 0] 48 49 false false 1 true true
    [].

(** A kernel in which every call succeeds: [regulator_get] hands out the
    handles 1001, 1002, ... in turn, and everything else returns 0. *)
Definition env_ok (h : list (hw_call * Z)) (c : hw_call) : Z :=
  match c with
  | RegulatorGet _ => 1001 + Z.of_nat (length (omap is_get h.*1))
  | RegulatorIsEnabled _ => 1
  | _ => 0
  end.

(** A kernel in which the third regulator handed out, the one with
    handle 1003, cannot be enabled. *)
Definition env_no_third (h : list (hw_call * Z)) (c : hw_call) : Z :=
  match c with
  | RegulatorEnable v => if bool_decide (v = 1003) then -5 else 0
  | _ => env_ok h c
  end.

(** A kernel on a board whose device tree names the lines 48 and 49 for
    the interrupt and the reset, gives the pin controller 100 with the
    states 101, 102 and 103, and sets both [fpc,enable-wakeup] and
    [fpc,enable-on-boot]: every line is valid, line [g] has the interrupt
    [300 + g], and everything else is as in [env_ok]. *)
Definition env_board (h : list (hw_call * Z)) (c : hw_call) : Z :=
  match c with
  | OfGetNamedGpio label =>
      if decide (label = "fpc,gpio_irq") then 48 else 49
  | DevmPinctrlGet => 100
  | PinctrlLookupState _ name =>
      match first_match pctl_names name 0 with
      | Some i => 101 + Z.of_nat i
      | None => -22
      end
  | OfPropertyReadBool _ => 1
  | GpioIsValid _ => 1
  | GpioToIrq g => 300 + g
  | _ => env_ok h c
  end.

Definition demo_fb_constants : fb_constants :=
  FbConstants 9 4 0 1 1 1 8192 16384.

(** The regulator names and results of the [regulator_get] calls in a run
    of calls, and the handles and results of its [regulator_enable]
    calls. *)
Definition gets (evs : list (hw_call * Z)) : list (string * Z) :=
  omap (λ e, match e.1 with
             | RegulatorGet n => Some (n, e.2)
             | _ => None
             end) evs.

Definition enables (evs : list (hw_call * Z)) : list (Z * Z) :=
  omap (λ e, match e.1 with
             | RegulatorEnable v => Some (v, e.2)
             | _ => None
             end) evs.

(** What [sscanf] makes of [buf] for the format "%15[^,],%c": up to 15
    characters other than a comma, at least one; a comma; one
    character. *)
Fixpoint scan_name (n : nat) (buf : string) : string * string :=
  match n, buf with
  | S k, String c rest =>
      if decide (c = ","%char) then (EmptyString, buf)
      else let '(name, rest') := scan_name k rest in (String c name, rest')
  | _, _ => (EmptyString, buf)
  end.

Definition demo_sscanf (buf : string) : option (string * Ascii.ascii) :=
  match scan_name 15 buf with
  | (String c name, String sep (String op _)) =>
      if decide (sep = ","%char) then Some (String c name, op) else None
  | _ => None
  end.

End Fpc1020.

(** * Properties of the su-compat dispatcher *)

Section SucompatFacts.

Import Sucompat.

Variable KSUD_PATH : string.

Lemma user_read_length m f a n : (length (user_read m f a n) ≤ n)%nat.
Proof.
  revert a; induction n as [|n IH]; intros a; simpl; [lia|].
  destruct (m !! a) as [c|]; simpl; [|lia].
  destruct (f && negb (cell_nofault c)); simpl; [lia|].
  specialize (IH (a + 1)). lia.
Qed.

Lemma user_read_fast_full m a n :
  length (user_read m true a n) = n →
  user_read m true a n = user_read m false a n.
Proof.
  revert a; induction n as [|n IH]; intros a; simpl; [done|].
  destruct (m !! a) as [c|]; simpl; [|done].
  destruct (cell_nofault c); simpl; [|done].
  intros H. f_equal. apply IH. lia.
Qed.

Lemma user_read_take m f a n k :
  take k (user_read m f a n) = user_read m f a (k `min` n).
Proof.
  revert a k; induction n as [|n IH]; intros a k; simpl.
  - rewrite Nat.min_0_r. by destruct k.
  - destruct k as [|k]; simpl; [done|].
    destruct (m !! a) as [c|]; simpl; [|done].
    destruct (f && negb (cell_nofault c)); simpl; [done|].
    by rewrite IH.
Qed.

Lemma byte_diff_nonzero (x y : byte) :
  x ≠ y → Z.of_N (Byte.to_N x) - Z.of_N (Byte.to_N y) ≠ 0.
Proof.
  intros Hne Hz. apply Hne.
  assert (Byte.to_N x = Byte.to_N y) as E by lia.
  pose proof (Byte.of_to_N x) as Hx. pose proof (Byte.of_to_N y) as Hy.
  rewrite E in Hx. congruence.
Qed.

Lemma memcmp_zero_iff a b n :
  (n ≤ length a)%nat → (n ≤ length b)%nat →
  memcmp a b n = 0 ↔ take n a = take n b.
Proof.
  revert a b; induction n as [|n IH]; intros a b Ha Hb; simpl.
  - by destruct a, b.
  - destruct a as [|x a]; simpl in *; [lia|].
    destruct b as [|y b]; simpl in *; [lia|].
    destruct (decide (x = y)) as [->|Hne].
    + rewrite IH by lia. split; [by intros ->|]. by intros [=].
    + split; [|by intros [=]].
      intros H. by apply byte_diff_nonzero in H.
Qed.

(** What [ksu_copy_from_user_retry] returns and does. *)
Lemma retry_spec st dst a n :
  let r := ksu_copy_from_user_retry st dst a n in
  (r.1.1 = 0 ↔ length (user_read (umem st) false a n) = n) ∧
  (r.1.1 = 0 → r.1.2 = user_read (umem st) false a n) ∧
  r.2 = Task (ksu_sucompat_non_kp st) (current_uid st) (ksu_is_allow_uid st)
          (umem st) (current_user_stack_pointer st) (cred_is_root st)
          (trace st ++ EvCopyNofault a n ::
             if decide (length (user_read (umem st) true a n) = n) then []
             else [EvCopyFromUser a n]).
Proof.
  unfold ksu_copy_from_user_retry, ksu_copy_from_user_nofault, copy_from_user.
  pose proof (user_read_length (umem st) false a n) as Hle.
  destruct (decide (length (user_read (umem st) true a n) = n)) as [Hf|Hf];
    simpl.
  - pose proof Hf as Hs. rewrite (user_read_fast_full _ _ _ Hf) in Hs |- *.
    split_and!; [by split|done|]. unfold emit; simpl. done.
  - split_and!.
    + lia.
    + intros H. replace (n - _)%nat with O by lia. simpl.
      by rewrite app_nil_r.
    + unfold emit; simpl. by rewrite <- app_assoc.
Qed.

Lemma path_match_iff m p :
  length (user_read m false p 16) = 16%nat →
  memcmp (<[15%nat := x00]> (user_read m false p 16)) (c_string SU_PATH) 15
    = 0 ↔ target_path_is m p SU_PATH = true.
Proof.
  intros Hlen. rewrite memcmp_zero_iff.
  - rewrite take_insert_ge by lia. rewrite user_read_take.
    unfold target_path_is. rewrite bool_decide_eq_true. done.
  - rewrite length_insert. lia.
  - simpl. lia.
Qed.

(** The dispatcher once the two gates are passed, in terms of what user
    memory holds. *)
Lemma common_enabled_allowed st p name esc :
  ksu_sucompat_non_kp st = true →
  ksu_is_allow_uid st (current_uid st) = true →
  ksu_sucompat_common KSUD_PATH st (Some p) name esc =
    let st1 := (ksu_copy_from_user_retry st (replicate 16 x00) p 16).2 in
    if path_readable st p && target_path_is (umem st) p SU_PATH then
      if esc then
        let r := ksud_user_path KSUD_PATH (pr_info name "su found" st1) in
        (0, Some r.1, ksu_escape_to_root r.2)
      else
        let r := sh_user_path (pr_info name "su->sh!" st1) in
        (0, Some r.1, r.2)
    else (0, Some p, st1).
Proof.
  intros Hen Hal. unfold ksu_sucompat_common. rewrite Hen, Hal. simpl negb.
  cbv iota. change (length (c_string SU_PATH) + 1)%nat with 16%nat.
  change (16 - 1)%nat with 15%nat.
  change (length (c_string SU_PATH)) with 15%nat.
  destruct (retry_spec st (replicate 16 x00) p 16) as (Hr & Hbuf & Hst).
  destruct (ksu_copy_from_user_retry st (replicate 16 x00) p 16)
    as [[r buf] st1] eqn:E. cbn [fst snd] in Hr, Hbuf, Hst. cbn [fst snd].
  unfold path_readable.
  destruct (decide (r ≠ 0)) as [Hnz|Hz].
  - rewrite bool_decide_eq_false_2; [done|]. rewrite <- Hr. done.
  - assert (r = 0) as -> by lia. rewrite bool_decide_eq_true_2 by tauto.
    rewrite Hbuf by done. cbn [andb].
    pose proof (path_match_iff (umem st) p (proj1 Hr eq_refl)) as Hm.
    destruct (decide (memcmp _ _ _ ≠ 0)) as [Hc|Hc].
    + destruct (target_path_is (umem st) p SU_PATH); [|done].
      exfalso. apply Hc. by apply Hm.
    + rewrite (proj1 Hm) by lia.
      destruct esc.
      * by destruct (ksud_user_path _ _).
      * by destruct (sh_user_path _).
Qed.

Lemma user_write_lookup_lt m q d a :
  a < q → (user_write m q d).1 !! a = m !! a.
Proof.
  revert m q; induction d as [|b d IH]; intros m q Hlt; simpl; [done|].
  destruct (m !! q) as [c|] eqn:E; [|done].
  destruct (cell_writable c); [|done].
  rewrite IH by lia. rewrite lookup_insert_ne by lia. done.
Qed.

Lemma user_write_read_back m q d :
  (user_write m q d).2 = O →
  user_read (user_write m q d).1 false q (length d) = d.
Proof.
  revert m q; induction d as [|b d IH]; intros m q; simpl; [done|].
  destruct (m !! q) as [c|] eqn:E; [|done].
  destruct (cell_writable c); [|done].
  intros H. rewrite user_write_lookup_lt by lia.
  rewrite lookup_insert_eq. simpl. f_equal. by apply IH.
Qed.

(** What [userspace_stack_buffer] returns and does. *)
Lemma stack_buffer_spec st d :
  let r := userspace_stack_buffer st d in
  r.1 = (if can_stage st d then stack_slot st d else NULL) ∧
  cred_is_root r.2 = cred_is_root st ∧
  trace r.2 = trace st ++ [EvCopyToUser (stack_slot st d) d] ∧
  (can_stage st d = true →
   user_read (umem r.2) false (stack_slot st d) (length d) = d).
Proof.
  unfold userspace_stack_buffer, copy_to_user, can_stage.
  fold (stack_slot st d).
  pose proof (user_write_read_back (umem st) (stack_slot st d) d) as Hrb.
  destruct (user_write (umem st) (stack_slot st d) d) as [m rest]; simpl in *.
  split_and!; try done.
  - destruct (decide (Z.of_nat rest ≠ 0)).
    + rewrite bool_decide_eq_false_2; [done|lia].
    + rewrite bool_decide_eq_true_2; [done|lia].
  - rewrite bool_decide_eq_true. done.
Qed.

Lemma new_events_app st (r : Z * option Z * task) evs :
  trace r.2 = trace st ++ evs → new_events st r = evs.
Proof. unfold new_events. intros ->. by rewrite drop_app_length. Qed.

Lemma common_gate_closed st fu name esc :
  ksu_sucompat_non_kp st = false ∨
  ksu_is_allow_uid st (current_uid st) = false ∨ fu = None →
  ksu_sucompat_common KSUD_PATH st fu name esc = (0, fu, st).
Proof.
  unfold ksu_sucompat_common. intros [->|[->| ->]]; simpl; [done| |].
  - by destruct (ksu_sucompat_non_kp st).
  - by destruct (ksu_sucompat_non_kp st), (ksu_is_allow_uid _ _).
Qed.

(** The dispatcher returns 0 whatever happens. *)
Lemma common_returns_zero st fu name esc :
  (ksu_sucompat_common KSUD_PATH st fu name esc).1.1 = 0.
Proof.
  destruct (ksu_sucompat_non_kp st) eqn:Hen;
    [|by rewrite common_gate_closed by auto].
  destruct (ksu_is_allow_uid st (current_uid st)) eqn:Hal;
    [|by rewrite common_gate_closed by auto].
  destruct fu as [p|]; [|by rewrite common_gate_closed by auto].
  rewrite common_enabled_allowed by done. cbv zeta.
  by destruct (_ && _), esc.
Qed.

(** A request that is not for the trigger path, or whose path cannot be
    read, is left as it was. *)
Lemma common_untouched st p name esc :
  path_readable st p && target_path_is (umem st) p SU_PATH = false →
  untouched st p (ksu_sucompat_common KSUD_PATH st (Some p) name esc).
Proof.
  intros Hno.
  destruct (ksu_sucompat_non_kp st) eqn:Hen;
    [|by rewrite common_gate_closed by auto].
  destruct (ksu_is_allow_uid st (current_uid st)) eqn:Hal;
    [|by rewrite common_gate_closed by auto].
  rewrite common_enabled_allowed by done. cbv zeta. rewrite Hno.
  destruct (retry_spec st (replicate 16 x00) p 16) as (_ & _ & ->).
  done.
Qed.

(** The check and stat handlers on a matching request. *)
Lemma common_match_sh st p name :
  ksu_sucompat_non_kp st = true →
  ksu_is_allow_uid st (current_uid st) = true →
  path_readable st p = true →
  target_path_is (umem st) p SU_PATH = true →
  let r := ksu_sucompat_common KSUD_PATH st (Some p) name false in
  r.1 = (0, Some (if can_stage st (c_string SH_PATH)
                  then stack_slot st (c_string SH_PATH) else NULL)) ∧
  cred_is_root r.2 = cred_is_root st ∧
  (EvEscapeToRoot ∉ new_events st r) ∧
  (can_stage st (c_string SH_PATH) = true →
   rewritten_to st (c_string SH_PATH) r).
Proof.
  intros Hen Hal Hrd Hm. rewrite common_enabled_allowed by done.
  cbv zeta. rewrite Hrd, Hm. cbn [andb].
  destruct (retry_spec st (replicate 16 x00) p 16) as (_ & _ & Hst).
  set (st1 := (ksu_copy_from_user_retry st (replicate 16 x00) p 16).2) in *.
  set (st2 := pr_info name "su->sh!" st1).
  destruct (stack_buffer_spec st2 (c_string SH_PATH)) as (Hp & Hc & Ht & Hrb).
  assert (umem st2 = umem st) as Hmem by (subst st2; rewrite Hst; done).
  assert (current_user_stack_pointer st2 = current_user_stack_pointer st)
    as Hsp by (subst st2; rewrite Hst; done).
  assert (stack_slot st2 (c_string SH_PATH) = stack_slot st (c_string SH_PATH))
    as Hslot by (unfold stack_slot; by rewrite Hsp).
  assert (can_stage st2 (c_string SH_PATH) = can_stage st (c_string SH_PATH))
    as Hcan by (unfold can_stage; by rewrite Hslot, Hmem).
  unfold sh_user_path. change (c_string "/system/bin/sh") with (c_string SH_PATH).
  rewrite Hcan, Hslot in *. cbn [fst snd].
  split_and!.
  - by rewrite Hp.
  - rewrite Hc. subst st2. rewrite Hst. done.
  - erewrite new_events_app; last first.
    { cbn [snd]. rewrite Ht. subst st2. rewrite Hst. cbn [pr_info emit trace].
      rewrite <- !app_assoc. done. }
    intros Hin. apply elem_of_app in Hin as [Hin|Hin].
    + apply elem_of_cons in Hin as [?|Hin]; [done|].
      destruct (decide _); [by apply elem_of_nil in Hin|].
      apply list_elem_of_singleton in Hin. done.
    + apply elem_of_app in Hin as [Hin|Hin];
        apply list_elem_of_singleton in Hin; done.
  - intros Hok. split; cbn [fst snd]; [by rewrite Hp, Hok|]. by apply Hrb.
Qed.

(** The execute handler on a matching request. *)
Lemma common_match_ksud st p name :
  ksu_sucompat_non_kp st = true →
  ksu_is_allow_uid st (current_uid st) = true →
  path_readable st p = true →
  target_path_is (umem st) p SU_PATH = true →
  let r := ksu_sucompat_common KSUD_PATH st (Some p) name true in
  r.1 = (0, Some (if can_stage st (c_string KSUD_PATH)
                  then stack_slot st (c_string KSUD_PATH) else NULL)) ∧
  cred_is_root r.2 = true ∧
  (EvEscapeToRoot ∈ new_events st r) ∧
  (can_stage st (c_string KSUD_PATH) = true →
   rewritten_to st (c_string KSUD_PATH) r).
Proof.
  intros Hen Hal Hrd Hm. rewrite common_enabled_allowed by done.
  cbv zeta. rewrite Hrd, Hm. cbn [andb].
  destruct (retry_spec st (replicate 16 x00) p 16) as (_ & _ & Hst).
  set (st1 := (ksu_copy_from_user_retry st (replicate 16 x00) p 16).2) in *.
  set (st2 := pr_info name "su found" st1).
  destruct (stack_buffer_spec st2 (c_string KSUD_PATH))
    as (Hp & Hc & Ht & Hrb).
  assert (umem st2 = umem st) as Hmem by (subst st2; rewrite Hst; done).
  assert (current_user_stack_pointer st2 = current_user_stack_pointer st)
    as Hsp by (subst st2; rewrite Hst; done).
  assert (stack_slot st2 (c_string KSUD_PATH)
          = stack_slot st (c_string KSUD_PATH))
    as Hslot by (unfold stack_slot; by rewrite Hsp).
  assert (can_stage st2 (c_string KSUD_PATH)
          = can_stage st (c_string KSUD_PATH))
    as Hcan by (unfold can_stage; by rewrite Hslot, Hmem).
  unfold ksud_user_path.
  rewrite Hcan, Hslot in *. cbn [fst snd].
  split_and!.
  - by rewrite Hp.
  - done.
  - erewrite new_events_app; last first.
    { cbn [snd ksu_escape_to_root trace]. rewrite Ht. subst st2.
      rewrite Hst. cbn [pr_info emit trace]. rewrite <- !app_assoc. done. }
    rewrite !elem_of_app. right. right. right.
    by apply list_elem_of_singleton.
  - intros Hok. split; cbn [fst snd]; [by rewrite Hp, Hok|].
    cbn [ksu_escape_to_root umem]. by apply Hrb.
Qed.

(** C1.  A caller that is not in the allow-list: each of the three handlers
    (existence/permission check, stat, execute) returns 0 and leaves the
    target pointer and the whole state of the task as they were, so nothing
    is read, nothing is rewritten and the credentials are not raised. *)
Theorem not_allowed_pass_through (st : task) (filename_user : option Z) :
  ksu_is_allow_uid st (current_uid st) = false →
  ksu_handle_faccessat KSUD_PATH st filename_user = (0, filename_user, st) ∧
  ksu_handle_stat KSUD_PATH st filename_user = (0, filename_user, st) ∧
  ksu_handle_execve_sucompat KSUD_PATH st filename_user
    = (0, filename_user, st).
Proof.
  intros Hno. unfold ksu_handle_faccessat, ksu_handle_stat,
    ksu_handle_execve_sucompat.
  split_and!; apply common_gate_closed; auto.
Qed.

(** C2, as amended.  While the dispatcher is enabled, for an allow-listed
    caller whose 16-byte path buffer can be read and whose target is the
    trigger path "/system/bin/su": the execute handler points the target at
    the copy of the helper's path staged below the user stack pointer (when
    that copy can be stored) and raises the credentials; the check and stat
    handlers point it at the staged copy of "/system/bin/sh" (when that copy
    can be stored) and raise nothing.  For any caller, a request whose
    target is not exactly the trigger path (one byte different, a strict
    extension included) is left untouched by all three handlers. *)
Theorem trigger_match_is_rewritten (st : task) (p : Z) :
  (ksu_sucompat_non_kp st = true →
   ksu_is_allow_uid st (current_uid st) = true →
   path_readable st p = true →
   target_path_is (umem st) p SU_PATH = true →
   (can_stage st (c_string KSUD_PATH) = true →
    let r := ksu_handle_execve_sucompat KSUD_PATH st (Some p) in
    rewritten_to st (c_string KSUD_PATH) r ∧
    cred_is_root r.2 = true ∧
    EvEscapeToRoot ∈ new_events st r) ∧
   (can_stage st (c_string SH_PATH) = true →
    ∀ r, r = ksu_handle_faccessat KSUD_PATH st (Some p) ∨
         r = ksu_handle_stat KSUD_PATH st (Some p) →
    rewritten_to st (c_string SH_PATH) r ∧
    cred_is_root r.2 = cred_is_root st ∧
    EvEscapeToRoot ∉ new_events st r)) ∧
  (target_path_is (umem st) p SU_PATH = false →
   untouched st p (ksu_handle_faccessat KSUD_PATH st (Some p)) ∧
   untouched st p (ksu_handle_stat KSUD_PATH st (Some p)) ∧
   untouched st p (ksu_handle_execve_sucompat KSUD_PATH st (Some p))).
Proof.
  unfold ksu_handle_faccessat, ksu_handle_stat, ksu_handle_execve_sucompat.
  split.
  - intros Hen Hal Hrd Hm. split.
    + intros Hok.
      destruct (common_match_ksud st p "sys_execve" Hen Hal Hrd Hm)
        as (_ & Hc & He & Hrw).
      split_and!; [by apply Hrw|done|done].
    + intros Hok r [->| ->].
      * destruct (common_match_sh st p "faccessat" Hen Hal Hrd Hm)
          as (_ & Hc & He & Hrw).
        split_and!; [by apply Hrw|done|done].
      * destruct (common_match_sh st p "newfstatat" Hen Hal Hrd Hm)
          as (_ & Hc & He & Hrw).
        split_and!; [by apply Hrw|done|done].
  - intros Hno.
    split_and!; apply common_untouched; rewrite Hno; apply andb_false_r.
Qed.

(** The events a handler adds once the two gates are passed: the read of
    the path, then, on a match, the log line, the store of the replacement
    and, for the execute handler, the escalation. *)
Lemma common_events st p name (esc : bool) :
  ksu_sucompat_non_kp st = true →
  ksu_is_allow_uid st (current_uid st) = true →
  ∃ rest,
    new_events st (ksu_sucompat_common KSUD_PATH st (Some p) name esc)
    = (EvCopyNofault p 16 ::
         if decide (length (user_read (umem st) true p 16) = 16%nat) then []
         else [EvCopyFromUser p 16]) ++ rest ∧
    (∀ a n, (EvCopyNofault a n ∉ rest) ∧ (EvCopyFromUser a n ∉ rest)) ∧
    (path_readable st p = false → rest = []).
Proof.
  intros Hen Hal. rewrite common_enabled_allowed by done. cbv zeta.
  destruct (retry_spec st (replicate 16 x00) p 16) as (_ & _ & Hst).
  set (st1 := (ksu_copy_from_user_retry st (replicate 16 x00) p 16).2) in *.
  assert (trace st1 = trace st ++ EvCopyNofault p 16 ::
            if decide (length (user_read (umem st) true p 16) = 16%nat)
            then [] else [EvCopyFromUser p 16]) as Ht1
    by (by rewrite Hst).
  destruct (path_readable st p && target_path_is (umem st) p SU_PATH)
    eqn:Hhit.
  - assert (path_readable st p = true) as Hrd
      by (by destruct (path_readable st p)).
    destruct esc.
    + set (st2 := pr_info name "su found" st1).
      destruct (stack_buffer_spec st2 (c_string KSUD_PATH))
        as (_ & _ & Ht & _).
      exists [EvPrInfo name "su found";
              EvCopyToUser (stack_slot st2 (c_string KSUD_PATH))
                (c_string KSUD_PATH); EvEscapeToRoot].
      split; [|split; [|by rewrite Hrd]].
      * apply new_events_app. unfold ksud_user_path.
        cbn [snd ksu_escape_to_root trace]. rewrite Ht. subst st2.
        cbn [pr_info emit trace]. rewrite Ht1, <- !app_assoc. done.
      * intros a n. split; intros Hin;
          repeat (apply elem_of_cons in Hin as [?|Hin]; [done|]);
          by apply elem_of_nil in Hin.
    + set (st2 := pr_info name "su->sh!" st1).
      destruct (stack_buffer_spec st2 (c_string SH_PATH))
        as (_ & _ & Ht & _).
      exists [EvPrInfo name "su->sh!";
              EvCopyToUser (stack_slot st2 (c_string SH_PATH))
                (c_string SH_PATH)].
      split; [|split; [|by rewrite Hrd]].
      * apply new_events_app. unfold sh_user_path.
        change (c_string "/system/bin/sh") with (c_string SH_PATH).
        cbn [snd]. rewrite Ht. subst st2.
        cbn [pr_info emit trace]. rewrite Ht1, <- !app_assoc. done.
      * intros a n. split; intros Hin;
          repeat (apply elem_of_cons in Hin as [?|Hin]; [done|]);
          by apply elem_of_nil in Hin.
  - exists []. split; [|split; [|done]].
    + apply new_events_app. cbn [snd]. by rewrite Ht1, app_nil_r.
    + intros a n. split; apply not_elem_of_nil.
Qed.

(** C3.  Every handler returns 0 on every input.  When the read of the
    caller's path fails ([ksu_copy_from_user_retry] returns non-zero) the
    request is left untouched: same target pointer, same user memory, same
    credentials.  The read itself first calls the fast fault-tolerant copy
    and calls [copy_from_user] if and only if the fast copy failed.  And
    each handler, once the hooks are enabled and the caller is
    allow-listed, performs exactly that read of the 16 bytes at the target
    pointer before anything else: the events it records start with the
    fast copy, followed by [copy_from_user] if and only if the fast copy
    failed; no other read follows, and nothing at all follows when the
    read fails. *)
Theorem read_failure_is_swallowed (st : task) :
  (∀ filename_user,
     (ksu_handle_faccessat KSUD_PATH st filename_user).1.1 = 0 ∧
     (ksu_handle_stat KSUD_PATH st filename_user).1.1 = 0 ∧
     (ksu_handle_execve_sucompat KSUD_PATH st filename_user).1.1 = 0) ∧
  (∀ dst p,
     (ksu_copy_from_user_retry st dst p 16).1.1 ≠ 0 →
     untouched st p (ksu_handle_faccessat KSUD_PATH st (Some p)) ∧
     untouched st p (ksu_handle_stat KSUD_PATH st (Some p)) ∧
     untouched st p (ksu_handle_execve_sucompat KSUD_PATH st (Some p))) ∧
  (∀ dst p n,
     let fast := ksu_copy_from_user_nofault st dst p n in
     let r := ksu_copy_from_user_retry st dst p n in
     (fast.1.1 = 0 →
      r = fast ∧ trace r.2 = trace st ++ [EvCopyNofault p n]) ∧
     (fast.1.1 ≠ 0 →
      r = copy_from_user fast.2 fast.1.2 p n ∧
      trace r.2 = trace st ++ [EvCopyNofault p n; EvCopyFromUser p n])) ∧
  (∀ p,
     ksu_sucompat_non_kp st = true →
     ksu_is_allow_uid st (current_uid st) = true →
     let fast := ksu_copy_from_user_nofault st (replicate 16 x00) p 16 in
     let retry := ksu_copy_from_user_retry st (replicate 16 x00) p 16 in
     let reads :=
       EvCopyNofault p 16 ::
         if decide (fast.1.1 = 0) then [] else [EvCopyFromUser p 16] in
     ∀ handler,
       handler ∈ [ksu_handle_faccessat KSUD_PATH;
                  ksu_handle_stat KSUD_PATH;
                  ksu_handle_execve_sucompat KSUD_PATH] →
       ∃ rest,
         new_events st (handler st (Some p)) = reads ++ rest ∧
         (∀ a n, (EvCopyNofault a n ∉ rest) ∧ (EvCopyFromUser a n ∉ rest)) ∧
         (retry.1.1 ≠ 0 → rest = [])).
Proof.
  unfold ksu_handle_faccessat, ksu_handle_stat, ksu_handle_execve_sucompat.
  split_and!.
  - intros fu. split_and!; apply common_returns_zero.
  - intros dst p Hfail.
    assert (path_readable st p = false) as Hrd.
    { unfold path_readable. apply bool_decide_eq_false_2. intros Hlen.
      apply Hfail. by apply (retry_spec st dst p 16). }
    split_and!; apply common_untouched; by rewrite Hrd.
  - intros dst p n. cbv zeta. unfold ksu_copy_from_user_retry.
    destruct (ksu_copy_from_user_nofault st dst p n) as [[ret buf] st1] eqn:E.
    assert (trace st1 = trace st ++ [EvCopyNofault p n]) as Ht.
    { unfold ksu_copy_from_user_nofault in E.
      destruct (decide _) in E; by injection E as <- <- <-. }
    cbn [fst snd]. split; intros H.
    + rewrite decide_True by done. done.
    + rewrite decide_False by done. split; [done|].
      unfold copy_from_user; cbn [snd emit trace]. rewrite Ht.
      by rewrite <- app_assoc.
  - intros p Hen Hal handler Hin.
    set (retry := ksu_copy_from_user_retry st (replicate 16 x00) p 16).
    assert ((if decide ((ksu_copy_from_user_nofault st (replicate 16 x00)
                           p 16).1.1 = 0)
             then [] else [EvCopyFromUser p 16])
            = if decide (length (user_read (umem st) true p 16) = 16%nat)
              then [] else [EvCopyFromUser p 16]) as ->.
    { unfold ksu_copy_from_user_nofault.
      destruct (decide (length _ = _)); cbn [fst]; [done|].
      by rewrite decide_False. }
    assert (retry.1.1 ≠ 0 → path_readable st p = false) as Hrd.
    { intros Hfail. unfold path_readable. apply bool_decide_eq_false_2.
      intros Hlen. apply Hfail.
      by apply (retry_spec st (replicate 16 x00) p 16). }
    assert (∀ name esc, ∃ rest,
      new_events st (ksu_sucompat_common KSUD_PATH st (Some p) name esc)
      = (EvCopyNofault p 16 ::
           if decide (length (user_read (umem st) true p 16) = 16%nat)
           then [] else [EvCopyFromUser p 16]) ++ rest ∧
      (∀ a n, (EvCopyNofault a n ∉ rest) ∧ (EvCopyFromUser a n ∉ rest)) ∧
      (retry.1.1 ≠ 0 → rest = [])) as Hall.
    { intros name esc.
      destruct (common_events st p name esc Hen Hal) as (rest & ? & ? & ?).
      exists rest. split_and!; [done|done|auto]. }
    repeat (apply elem_of_cons in Hin as [->|Hin]; [apply Hall|]).
    by apply elem_of_nil in Hin.
Qed.

(** C10.  An allow-listed caller whose target matches the trigger, while
    the dispatcher is enabled: when the replacement string cannot be stored
    in the caller's memory, the check and stat handlers set the target
    pointer to NULL, and so does the execute handler, which raises the
    credentials all the same. *)
Theorem staging_failure_nulls_target (st : task) (p : Z) :
  ksu_sucompat_non_kp st = true →
  ksu_is_allow_uid st (current_uid st) = true →
  path_readable st p = true →
  target_path_is (umem st) p SU_PATH = true →
  (can_stage st (c_string SH_PATH) = false →
   (ksu_handle_faccessat KSUD_PATH st (Some p)).1 = (0, Some NULL) ∧
   (ksu_handle_stat KSUD_PATH st (Some p)).1 = (0, Some NULL)) ∧
  (can_stage st (c_string KSUD_PATH) = false →
   (ksu_handle_execve_sucompat KSUD_PATH st (Some p)).1 = (0, Some NULL) ∧
   cred_is_root (ksu_handle_execve_sucompat KSUD_PATH st (Some p)).2 = true).
Proof.
  intros Hen Hal Hrd Hm.
  unfold ksu_handle_faccessat, ksu_handle_stat, ksu_handle_execve_sucompat.
  split; intros Hno.
  - destruct (common_match_sh st p "faccessat" Hen Hal Hrd Hm) as (H1 & _).
    destruct (common_match_sh st p "newfstatat" Hen Hal Hrd Hm) as (H2 & _).
    rewrite Hno in H1, H2. done.
  - destruct (common_match_ksud st p "sys_execve" Hen Hal Hrd Hm)
      as (H1 & H2 & _).
    rewrite Hno in H1. done.
Qed.

End SucompatFacts.

Section SucompatExamples.

Import Sucompat.

Lemma not_allowed_pass_through_witness :
  ksu_is_allow_uid task_su_stranger (current_uid task_su_stranger) = false ∧
  ksu_handle_faccessat ksud_path_demo task_su_stranger (Some 4096)
    = (0, Some 4096, task_su_stranger) ∧
  ksu_handle_stat ksud_path_demo task_su_stranger (Some 4096)
    = (0, Some 4096, task_su_stranger) ∧
  ksu_handle_execve_sucompat ksud_path_demo task_su_stranger (Some 4096)
    = (0, Some 4096, task_su_stranger).
Proof.
  split; [vm_compute; reflexivity|].
  apply (not_allowed_pass_through ksud_path_demo task_su_stranger (Some 4096)).
  vm_compute; reflexivity.
Defined.

Lemma trigger_match_is_rewritten_witness :
  (rewritten_to task_su (c_string ksud_path_demo)
     (ksu_handle_execve_sucompat ksud_path_demo task_su (Some 4096)) ∧
   cred_is_root
     (ksu_handle_execve_sucompat ksud_path_demo task_su (Some 4096)).2 = true) ∧
  rewritten_to task_su (c_string SH_PATH)
    (ksu_handle_stat ksud_path_demo task_su (Some 4096)) ∧
  untouched task_sux 4096
    (ksu_handle_execve_sucompat ksud_path_demo task_sux (Some 4096)).
Proof.
  destruct (trigger_match_is_rewritten ksud_path_demo task_su 4096)
    as [Hyes _].
  destruct Hyes as [Hexec Hsh]; [vm_compute; reflexivity..|].
  destruct (trigger_match_is_rewritten ksud_path_demo task_sux 4096)
    as [_ Hno].
  split_and!.
  - apply Hexec. vm_compute; reflexivity.
  - apply Hexec. vm_compute; reflexivity.
  - apply Hsh; [vm_compute; reflexivity|]. by right.
  - apply Hno. vm_compute; reflexivity.
Defined.

(** C2 as stated fails on three requests of an allow-listed caller whose
    target is the trigger path, byte for byte.  1. The string and its
    terminator are the last bytes of a mapped page and the page after it is
    not mapped: the sixteenth byte the dispatcher asks for cannot be read,
    and neither the execute nor the stat handler rewrites anything.  2. The
    dispatcher has been switched off.  3. The replacement cannot be staged
    on the user stack: the target becomes NULL, not a path. *)
Lemma trigger_match_not_always_rewritten :
  (ksu_sucompat_non_kp task_su_at_end_of_mapping = true ∧
   ksu_is_allow_uid task_su_at_end_of_mapping
     (current_uid task_su_at_end_of_mapping) = true ∧
   target_path_is (umem task_su_at_end_of_mapping) 8177 SU_PATH = true ∧
   can_stage task_su_at_end_of_mapping (c_string ksud_path_demo) = true ∧
   can_stage task_su_at_end_of_mapping (c_string SH_PATH) = true ∧
   (ksu_handle_execve_sucompat ksud_path_demo task_su_at_end_of_mapping
      (Some 8177)).1 = (0, Some 8177) ∧
   cred_is_root
     (ksu_handle_execve_sucompat ksud_path_demo task_su_at_end_of_mapping
        (Some 8177)).2 = false ∧
   (ksu_handle_stat ksud_path_demo task_su_at_end_of_mapping
      (Some 8177)).1 = (0, Some 8177)) ∧
  (ksu_is_allow_uid task_su_hooks_off (current_uid task_su_hooks_off) = true ∧
   target_path_is (umem task_su_hooks_off) 4096 SU_PATH = true ∧
   ksu_handle_execve_sucompat ksud_path_demo task_su_hooks_off (Some 4096)
     = (0, Some 4096, task_su_hooks_off)) ∧
  (ksu_is_allow_uid task_su_stack_readonly
     (current_uid task_su_stack_readonly) = true ∧
   target_path_is (umem task_su_stack_readonly) 4096 SU_PATH = true ∧
   (ksu_handle_execve_sucompat ksud_path_demo task_su_stack_readonly
      (Some 4096)).1 = (0, Some NULL) ∧
   (ksu_handle_faccessat ksud_path_demo task_su_stack_readonly
      (Some 4096)).1 = (0, Some NULL)).
Proof. split_and!; vm_compute; reflexivity. Qed.

Lemma read_failure_is_swallowed_witness :
  (ksu_copy_from_user_retry task_su_at_end_of_mapping (replicate 16 x00)
     8177 16).1.1 ≠ 0 ∧
  untouched task_su_at_end_of_mapping 8177
    (ksu_handle_execve_sucompat ksud_path_demo task_su_at_end_of_mapping
       (Some 8177)) ∧
  new_events task_su_at_end_of_mapping
    (ksu_handle_execve_sucompat ksud_path_demo task_su_at_end_of_mapping
       (Some 8177))
  = [EvCopyNofault 8177 16; EvCopyFromUser 8177 16].
Proof.
  assert ((ksu_copy_from_user_retry task_su_at_end_of_mapping
             (replicate 16 x00) 8177 16).1.1 ≠ 0) as Hfail
    by (vm_compute; discriminate).
  split; [exact Hfail|].
  destruct (read_failure_is_swallowed ksud_path_demo
              task_su_at_end_of_mapping) as (_ & Hpass & _ & Hreads).
  split; [apply (Hpass (replicate 16 x00) 8177 Hfail)|].
  destruct (Hreads 8177 eq_refl eq_refl
              (ksu_handle_execve_sucompat ksud_path_demo))
    as (rest & Hev & _ & Hrest).
  - apply elem_of_cons. right. apply elem_of_cons. right.
    apply elem_of_cons. left. reflexivity.
  - rewrite Hev, (Hrest Hfail). vm_compute. reflexivity.
Defined.

Lemma staging_failure_nulls_target_witness :
  (ksu_handle_stat ksud_path_demo task_su_stack_readonly (Some 4096)).1
    = (0, Some NULL) ∧
  (ksu_handle_execve_sucompat ksud_path_demo task_su_stack_readonly
     (Some 4096)).1 = (0, Some NULL).
Proof.
  destruct (staging_failure_nulls_target ksud_path_demo
              task_su_stack_readonly 4096) as [Hsh Hexec];
    [vm_compute; reflexivity..|].
  split; [apply Hsh|apply Hexec]; vm_compute; reflexivity.
Defined.

End SucompatExamples.

(** * Properties of the SUSFS registries *)

Section SusfsFacts.

Import Susfs.

Context `{constants}.

(** ** The hash table *)

Local Arguments hash_buckets : simpl never.
Local Arguments HASH_SIZE : simpl never.

Local Abbreviation named q := (λ e : st_susfs_sus_path, sp_target_pathname e = q).
Local Abbreviation cnt q l := (length (filter (named q) l)).

Lemma hash_min_range val : 0 ≤ hash_min val < 2 ^ HASH_BITS.
Proof.
  unfold hash_min, HASH_BITS. rewrite Z.shiftr_div_pow2 by lia.
  pose proof (Z.mod_pos_bound (val * GOLDEN_RATIO_64) (2 ^ 64) ltac:(lia)).
  split; [apply Z.div_pos; lia|].
  apply Z.div_lt_upper_bound; [lia|].
  change (2 ^ (64 - 10) * 2 ^ 10) with (2 ^ 64). lia.
Qed.

Lemma hash_min_bucket val : hash_min val ∈ hash_buckets.
Proof.
  pose proof (hash_min_range val) as Hr.
  unfold hash_buckets, HASH_SIZE. apply list_elem_of_fmap.
  exists (Z.to_nat (hash_min val)). split; [lia|].
  apply elem_of_seq. lia.
Qed.

Lemma hash_buckets_NoDup : NoDup hash_buckets.
Proof.
  unfold hash_buckets. apply NoDup_fmap_2; [apply _|apply NoDup_seq].
Qed.

Lemma bucket_insert_eq t b c : bucket (<[b := c]> t) b = c.
Proof. unfold bucket. by rewrite lookup_insert_eq. Qed.

Lemma bucket_insert_ne t b b' c : b ≠ b' → bucket (<[b := c]> t) b' = bucket t b'.
Proof. intros. unfold bucket. by rewrite lookup_insert_ne. Qed.

Lemma entries_insert_notin t b c (l : list Z) :
  b ∉ l → bucket (<[b := c]> t) <$> l = bucket t <$> l.
Proof.
  induction l as [|b' l IH]; intros Hnin; [done|].
  apply not_elem_of_cons in Hnin as [Hne Hnin]. rewrite !fmap_cons.
  rewrite bucket_insert_ne by done. by rewrite IH.
Qed.

(** Replacing one chain changes the count of a pathname by the difference
    of its counts in the old and in the new chain. *)
Lemma entries_insert_count t b c (l : list Z) q :
  NoDup l → b ∈ l →
  (cnt q (concat (bucket (<[b := c]> t) <$> l)) + cnt q (bucket t b)
   = cnt q (concat (bucket t <$> l)) + cnt q c)%nat.
Proof.
  induction l as [|b' l IH]; intros Hnd Hin; [by apply elem_of_nil in Hin|].
  apply NoDup_cons in Hnd as [Hnin Hnd]. rewrite !fmap_cons. simpl concat.
  rewrite !filter_app, !length_app.
  destruct (decide (b = b')) as [<-|Hne].
  - rewrite bucket_insert_eq. rewrite entries_insert_notin by done. lia.
  - apply elem_of_cons in Hin as [?|Hin]; [done|].
    rewrite bucket_insert_ne by done. specialize (IH Hnd Hin). lia.
Qed.

Lemma chain_del_count name c c' q :
  chain_del name c = Some c' →
  (cnt q c' + (if decide (name = q) then 1 else 0) = cnt q c)%nat.
Proof.
  revert c'; induction c as [|e c IH]; intros c' Hdel; simpl in Hdel; [done|].
  destruct (decide (sp_target_pathname e = name)) as [He|He].
  - injection Hdel as <-. rewrite filter_cons.
    destruct (decide (name = q)) as [<-|Hq].
    + rewrite decide_True by done. simpl. lia.
    + rewrite decide_False by congruence. lia.
  - destruct (chain_del name c) as [c1|]; [|done].
    injection Hdel as <-. specialize (IH c1 eq_refl).
    rewrite !filter_cons. destruct (decide (sp_target_pathname e = q));
      simpl; lia.
Qed.

Lemma chain_del_none name c : chain_del name c = None → cnt name c = O.
Proof.
  induction c as [|e c IH]; simpl; [done|].
  destruct (decide (sp_target_pathname e = name)) as [He|He]; [done|].
  destruct (chain_del name c); [done|]. intros _.
  rewrite filter_cons, decide_False by done. by apply IH.
Qed.

Lemma hash_del_first_Some name t l t' :
  hash_del_first name t l = Some t' →
  ∃ b c', b ∈ l ∧ chain_del name (bucket t b) = Some c' ∧ t' = <[b := c']> t.
Proof.
  induction l as [|b l IH]; simpl; [done|].
  destruct (chain_del name (bucket t b)) as [c'|] eqn:E.
  - intros [= <-]. exists b, c'. split_and!; [apply elem_of_cons; auto|done..].
  - intros Hd. destruct (IH Hd) as (b' & c' & ? & ? & ?).
    exists b', c'. split_and!; [apply elem_of_cons; auto|done..].
Qed.

Lemma hash_del_first_None name t l :
  hash_del_first name t l = None → cnt name (concat (bucket t <$> l)) = O.
Proof.
  induction l as [|b l IH]; [done|]. cbn [hash_del_first].
  destruct (chain_del name (bucket t b)) as [c'|] eqn:E; [done|].
  intros Hd. rewrite fmap_cons. simpl concat. rewrite filter_app, length_app.
  rewrite (chain_del_none _ _ E). by rewrite IH.
Qed.

(** Unlinking the first record named [name] takes one record of that name
    away and no other. *)
Lemma live_records_del name t t' q :
  hash_del_first name t hash_buckets = Some t' →
  (live_records t' q + (if decide (name = q) then 1 else 0)
   = live_records t q)%nat.
Proof.
  intros Hd. apply hash_del_first_Some in Hd as (b & c' & Hb & Hc & ->).
  unfold live_records, hash_entries.
  pose proof (entries_insert_count t b c' hash_buckets q
                hash_buckets_NoDup Hb) as Hins.
  pose proof (chain_del_count _ _ _ q Hc). lia.
Qed.

Lemma live_records_del_none name t :
  hash_del_first name t hash_buckets = None → live_records t name = O.
Proof. apply hash_del_first_None. Qed.

Lemma live_records_add t e key q :
  live_records (hash_add t e key) q
  = (live_records t q
     + (if decide (sp_target_pathname e = q) then 1 else 0))%nat.
Proof.
  unfold live_records, hash_entries, hash_add.
  pose proof (entries_insert_count t (hash_min key)
                (e :: bucket t (hash_min key)) hash_buckets q
                hash_buckets_NoDup (hash_min_bucket key)) as Hins.
  rewrite filter_cons in Hins.
  destruct (decide (sp_target_pathname e = q)); cbn [length] in Hins; lia.
Qed.

Lemma live_records_empty q : live_records ∅ q = O.
Proof.
  unfold live_records, hash_entries.
  assert (∀ l : list Z, concat (bucket (∅ : gmap Z _) <$> l) = []) as ->;
    [|done].
  induction l as [|b l IH]; [done|]. rewrite fmap_cons. simpl concat.
  by rewrite IH.
Qed.

Lemma strncpy_fits name :
  fits_pathname name → strncpy name (SUSFS_MAX_LEN_PATHNAME - 1) = name.
Proof.
  unfold fits_pathname, strncpy.
  generalize (SUSFS_MAX_LEN_PATHNAME - 1)%nat as n.
  induction name as [|c s IH]; intros n Hn.
  - by destruct n.
  - destruct n as [|n]; simpl in *; [lia|]. rewrite IH; [done|lia].
Qed.

(** ** What each function does to the kernel state *)

Ltac unfold_kernel :=
  unfold SUSFS_LOGE, SUSFS_LOGI, SUSFS_LOG, path_put, kern_path,
    inode_set_flag, ksu_try_umount, set_klog, set_path_refs, set_i_state,
    set_SUS_PATH_HLIST, set_LH_SUS_MOUNT, set_LH_TRY_UMOUNT_PATH,
    set_umounts in *.

Lemma SUSFS_LOG_same lvl func fmt args k :
  same_but_log k (SUSFS_LOG lvl func fmt args k) ∧
  klog (SUSFS_LOG lvl func fmt args k)
  = klog k ++ (if susfs_is_log_enabled k
               then [LogLine lvl func fmt args] else []).
Proof.
  unfold SUSFS_LOG, same_but_log.
  destruct (susfs_is_log_enabled k) eqn:E; simpl; rewrite ?E; [done|].
  by rewrite app_nil_r.
Qed.

Lemma SUSFS_LOG_namei l f m a k : namei (SUSFS_LOG l f m a k) = namei k.
Proof. apply SUSFS_LOG_same. Qed.
Lemma SUSFS_LOG_i_state l f m a k : i_state (SUSFS_LOG l f m a k) = i_state k.
Proof. apply SUSFS_LOG_same. Qed.
Lemma SUSFS_LOG_path_refs l f m a k :
  path_refs (SUSFS_LOG l f m a k) = path_refs k.
Proof. apply SUSFS_LOG_same. Qed.
Lemma SUSFS_LOG_hlist l f m a k :
  SUS_PATH_HLIST (SUSFS_LOG l f m a k) = SUS_PATH_HLIST k.
Proof. apply SUSFS_LOG_same. Qed.
Lemma SUSFS_LOG_sus_mount l f m a k :
  LH_SUS_MOUNT (SUSFS_LOG l f m a k) = LH_SUS_MOUNT k.
Proof. apply SUSFS_LOG_same. Qed.
Lemma SUSFS_LOG_try_umount l f m a k :
  LH_TRY_UMOUNT_PATH (SUSFS_LOG l f m a k) = LH_TRY_UMOUNT_PATH k.
Proof. apply SUSFS_LOG_same. Qed.
Lemma SUSFS_LOG_enabled l f m a k :
  susfs_is_log_enabled (SUSFS_LOG l f m a k) = susfs_is_log_enabled k.
Proof. apply SUSFS_LOG_same. Qed.
Lemma SUSFS_LOG_umounts l f m a k : umounts (SUSFS_LOG l f m a k) = umounts k.
Proof. apply SUSFS_LOG_same. Qed.
Lemma SUSFS_LOG_klog l f m a k :
  klog (SUSFS_LOG l f m a k)
  = klog k ++ (if susfs_is_log_enabled k then [LogLine l f m a] else []).
Proof. apply SUSFS_LOG_same. Qed.

Ltac log_simpl :=
  unfold SUSFS_LOGI, SUSFS_LOGE;
  rewrite ?SUSFS_LOG_namei, ?SUSFS_LOG_i_state, ?SUSFS_LOG_path_refs,
    ?SUSFS_LOG_hlist, ?SUSFS_LOG_sus_mount, ?SUSFS_LOG_try_umount,
    ?SUSFS_LOG_enabled, ?SUSFS_LOG_umounts, ?SUSFS_LOG_klog.

Lemma inode_set_flag_state flag i k j :
  inode_state (inode_set_flag flag i k) j
  = if decide (j = i ∧ Z.land (inode_state k i) flag = 0)
    then Z.lor (inode_state k i) flag else inode_state k j.
Proof.
  unfold inode_set_flag, inode_state.
  destruct (decide (Z.land (i_state k !!! i) flag = 0)) as [Hz|Hz]; simpl.
  - destruct (decide (j = i)) as [->|Hne].
    + rewrite decide_True by done. by rewrite lookup_total_insert_eq.
    + rewrite decide_False by tauto. by rewrite lookup_total_insert_ne.
  - rewrite decide_False by tauto. done.
Qed.

Lemma land_lor_same a b : Z.land (Z.lor a b) b = b.
Proof.
  apply Z.bits_inj'. intros n Hn.
  rewrite Z.land_spec, Z.lor_spec. by destruct (Z.testbit a n), (Z.testbit b n).
Qed.

Lemma inode_set_flag_marked flag i k :
  flag ≠ 0 → inode_marked flag (inode_set_flag flag i k) i = true.
Proof.
  intros Hf. unfold inode_marked. apply bool_decide_eq_true_2.
  rewrite inode_set_flag_state.
  destruct (decide (_ ∧ _)) as [[_ Hz]|Hn].
  - by rewrite land_lor_same.
  - intros Hz. apply Hn. done.
Qed.

(** Setting the flag a second time writes nothing. *)
Lemma inode_set_flag_twice flag i k :
  i_state (inode_set_flag flag i (inode_set_flag flag i k))
  = i_state (inode_set_flag flag i k).
Proof.
  unfold inode_set_flag at 1.
  destruct (decide (Z.land (inode_state (inode_set_flag flag i k) i) flag = 0))
    as [Hz|Hz]; [|done].
  cbn [set_i_state i_state]. apply insert_id.
  rewrite inode_set_flag_state in Hz |- *.
  unfold inode_state at 1 2.
  destruct (decide (i = i ∧ Z.land (inode_state k i) flag = 0)) as [[_ H0]|Hn].
  - rewrite land_lor_same in Hz. subst flag.
    unfold inode_set_flag. rewrite decide_True by done.
    cbn [set_i_state i_state]. rewrite lookup_insert_eq.
    f_equal. destruct (decide _); by rewrite !Z.lor_0_r.
  - exfalso. apply Hn. done.
Qed.

Lemma update_sus_path_inode_spec k name :
  let r := susfs_update_sus_path_inode k name in
  namei r.2 = namei k ∧ path_refs r.2 = path_refs k ∧
  SUS_PATH_HLIST r.2 = SUS_PATH_HLIST k ∧ LH_SUS_MOUNT r.2 = LH_SUS_MOUNT k ∧
  LH_TRY_UMOUNT_PATH r.2 = LH_TRY_UMOUNT_PATH k ∧
  susfs_is_log_enabled r.2 = susfs_is_log_enabled k ∧
  umounts r.2 = umounts k ∧
  match sus_path_target k name with
  | Some inode =>
      r.1 = 0 ∧ klog r.2 = klog k ∧
      i_state r.2 = i_state (inode_set_flag INODE_STATE_SUS_PATH inode k)
  | None => r.1 = 1 ∧ i_state r.2 = i_state k
  end.
Proof.
  unfold susfs_update_sus_path_inode, sus_path_target, kern_path.
  destruct (namei k !! name) as [p|].
  - destruct (decide (s_type_name p = "tmpfs" ∨ s_type_name p = "fuse")).
    + unfold_kernel. destruct (susfs_is_log_enabled k) eqn:E; simpl;
        rewrite ?E; split_and!; try done; lia.
    + destruct (d_inode p) as [inode|].
      * unfold_kernel. unfold inode_state. simpl.
        destruct (decide (Z.land _ _ = 0)); simpl; split_and!; try done; lia.
      * unfold_kernel. destruct (susfs_is_log_enabled k) eqn:E; simpl;
          rewrite ?E; split_and!; try done; lia.
  - unfold_kernel. destruct (susfs_is_log_enabled k) eqn:E; simpl;
      rewrite ?E; done.
Qed.

Lemma inode_set_flag_i_state flag i k k' :
  i_state k' = i_state k →
  i_state (inode_set_flag flag i k') = i_state (inode_set_flag flag i k).
Proof.
  intros E. unfold inode_set_flag, inode_state. rewrite E.
  destruct (decide _); simpl; by rewrite ?E.
Qed.

(** The path registry after a registration whose record was copied in. *)
Lemma add_sus_path_spec k info kmalloc_ok :
  let name := sp_target_pathname info in
  let stored := strncpy name (SUSFS_MAX_LEN_PATHNAME - 1) in
  let t1 := default (SUS_PATH_HLIST k)
              (hash_del_first name (SUS_PATH_HLIST k) hash_buckets) in
  let r := susfs_add_sus_path k (Some info) kmalloc_ok in
  namei r.2 = namei k ∧ path_refs r.2 = path_refs k ∧
  LH_SUS_MOUNT r.2 = LH_SUS_MOUNT k ∧
  LH_TRY_UMOUNT_PATH r.2 = LH_TRY_UMOUNT_PATH k ∧
  susfs_is_log_enabled r.2 = susfs_is_log_enabled k ∧
  umounts r.2 = umounts k ∧
  match (if kmalloc_ok then sus_path_target k stored else None) with
  | Some inode =>
      r.1 = 0 ∧
      SUS_PATH_HLIST r.2
      = hash_add t1 (SusPath (sp_target_ino info) stored) (sp_target_ino info) ∧
      i_state r.2 = i_state (inode_set_flag INODE_STATE_SUS_PATH inode k)
  | None => r.1 = 1 ∧ SUS_PATH_HLIST r.2 = t1 ∧ i_state r.2 = i_state k
  end.
Proof.
  cbv zeta. unfold susfs_add_sus_path.
  set (name := sp_target_pathname info).
  set (stored := strncpy name (SUSFS_MAX_LEN_PATHNAME - 1)).
  set (del := hash_del_first name (SUS_PATH_HLIST k) hash_buckets).
  set (st := match del with
             | Some t => (true, set_SUS_PATH_HLIST t k)
             | None => (false, k)
             end).
  assert (namei st.2 = namei k ∧ i_state st.2 = i_state k ∧
          path_refs st.2 = path_refs k ∧
          SUS_PATH_HLIST st.2 = default (SUS_PATH_HLIST k) del ∧
          LH_SUS_MOUNT st.2 = LH_SUS_MOUNT k ∧
          LH_TRY_UMOUNT_PATH st.2 = LH_TRY_UMOUNT_PATH k ∧
          susfs_is_log_enabled st.2 = susfs_is_log_enabled k ∧
          umounts st.2 = umounts k ∧ klog st.2 = klog k)
    as (Hn & Hi & Hp & Ht & Hm & Hu & Hl & Hum & Hk).
  { subst st. by destruct del. }
  destruct st as [update_hlist k1]. cbn [fst snd] in *.
  destruct kmalloc_ok; cbn [negb].
  - cbn [sp_target_pathname sp_target_ino].
    pose proof (update_sus_path_inode_spec k1 stored) as Hup.
    cbv zeta in Hup.
    assert (sus_path_target k1 stored = sus_path_target k stored) as Htg
      by (unfold sus_path_target; by rewrite Hn).
    rewrite Htg in Hup.
    destruct (susfs_update_sus_path_inode k1 stored) as [rc k2].
    cbn [fst snd] in Hup.
    destruct Hup as (Hn2 & Hp2 & Ht2 & Hm2 & Hu2 & Hl2 & Hum2 & Hcase).
    destruct (sus_path_target k stored) as [inode|].
    + destruct Hcase as (-> & Hk2 & Hi2). cbv iota.
      destruct update_hlist; cbn [fst snd]; log_simpl;
        cbn [set_SUS_PATH_HLIST namei i_state path_refs SUS_PATH_HLIST
               LH_SUS_MOUNT LH_TRY_UMOUNT_PATH susfs_is_log_enabled umounts];
        rewrite Ht2, Ht, Hi2;
        (split_and!; try congruence; by apply inode_set_flag_i_state).
    + destruct Hcase as (-> & Hi2). cbv iota. cbn [fst snd].
      split_and!; congruence.
  - cbn [fst snd]. log_simpl. split_and!; congruence.
Qed.


Lemma update_sus_mount_inode_spec k name :
  let k' := susfs_update_sus_mount_inode k name in
  namei k' = namei k ∧
  SUS_PATH_HLIST k' = SUS_PATH_HLIST k ∧ LH_SUS_MOUNT k' = LH_SUS_MOUNT k ∧
  LH_TRY_UMOUNT_PATH k' = LH_TRY_UMOUNT_PATH k ∧
  susfs_is_log_enabled k' = susfs_is_log_enabled k ∧
  umounts k' = umounts k ∧
  i_state k' = match sus_mount_target k name with
               | Some inode =>
                   i_state (inode_set_flag INODE_STATE_SUS_MOUNT inode k)
               | None => i_state k
               end.
Proof.
  unfold susfs_update_sus_mount_inode, sus_mount_target, kern_path.
  destruct (namei k !! name) as [p|].
  - destruct (decide (mnt_group_id p > 0 ∧ _)) as [Hg|Hg].
    + rewrite decide_True by lia. log_simpl. done.
    + rewrite decide_False by lia.
      destruct (d_inode p) as [inode|]; log_simpl; [|done].
      cbn [path_put set_path_refs namei i_state SUS_PATH_HLIST LH_SUS_MOUNT
             LH_TRY_UMOUNT_PATH susfs_is_log_enabled umounts].
      unfold inode_set_flag, inode_state. cbn [i_state set_path_refs].
      destruct (decide _); done.
  - log_simpl. done.
Qed.

Lemma update_sus_mount_inode_i_state k k' name :
  namei k' = namei k → i_state k' = i_state k →
  i_state (susfs_update_sus_mount_inode k' name)
  = i_state (susfs_update_sus_mount_inode k name).
Proof.
  intros Hn Hi.
  destruct (update_sus_mount_inode_spec k name) as (_&_&_&_&_&_&->).
  destruct (update_sus_mount_inode_spec k' name) as (_&_&_&_&_&_&->).
  unfold sus_mount_target. rewrite Hn.
  destruct (namei k !! name) as [p|]; [|done].
  destruct (decide _); [done|].
  destruct (d_inode p); [|done]. by apply inode_set_flag_i_state.
Qed.

Lemma sus_mount_find_Some name l i :
  sus_mount_find name l = Some i →
  ∃ e, l !! i = Some e ∧ sm_target_pathname e = name.
Proof.
  revert i; induction l as [|e l IH]; intros i; simpl; [done|].
  destruct (decide (sm_target_pathname e = name)) as [He|He].
  - intros [= <-]. by exists e.
  - destruct (sus_mount_find name l) as [j|]; [|done].
    intros [= <-]. by apply IH.
Qed.

Lemma sus_mount_find_None name l :
  sus_mount_find name l = None ↔ name ∉ sm_target_pathname <$> l.
Proof.
  induction l as [|e l IH]; simpl.
  - split; [intros _; apply not_elem_of_nil|done].
  - rewrite not_elem_of_cons.
    destruct (decide (sm_target_pathname e = name)) as [He|He].
    + split; [done|]. intros [? _]. congruence.
    + destruct (sus_mount_find name l); simpl.
      * split; [done|]. intros [_ Hn]. by apply IH in Hn.
      * split; [|done]. intros _. split; [congruence|]. by apply IH.
Qed.

(** The mount registry after a registration whose record was copied in. *)
Lemma add_sus_mount_spec k info kmalloc_ok :
  let name := sm_target_pathname info in
  let decoded := SusMount name (decode_dev (sm_target_dev info))
                          (sm_flags info) in
  let r := susfs_add_sus_mount k (Some info) kmalloc_ok in
  namei r.2 = namei k ∧ SUS_PATH_HLIST r.2 = SUS_PATH_HLIST k ∧
  LH_TRY_UMOUNT_PATH r.2 = LH_TRY_UMOUNT_PATH k ∧
  susfs_is_log_enabled r.2 = susfs_is_log_enabled k ∧
  umounts r.2 = umounts k ∧
  match sus_mount_find name (LH_SUS_MOUNT k) with
  | Some cursor =>
      r.1 = 0 ∧ LH_SUS_MOUNT r.2 = <[cursor := decoded]> (LH_SUS_MOUNT k) ∧
      i_state r.2 = i_state (susfs_update_sus_mount_inode k name)
  | None =>
      if kmalloc_ok then
        r.1 = 0 ∧ LH_SUS_MOUNT r.2 = LH_SUS_MOUNT k ++ [decoded] ∧
        i_state r.2 = i_state (susfs_update_sus_mount_inode k name)
      else
        r.1 = 1 ∧ LH_SUS_MOUNT r.2 = LH_SUS_MOUNT k ∧ i_state r.2 = i_state k
  end.
Proof.
  cbv zeta. unfold susfs_add_sus_mount. cbn [sm_target_pathname sm_target_dev].
  set (name := sm_target_pathname info).
  set (decoded := SusMount name _ _).
  destruct (sus_mount_find name (LH_SUS_MOUNT k)) as [cursor|].
  - set (k1 := set_LH_SUS_MOUNT _ k).
    destruct (update_sus_mount_inode_spec k1 name) as (Hn&Ht&Hm&Hu&Hl&Hum&_).
    cbn [fst snd]. log_simpl. rewrite Hn, Ht, Hm, Hu, Hl, Hum.
    split_and!; try done. by apply update_sus_mount_inode_i_state.
  - destruct kmalloc_ok; cbn [negb fst snd]; log_simpl; [|done].
    destruct (update_sus_mount_inode_spec k name) as (Hn&Ht&Hm&Hu&Hl&Hum&_).
    cbn [set_LH_SUS_MOUNT namei i_state SUS_PATH_HLIST LH_SUS_MOUNT
           LH_TRY_UMOUNT_PATH susfs_is_log_enabled umounts].
    rewrite Hn, Ht, Hm, Hu, Hl, Hum. done.
Qed.

Lemma try_umount_present name l :
  existsb (λ cursor, bool_decide (name = tu_target_pathname cursor)) l = true
  ↔ name ∈ tu_target_pathname <$> l.
Proof.
  induction l as [|e l IH]; simpl.
  - split; [done|]. intros Hin. by apply elem_of_nil in Hin.
  - rewrite elem_of_cons, orb_true_iff, bool_decide_eq_true. by rewrite IH.
Qed.

(** The unmount ledger after a registration whose record was copied in. *)
Lemma add_try_umount_spec k info kmalloc_ok :
  let name := tu_target_pathname info in
  let r := susfs_add_try_umount k (Some info) kmalloc_ok in
  namei r.2 = namei k ∧ i_state r.2 = i_state k ∧
  path_refs r.2 = path_refs k ∧
  SUS_PATH_HLIST r.2 = SUS_PATH_HLIST k ∧ LH_SUS_MOUNT r.2 = LH_SUS_MOUNT k ∧
  susfs_is_log_enabled r.2 = susfs_is_log_enabled k ∧
  umounts r.2 = umounts k ∧
  if decide (name ∈ try_umount_names k) then
    r.1 = 1 ∧ LH_TRY_UMOUNT_PATH r.2 = LH_TRY_UMOUNT_PATH k ∧
    klog r.2 = klog k ++ (if susfs_is_log_enabled k
                          then [already_created_line name] else [])
  else if kmalloc_ok then
    r.1 = 0 ∧ LH_TRY_UMOUNT_PATH r.2 = LH_TRY_UMOUNT_PATH k ++ [info]
  else
    r.1 = 1 ∧ LH_TRY_UMOUNT_PATH r.2 = LH_TRY_UMOUNT_PATH k.
Proof.
  cbv zeta. unfold susfs_add_try_umount.
  destruct (existsb _ _) eqn:Hex.
  - apply try_umount_present in Hex. rewrite decide_True by done.
    cbn [fst snd]. log_simpl. done.
  - rewrite decide_False; last first.
    { intros Hin. apply try_umount_present in Hin. congruence. }
    destruct kmalloc_ok; cbn [negb fst snd]; log_simpl; done.
Qed.



Lemma try_umount_one_registries target_uid k e :
  same_registries k (try_umount_one target_uid k e).
Proof.
  unfold try_umount_one, same_registries.
  repeat destruct (decide _); log_simpl; done.
Qed.

Lemma try_umount_registries target_uid k :
  same_registries k (susfs_try_umount k target_uid).
Proof.
  unfold susfs_try_umount, list_for_each_entry_reverse.
  generalize (reverse (LH_TRY_UMOUNT_PATH k)) as l. intros l.
  unfold same_registries.
  revert k; induction l as [|e l IH]; intros k; [done|].
  cbn [foldl]. destruct (IH (try_umount_one target_uid k e)) as (-> & -> & ->).
  apply try_umount_one_registries.
Qed.

Lemma hash_entries_elem t b e :
  b ∈ hash_buckets → e ∈ bucket t b → e ∈ hash_entries t.
Proof.
  unfold hash_entries. generalize hash_buckets as l.
  induction l as [|b' l IH]; intros Hb He; [by apply elem_of_nil in Hb|].
  rewrite fmap_cons. simpl concat. apply elem_of_app.
  apply elem_of_cons in Hb as [->|Hb]; [by left|right; by apply IH].
Qed.

Lemma hash_add_elem t e key : e ∈ hash_entries (hash_add t e key).
Proof.
  apply (hash_entries_elem _ (hash_min key)); [apply hash_min_bucket|].
  unfold hash_add. rewrite bucket_insert_eq. apply elem_of_cons. by left.
Qed.

(** A successful registration leaves exactly one record for its pathname
    and does not change how many records any other pathname has. *)
Lemma add_sus_path_live_records k info kmalloc_ok q :
  sus_path_distinct k →
  fits_pathname (sp_target_pathname info) →
  let r := susfs_add_sus_path k (Some info) kmalloc_ok in
  r.1 = 0 →
  live_records (SUS_PATH_HLIST r.2) q
  = if decide (sp_target_pathname info = q) then 1%nat
    else live_records (SUS_PATH_HLIST k) q.
Proof.
  intros Hinv Hfit r Hok. subst r.
  destruct (add_sus_path_spec k info kmalloc_ok) as (_&_&_&_&_&_&Hcase).
  cbv zeta in Hcase. rewrite (strncpy_fits _ Hfit) in Hcase.
  destruct (if kmalloc_ok then _ else _) as [inode|];
    [|destruct Hcase as (Hone & _); rewrite Hok in Hone; done].
  destruct Hcase as (_ & -> & _). rewrite live_records_add.
  cbn [sp_target_pathname]. specialize (Hinv q).
  destruct (hash_del_first _ _ _) as [t'|] eqn:Hdel; cbn [default id].
  - pose proof (live_records_del _ _ _ q Hdel).
    destruct (decide (sp_target_pathname info = q)); lia.
  - pose proof (live_records_del_none _ _ Hdel).
    destruct (decide (sp_target_pathname info = q)) as [<-|]; lia.
Qed.

(** A registration never adds to the records of a pathname it was not
    asked to register, and never leaves more than one for its own. *)
Lemma add_sus_path_distinct k user_info kmalloc_ok :
  sus_path_distinct k →
  (∀ info, user_info = Some info → fits_pathname (sp_target_pathname info)) →
  sus_path_distinct (susfs_add_sus_path k user_info kmalloc_ok).2.
Proof.
  intros Hinv Hfit q. destruct user_info as [info|]; last first.
  { unfold susfs_add_sus_path. cbn [snd]. log_simpl. apply Hinv. }
  specialize (Hfit info eq_refl).
  destruct (susfs_add_sus_path k (Some info) kmalloc_ok).1 eqn:Hrc.
  - rewrite add_sus_path_live_records by done.
    destruct (decide _); [lia|apply Hinv].
  - destruct (add_sus_path_spec k info kmalloc_ok) as (_&_&_&_&_&_&Hcase).
    cbv zeta in Hcase.
    destruct (if kmalloc_ok then _ else _) as [inode|];
      [destruct Hcase as (Hz & _); rewrite Hrc in Hz; done|].
    destruct Hcase as (_ & -> & _). specialize (Hinv q).
    destruct (hash_del_first _ _ _) as [t'|] eqn:Hdel; cbn [default id]; [|done].
    pose proof (live_records_del _ _ _ q Hdel). lia.
  - destruct (add_sus_path_spec k info kmalloc_ok) as (_&_&_&_&_&_&Hcase).
    cbv zeta in Hcase.
    destruct (if kmalloc_ok then _ else _) as [inode|];
      destruct Hcase as (Hz & _); rewrite Hrc in Hz; done.
Qed.

Lemma add_sus_mount_names k user_info kmalloc_ok :
  NoDup (sus_mount_names k) →
  NoDup (sus_mount_names (susfs_add_sus_mount k user_info kmalloc_ok).2).
Proof.
  intros Hnd. destruct user_info as [info|]; last first.
  { unfold susfs_add_sus_mount, sus_mount_names. cbn [snd]. by log_simpl. }
  destruct (add_sus_mount_spec k info kmalloc_ok) as (_&_&_&_&_&Hcase).
  cbv zeta in Hcase. unfold sus_mount_names in *.
  destruct (sus_mount_find _ _) as [i|] eqn:Hfind.
  - destruct Hcase as (_ & -> & _).
    apply sus_mount_find_Some in Hfind as (e & He & Hname).
    rewrite list_fmap_insert. cbn [sm_target_pathname].
    rewrite list_insert_id; [done|]. rewrite list_lookup_fmap, He. cbn.
    by rewrite Hname.
  - apply sus_mount_find_None in Hfind.
    destruct kmalloc_ok; destruct Hcase as (_ & -> & _); [|done].
    rewrite fmap_app. apply NoDup_app. split_and!; [done| |apply NoDup_singleton].
    intros x Hx Hx'. apply list_elem_of_singleton in Hx'. cbn in Hx'.
    by subst x.
Qed.

(** The two registries keep their pathnames distinct in every state the
    system can reach. *)
Lemma reachable_distinct k :
  reachable k → sus_path_distinct k ∧ NoDup (sus_mount_names k).
Proof.
  induction 1 as [fs|k k' _ [IHp IHm] (Ht & Hm & _)|k ui ok _ [IHp IHm] Hfit
                 |k ui ok _ [IHp IHm]|k ui ok _ [IHp IHm]|k uid _ [IHp IHm]].
  - split; [|apply NoDup_nil_2]. intros q. cbn.
    rewrite live_records_empty. lia.
  - unfold sus_path_distinct, sus_mount_names. by rewrite Ht, Hm.
  - split; [by apply add_sus_path_distinct|].
    unfold sus_mount_names. destruct ui as [info|].
    + by destruct (add_sus_path_spec k info ok) as (_&_&->&_).
    + unfold susfs_add_sus_path. cbn [snd]. by log_simpl.
  - split; [|by apply add_sus_mount_names].
    unfold sus_path_distinct. destruct ui as [info|].
    + by destruct (add_sus_mount_spec k info ok) as (_&->&_).
    + unfold susfs_add_sus_mount. cbn [snd]. by log_simpl.
  - unfold sus_path_distinct, sus_mount_names. destruct ui as [info|].
    + by destruct (add_try_umount_spec k info ok) as (_&_&_&->&->&_).
    + unfold susfs_add_try_umount. cbn [snd]. by log_simpl.
  - destruct (try_umount_registries uid k) as (Ht & Hm & _).
    unfold sus_path_distinct, sus_mount_names. by rewrite Ht, Hm.
Qed.

Lemma inode_marked_i_state flag k k' i :
  i_state k' = i_state k → inode_marked flag k' i = inode_marked flag k i.
Proof. intros E. unfold inode_marked, inode_state. by rewrite E. Qed.

Lemma sus_path_target_namei k k' name :
  namei k' = namei k → sus_path_target k' name = sus_path_target k name.
Proof. intros E. unfold sus_path_target. by rewrite E. Qed.

(** ** The claims about the path registry *)

(** C4.  In any state the system can reach, two successful registrations
    of the same pathname (one that fits its buffer) leave exactly one live
    record for it, the one of the second call.  The first call ORs
    [INODE_STATE_SUS_PATH] into the [i_state] of the object the pathname
    resolves to unless the bit is set already, so that the object carries
    the bit afterwards; the second call changes no inode state at all. *)
Theorem sus_path_register_twice (k : kernel)
    (info1 info2 : st_susfs_sus_path) (ok1 ok2 : bool) :
  reachable k →
  INODE_STATE_SUS_PATH ≠ 0 →
  fits_pathname (sp_target_pathname info1) →
  sp_target_pathname info2 = sp_target_pathname info1 →
  let r1 := susfs_add_sus_path k (Some info1) ok1 in
  let r2 := susfs_add_sus_path r1.2 (Some info2) ok2 in
  r1.1 = 0 → r2.1 = 0 →
  live_records (SUS_PATH_HLIST r1.2) (sp_target_pathname info1) = 1%nat ∧
  live_records (SUS_PATH_HLIST r2.2) (sp_target_pathname info1) = 1%nat ∧
  SusPath (sp_target_ino info2) (sp_target_pathname info1)
    ∈ hash_entries (SUS_PATH_HLIST r2.2) ∧
  ∃ inode,
    sus_path_target k (sp_target_pathname info1) = Some inode ∧
    inode_state r1.2 inode
    = (if inode_marked INODE_STATE_SUS_PATH k inode then inode_state k inode
       else Z.lor (inode_state k inode) INODE_STATE_SUS_PATH) ∧
    inode_marked INODE_STATE_SUS_PATH r1.2 inode = true ∧
    inode_marked INODE_STATE_SUS_PATH r2.2 inode = true ∧
    i_state r2.2 = i_state r1.2.
Proof.
  intros Hreach Hflag Hfit Hname r1 r2 Hok1 Hok2.
  apply reachable_distinct in Hreach as [Hinv _].
  assert (sus_path_distinct r1.2) as Hinv1.
  { apply add_sus_path_distinct; [done|]. by intros ? [= <-]. }
  assert (fits_pathname (sp_target_pathname info2)) as Hfit2
    by (by rewrite Hname).
  split_and!.
  - subst r1. rewrite add_sus_path_live_records by done.
    by rewrite decide_True.
  - subst r2. rewrite add_sus_path_live_records by done.
    by rewrite decide_True.
  - destruct (add_sus_path_spec r1.2 info2 ok2) as (_&_&_&_&_&_&Hcase).
    cbv zeta in Hcase. rewrite (strncpy_fits _ Hfit2), Hname in Hcase.
    fold r2 in Hcase.
    destruct (if ok2 then _ else _);
      [|destruct Hcase as (H1 & _); rewrite Hok2 in H1; done].
    destruct Hcase as (_ & -> & _). apply hash_add_elem.
  - destruct (add_sus_path_spec k info1 ok1) as (Hn1&_&_&_&_&_&Hc1).
    destruct (add_sus_path_spec r1.2 info2 ok2) as (_&_&_&_&_&_&Hc2).
    cbv zeta in Hc1, Hc2. fold r1 in Hn1, Hc1. fold r2 in Hc2.
    rewrite (strncpy_fits _ Hfit) in Hc1.
    rewrite (strncpy_fits _ Hfit2), Hname in Hc2.
    rewrite (sus_path_target_namei _ _ _ Hn1) in Hc2.
    destruct ok1; [|destruct Hc1 as (H1 & _); rewrite Hok1 in H1; done].
    destruct ok2; [|destruct Hc2 as (H1 & _); rewrite Hok2 in H1; done].
    destruct (sus_path_target k (sp_target_pathname info1)) as [inode|];
      [|destruct Hc1 as (H1 & _); rewrite Hok1 in H1; done].
    destruct Hc1 as (_ & _ & Hi1). destruct Hc2 as (_ & _ & Hi2).
    assert (i_state r2.2 = i_state r1.2) as Hsame.
    { rewrite Hi2, (inode_set_flag_i_state _ _ _ _ Hi1).
      by rewrite inode_set_flag_twice. }
    exists inode. split_and!; [done| | | |done].
    + unfold inode_state at 1. rewrite Hi1.
      fold (inode_state (inode_set_flag INODE_STATE_SUS_PATH inode k) inode).
      rewrite inode_set_flag_state. unfold inode_marked.
      destruct (decide (Z.land (inode_state k inode) INODE_STATE_SUS_PATH = 0))
        as [Hz|Hz].
      * rewrite decide_True by done. by rewrite bool_decide_eq_false_2 by tauto.
      * rewrite decide_False by tauto. by rewrite bool_decide_eq_true_2.
    + rewrite (inode_marked_i_state _ _ _ _ Hi1).
      by apply inode_set_flag_marked.
    + rewrite (inode_marked_i_state _ _ _ _ Hsame).
      rewrite (inode_marked_i_state _ _ _ _ Hi1).
      by apply inode_set_flag_marked.
Qed.

(** C5, as amended.  A registration whose pathname cannot be looked up, or
    resolves to a dentry without inode, or lives on "tmpfs" or "fuse",
    returns 1 in all three cases; it changes no inode state, takes no path
    reference, adds no record and touches neither other registry.  The
    path registry is exactly what it was when no record for the pathname
    was live; a record for the pathname that was live is unlinked by the
    call and stays unlinked. *)
Theorem sus_path_failure_adds_nothing (k : kernel)
    (info : st_susfs_sus_path) (kmalloc_ok : bool) :
  let name := sp_target_pathname info in
  let stored := strncpy name (SUSFS_MAX_LEN_PATHNAME - 1) in
  (namei k !! stored = None ∨
   ∃ p, namei k !! stored = Some p ∧
        (d_inode p = None ∨ s_type_name p = "tmpfs" ∨ s_type_name p = "fuse")) →
  let r := susfs_add_sus_path k (Some info) kmalloc_ok in
  r.1 = 1 ∧
  i_state r.2 = i_state k ∧ path_refs r.2 = path_refs k ∧
  LH_SUS_MOUNT r.2 = LH_SUS_MOUNT k ∧
  LH_TRY_UMOUNT_PATH r.2 = LH_TRY_UMOUNT_PATH k ∧
  (∀ q, (live_records (SUS_PATH_HLIST r.2) q
         ≤ live_records (SUS_PATH_HLIST k) q)%nat) ∧
  (live_records (SUS_PATH_HLIST k) name = O →
   SUS_PATH_HLIST r.2 = SUS_PATH_HLIST k) ∧
  (live_records (SUS_PATH_HLIST k) name ≠ O →
   (live_records (SUS_PATH_HLIST r.2) name + 1)%nat
   = live_records (SUS_PATH_HLIST k) name).
Proof.
  intros name stored Hfail r.
  assert (sus_path_target k stored = None) as Htg.
  { unfold sus_path_target.
    destruct Hfail as [->|(p & -> & [Hp|Hp])]; [done| |].
    - destruct (decide _); done.
    - by rewrite decide_True. }
  destruct (add_sus_path_spec k info kmalloc_ok) as (_&Hp&Hm&Hu&_&_&Hcase).
  cbv zeta in Hcase. fold name stored r in Hp, Hm, Hu, Hcase.
  rewrite Htg in Hcase.
  assert (r.1 = 1 ∧
          SUS_PATH_HLIST r.2
          = default (SUS_PATH_HLIST k)
              (hash_del_first name (SUS_PATH_HLIST k) hash_buckets) ∧
          i_state r.2 = i_state k) as (Hrc & Ht & Hi)
    by (by destruct kmalloc_ok).
  split_and!; try done; rewrite Ht.
  - intros q.
    destruct (hash_del_first _ _ _) as [t'|] eqn:Hdel; cbn [default id]; [|done].
    pose proof (live_records_del _ _ _ q Hdel). lia.
  - intros Hzero.
    destruct (hash_del_first _ _ _) as [t'|] eqn:Hdel; cbn [default id]; [|done].
    pose proof (live_records_del _ _ _ name Hdel) as Hc.
    rewrite decide_True in Hc by done. lia.
  - intros Hlive.
    destruct (hash_del_first _ _ _) as [t'|] eqn:Hdel; cbn [default id].
    + pose proof (live_records_del _ _ _ name Hdel) as Hc.
      by rewrite decide_True in Hc.
    + by apply live_records_del_none in Hdel.
Qed.

(** ** The claims about the mount registry *)

(** C6.  In every state the system can reach no two entries of the mount
    registry share a pathname.  A registration of a pathname already on
    the list returns 0, overwrites that entry in place with the new fields
    (the device identifier decoded) and applies the concealment again; a
    registration of a pathname not on the list appends one entry when the
    allocation succeeds and leaves the list alone when it fails. *)
Theorem sus_mount_registry_no_duplicates :
  (∀ k, reachable k → NoDup (sus_mount_names k)) ∧
  (∀ k info kmalloc_ok,
     let name := sm_target_pathname info in
     let decoded := SusMount name (decode_dev (sm_target_dev info))
                             (sm_flags info) in
     let r := susfs_add_sus_mount k (Some info) kmalloc_ok in
     (name ∈ sus_mount_names k →
      ∃ i old,
        LH_SUS_MOUNT k !! i = Some old ∧ sm_target_pathname old = name ∧
        r.1 = 0 ∧
        LH_SUS_MOUNT r.2 = <[i := decoded]> (LH_SUS_MOUNT k) ∧
        length (LH_SUS_MOUNT r.2) = length (LH_SUS_MOUNT k) ∧
        sus_mount_names r.2 = sus_mount_names k ∧
        i_state r.2 = i_state (susfs_update_sus_mount_inode k name)) ∧
     (name ∉ sus_mount_names k →
      if kmalloc_ok then
        r.1 = 0 ∧ LH_SUS_MOUNT r.2 = LH_SUS_MOUNT k ++ [decoded] ∧
        i_state r.2 = i_state (susfs_update_sus_mount_inode k name)
      else
        r.1 = 1 ∧ LH_SUS_MOUNT r.2 = LH_SUS_MOUNT k ∧
        i_state r.2 = i_state k)).
Proof.
  split; [intros k Hk; by apply reachable_distinct|].
  intros k info kmalloc_ok name decoded r.
  destruct (add_sus_mount_spec k info kmalloc_ok) as (_&_&_&_&_&Hcase).
  cbv zeta in Hcase. fold name decoded r in Hcase.
  split.
  - intros Hin.
    destruct (sus_mount_find name (LH_SUS_MOUNT k)) as [i|] eqn:Hfind;
      [|by apply sus_mount_find_None in Hfind].
    destruct (sus_mount_find_Some _ _ _ Hfind) as (old & Hold & Hn).
    destruct Hcase as (Hrc & Hl & Hi).
    exists i, old. split_and!; try done.
    + by rewrite Hl, length_insert.
    + unfold sus_mount_names. rewrite Hl, list_fmap_insert.
      apply list_insert_id. rewrite list_lookup_fmap, Hold. cbn.
      by rewrite Hn.
  - intros Hnin. apply sus_mount_find_None in Hnin. by rewrite Hnin in Hcase.
Qed.

(** C7.  A registration whose pathname resolves to an object: when the
    backing mount has a peer group identifier above 0 and below
    [DEFAULT_SUS_MNT_GROUP_ID] no inode state is changed, so the mark is
    not applied; when the identifier is 0, or at or above the threshold,
    and the registration returns 0, the object carries the mark
    [INODE_STATE_SUS_MOUNT] afterwards and no other inode is changed. *)
Theorem sus_mount_peer_group_gate (k : kernel)
    (info : st_susfs_sus_mount) (kmalloc_ok : bool) (p : path) (inode : nat) :
  INODE_STATE_SUS_MOUNT ≠ 0 →
  namei k !! sm_target_pathname info = Some p →
  d_inode p = Some inode →
  let k' := susfs_update_sus_mount_inode k (sm_target_pathname info) in
  let r := susfs_add_sus_mount k (Some info) kmalloc_ok in
  (0 < mnt_group_id p < DEFAULT_SUS_MNT_GROUP_ID →
   i_state k' = i_state k ∧ i_state r.2 = i_state k) ∧
  (mnt_group_id p = 0 ∨ DEFAULT_SUS_MNT_GROUP_ID ≤ mnt_group_id p →
   inode_marked INODE_STATE_SUS_MOUNT k' inode = true ∧
   (r.1 = 0 →
    inode_marked INODE_STATE_SUS_MOUNT r.2 inode = true ∧
    ∀ j, j ≠ inode → inode_state r.2 j = inode_state k j)).
Proof.
  intros Hflag Hp Hino k' r.
  destruct (update_sus_mount_inode_spec k (sm_target_pathname info))
    as (_&_&_&_&_&_&Hk').
  fold k' in Hk'. unfold sus_mount_target in Hk'. rewrite Hp in Hk'.
  assert (r.1 = 0 → i_state r.2 = i_state k') as Hr.
  { destruct (add_sus_mount_spec k info kmalloc_ok) as (_&_&_&_&_&Hcase).
    cbv zeta in Hcase. fold r k' in Hcase.
    destruct (sus_mount_find _ _); [by destruct Hcase as (_&_&?)|].
    destruct kmalloc_ok; [by destruct Hcase as (_&_&?)|].
    destruct Hcase as (H1 & _). rewrite H1. done. }
  assert (i_state r.2 = i_state k' ∨ i_state r.2 = i_state k) as Hr'.
  { destruct (add_sus_mount_spec k info kmalloc_ok) as (_&_&_&_&_&Hcase).
    cbv zeta in Hcase. fold r k' in Hcase.
    destruct (sus_mount_find _ _); [left; by destruct Hcase as (_&_&?)|].
    destruct kmalloc_ok; [left|right]; by destruct Hcase as (_&_&?). }
  split.
  - intros Hgid. rewrite decide_True in Hk' by done.
    split; [done|]. destruct Hr' as [->| ->]; done.
  - intros Hgid. rewrite decide_False in Hk' by lia. rewrite Hino in Hk'.
    split.
    + rewrite (inode_marked_i_state _ _ _ _ Hk').
      by apply inode_set_flag_marked.
    + intros Hok. specialize (Hr Hok). split.
      * rewrite (inode_marked_i_state _ _ _ _ Hr).
        rewrite (inode_marked_i_state _ _ _ _ Hk').
        by apply inode_set_flag_marked.
      * intros j Hj. unfold inode_state at 1. rewrite Hr, Hk'.
        fold (inode_state (inode_set_flag INODE_STATE_SUS_MOUNT inode k) j).
        rewrite inode_set_flag_state. rewrite decide_False; [done|tauto].
Qed.

(** ** The claims about the unmount ledger *)

(** C8, as amended.  When a registration of a pathname succeeds, the
    record is appended; a second registration of that pathname returns 1,
    the same code every other failure returns, and changes nothing but the
    log: the ledger is the same list, so it has the same length and the
    only record for the pathname is the first one with its mode.  While
    logging is enabled the second call writes the line saying that the
    pathname is already created. *)
Theorem try_umount_duplicate_rejected (k : kernel)
    (info1 info2 : st_susfs_try_umount) (ok1 ok2 : bool) :
  tu_target_pathname info2 = tu_target_pathname info1 →
  let r1 := susfs_add_try_umount k (Some info1) ok1 in
  let r2 := susfs_add_try_umount r1.2 (Some info2) ok2 in
  r1.1 = 0 →
  LH_TRY_UMOUNT_PATH r1.2 = LH_TRY_UMOUNT_PATH k ++ [info1] ∧
  r2.1 = 1 ∧
  same_but_log r1.2 r2.2 ∧
  length (LH_TRY_UMOUNT_PATH r2.2) = length (LH_TRY_UMOUNT_PATH r1.2) ∧
  (∀ e, e ∈ LH_TRY_UMOUNT_PATH r2.2 →
        tu_target_pathname e = tu_target_pathname info1 → e = info1) ∧
  klog r2.2
  = klog r1.2 ++ (if susfs_is_log_enabled k
                  then [already_created_line (tu_target_pathname info1)]
                  else []).
Proof.
  intros Hname r1 r2 Hok1.
  destruct (add_try_umount_spec k info1 ok1) as (_&_&_&_&_&Hl1&_&Hc1).
  cbv zeta in Hc1. fold r1 in Hl1, Hc1.
  destruct (decide (tu_target_pathname info1 ∈ try_umount_names k))
    as [Hin|Hnin]; [destruct Hc1 as (H1 & _); rewrite Hok1 in H1; done|].
  destruct ok1; [|destruct Hc1 as (H1 & _); rewrite Hok1 in H1; done].
  destruct Hc1 as (_ & Hled).
  destruct (add_try_umount_spec r1.2 info2 ok2)
    as (Hn2&Hi2&Hp2&Ht2&Hm2&Hl2&Hu2&Hc2).
  cbv zeta in Hc2. fold r2 in Hn2, Hi2, Hp2, Ht2, Hm2, Hl2, Hu2, Hc2.
  rewrite decide_True in Hc2; last first.
  { unfold try_umount_names. rewrite Hled, Hname, fmap_app.
    apply elem_of_app. right. by apply list_elem_of_singleton. }
  destruct Hc2 as (Hrc & Hled2 & Hlog).
  split_and!; try done.
  - by rewrite Hled2.
  - rewrite Hled2, Hled. intros e He Hne.
    apply elem_of_app in He as [He|He].
    + exfalso. apply Hnin. rewrite <- Hne.
      unfold try_umount_names. by apply list_elem_of_fmap_2.
    + by apply list_elem_of_singleton in He.
  - by rewrite Hlog, Hl1, Hname.
Qed.


End SusfsFacts.

Section SusfsExamples.

Import Susfs.

#[local] Existing Instance demo_constants.

Lemma sus_path_register_twice_witness :
  let r1 := susfs_add_sus_path demo_kernel (Some hide_addon_d) true in
  let r2 := susfs_add_sus_path r1.2 (Some hide_addon_d_again) true in
  live_records (SUS_PATH_HLIST r2.2) "/system/addon.d" = 1%nat ∧
  hide_addon_d_again ∈ hash_entries (SUS_PATH_HLIST r2.2) ∧
  i_state r2.2 = i_state r1.2.
Proof.
  intros r1 r2.
  destruct (sus_path_register_twice demo_kernel hide_addon_d
              hide_addon_d_again true true)
    as (_ & Hone & Hin & inode & _ & _ & _ & _ & Hsame).
  - apply reach_boot.
  - vm_compute. discriminate.
  - unfold fits_pathname. vm_compute. lia.
  - reflexivity.
  - vm_compute. reflexivity.
  - vm_compute. reflexivity.
  - split_and!; [exact Hone|exact Hin|exact Hsame].
Defined.

Lemma sus_path_failure_adds_nothing_witness :
  let r := susfs_add_sus_path demo_kernel (Some hide_twrp) true in
  r.1 = 1 ∧ i_state r.2 = i_state demo_kernel ∧
  SUS_PATH_HLIST r.2 = SUS_PATH_HLIST demo_kernel.
Proof.
  intros r.
  destruct (sus_path_failure_adds_nothing demo_kernel hide_twrp true)
    as (Hrc & Hi & _ & _ & _ & _ & Hsame & _).
  - right. exists (Path "fuse" 0 (Some 13%nat)).
    split; [vm_compute; reflexivity|]. right. right. reflexivity.
  - split_and!; [exact Hrc|exact Hi|]. apply Hsame. vm_compute. reflexivity.
Defined.

(** C5 as stated fails: "/system/addon.d" is registered, then removed (or
    remounted on tmpfs), then registered again.  The second call returns 1
    and the record of the first call is gone: the registry is not what it
    was before the call, and [susfs_sus_ino_for_filldir64] no longer
    reports the inode number. *)
Lemma sus_path_failure_unlinks_prior_record :
  let k1 := (susfs_add_sus_path demo_kernel (Some hide_addon_d) true).2 in
  let removed := set_namei (delete "/system/addon.d" demo_fs) k1 in
  let on_tmpfs :=
    set_namei (<["/system/addon.d" := Path "tmpfs" 0 (Some 11%nat)]> demo_fs)
              k1 in
  (susfs_add_sus_path demo_kernel (Some hide_addon_d) true).1 = 0 ∧
  (namei removed !! "/system/addon.d" = None ∧
   (susfs_add_sus_path removed (Some hide_addon_d) true).1 = 1 ∧
   live_records (SUS_PATH_HLIST removed) "/system/addon.d" = 1%nat ∧
   live_records
     (SUS_PATH_HLIST (susfs_add_sus_path removed (Some hide_addon_d) true).2)
     "/system/addon.d" = 0%nat ∧
   susfs_sus_ino_for_filldir64 removed 4242 = 1 ∧
   susfs_sus_ino_for_filldir64
     (susfs_add_sus_path removed (Some hide_addon_d) true).2 4242 = 0 ∧
   SUS_PATH_HLIST (susfs_add_sus_path removed (Some hide_addon_d) true).2
   ≠ SUS_PATH_HLIST removed) ∧
  ((susfs_add_sus_path on_tmpfs (Some hide_addon_d) true).1 = 1 ∧
   live_records (SUS_PATH_HLIST on_tmpfs) "/system/addon.d" = 1%nat ∧
   live_records
     (SUS_PATH_HLIST (susfs_add_sus_path on_tmpfs (Some hide_addon_d) true).2)
     "/system/addon.d" = 0%nat).
Proof.
  cbv zeta. split_and!; try (vm_compute; reflexivity).
  intros E.
  apply (f_equal (λ t, live_records t "/system/addon.d")) in E.
  vm_compute in E. discriminate.
Qed.

Lemma sus_mount_registry_no_duplicates_witness :
  let k1 := (susfs_add_sus_mount demo_kernel (Some mount_modules) true).2 in
  let k2 := (susfs_add_sus_mount k1 (Some mount_hosts) true).2 in
  let r := susfs_add_sus_mount k2 (Some mount_modules_again) true in
  NoDup (sus_mount_names r.2) ∧
  length (LH_SUS_MOUNT r.2) = length (LH_SUS_MOUNT k2) ∧
  LH_SUS_MOUNT r.2
  = [SusMount "/data/adb/modules" (new_decode_dev 66311) 7;
     SusMount "/system/etc/hosts" (new_decode_dev 2050) 0].
Proof.
  intros k1 k2 r.
  destruct sus_mount_registry_no_duplicates as [Hnodup Hcall].
  assert (reachable k2) as Hreach.
  { apply reach_add_sus_mount, reach_add_sus_mount, reach_boot. }
  split.
  - apply Hnodup. apply reach_add_sus_mount. exact Hreach.
  - destruct (Hcall k2 mount_modules_again true) as [Hpresent _].
    destruct Hpresent as (i & old & Hold & _ & _ & Hl & Hlen & _).
    + vm_compute. apply list_elem_of_here.
    + split; [exact Hlen|]. vm_compute. reflexivity.
Defined.

Lemma sus_mount_peer_group_gate_witness :
  (let r := susfs_add_sus_mount demo_kernel (Some mount_modules) true in
   r.1 = 0 ∧ i_state r.2 = i_state demo_kernel) ∧
  (let r := susfs_add_sus_mount demo_kernel (Some mount_addon_d) true in
   inode_marked INODE_STATE_SUS_MOUNT r.2 11 = true) ∧
  (let r := susfs_add_sus_mount demo_kernel (Some mount_hosts) true in
   inode_marked INODE_STATE_SUS_MOUNT r.2 16 = true).
Proof.
  split_and!; intros r.
  - split; [vm_compute; reflexivity|].
    destruct (sus_mount_peer_group_gate demo_kernel mount_modules true
                (Path "f2fs" 5 (Some 15%nat)) 15) as [Hskip _].
    + vm_compute. discriminate.
    + vm_compute. reflexivity.
    + reflexivity.
    + apply Hskip. vm_compute. split; reflexivity.
  - destruct (sus_mount_peer_group_gate demo_kernel mount_addon_d true
                (Path "ext4" 0 (Some 11%nat)) 11) as [_ Hmark].
    + vm_compute. discriminate.
    + vm_compute. reflexivity.
    + reflexivity.
    + destruct Hmark as [_ Hr]; [left; reflexivity|].
      apply Hr. vm_compute. reflexivity.
  - destruct (sus_mount_peer_group_gate demo_kernel mount_hosts true
                (Path "ext4" 1000 (Some 16%nat)) 16) as [_ Hmark].
    + vm_compute. discriminate.
    + vm_compute. reflexivity.
    + reflexivity.
    + destruct Hmark as [_ Hr]; [right; vm_compute; discriminate|].
      apply Hr. vm_compute. reflexivity.
Defined.

Lemma try_umount_duplicate_rejected_witness :
  let r1 := susfs_add_try_umount demo_kernel (Some umount_system) true in
  let r2 := susfs_add_try_umount r1.2 (Some umount_system_detach) true in
  r2.1 = 1 ∧ LH_TRY_UMOUNT_PATH r2.2 = [umount_system] ∧
  klog r2.2 = klog r1.2 ++ [already_created_line "/system"].
Proof.
  intros r1 r2.
  destruct (try_umount_duplicate_rejected demo_kernel umount_system
              umount_system_detach true true)
    as (Hled & Hrc & (_&_&_&_&_&Hsame&_) & _ & _ & Hlog).
  - reflexivity.
  - vm_compute. reflexivity.
  - split_and!; [exact Hrc| |exact Hlog].
    fold r1 r2 in Hsame, Hled. rewrite Hsame, Hled. reflexivity.
Defined.

(** C8 as stated fails: the duplicate is refused with return value 1, and
    so are a record that cannot be copied from user space and a record for
    which no memory is left; with logging switched off by [susfs_set_log]
    the three calls are alike in everything they return and change. *)
Lemma try_umount_duplicate_error_not_distinct :
  let k1 := (susfs_add_try_umount demo_kernel (Some umount_system) true).2 in
  let quiet := susfs_set_log k1 false in
  (susfs_add_try_umount k1 (Some umount_system) true).1 = 1 ∧
  (susfs_add_try_umount k1 None true).1 = 1 ∧
  (susfs_add_try_umount k1 (Some umount_vendor) false).1 = 1 ∧
  susfs_add_try_umount quiet (Some umount_system) true = (1, quiet) ∧
  susfs_add_try_umount quiet None true = (1, quiet) ∧
  susfs_add_try_umount quiet (Some umount_vendor) false = (1, quiet).
Proof. cbv zeta. split_and!; vm_compute; reflexivity. Qed.


End SusfsExamples.
(** * More properties of the su-compat file *)

Section SucompatMoreFacts.

Import Sucompat SucompatRest.

Variable KSUD_PATH : string.

Lemma user_write_lookup_ge m q d a :
  q + Z.of_nat (length d) ≤ a → (user_write m q d).1 !! a = m !! a.
Proof.
  revert m q; induction d as [|b d IH]; intros m q Hge; simpl; [done|].
  destruct (m !! q) as [c|] eqn:E; [|done].
  destruct (cell_writable c); [|done].
  rewrite IH by (simpl in Hge; lia).
  rewrite lookup_insert_ne by (simpl in Hge; lia). done.
Qed.

Lemma user_write_dom m q d : dom (user_write m q d).1 = dom m.
Proof.
  revert m q; induction d as [|b d IH]; intros m q; simpl; [done|].
  destruct (m !! q) as [c|] eqn:E; [|done].
  destruct (cell_writable c); [|done].
  rewrite IH. apply dom_insert_lookup_L. by rewrite E.
Qed.



Lemma stack_buffer_umem st d :
  umem (userspace_stack_buffer st d).2
  = (user_write (umem st) (stack_slot st d) d).1.
Proof.
  unfold userspace_stack_buffer, copy_to_user. fold (stack_slot st d).
  by destruct (user_write (umem st) (stack_slot st d) d) as [m rest].
Qed.

(** The state after the path has been fetched differs from the state before
    in its trace only. *)
Lemma retry_frame st dst a n :
  let st1 := (ksu_copy_from_user_retry st dst a n).2 in
  umem st1 = umem st ∧ cred_is_root st1 = cred_is_root st ∧
  current_user_stack_pointer st1 = current_user_stack_pointer st ∧
  EvEscapeToRoot ∉ drop (length (trace st)) (trace st1).
Proof.
  destruct (retry_spec st dst a n) as (_ & _ & ->). cbn.
  split_and!; try done.
  rewrite drop_app_length. intros Hin.
  apply elem_of_cons in Hin as [?|Hin]; [done|].
  destruct (decide _); [by apply elem_of_nil in Hin|].
  by apply list_elem_of_singleton in Hin.
Qed.

(** What the dispatcher does to user memory: nothing, or one store of the
    replacement path at its stack slot. *)
Lemma common_umem st fu name (esc : bool) :
  let d := c_string (if esc then KSUD_PATH else SH_PATH) in
  let r := ksu_sucompat_common KSUD_PATH st fu name esc in
  umem r.2 = umem st ∨
  umem r.2 = (user_write (umem st) (stack_slot st d) d).1.
Proof.
  cbv zeta.
  destruct (ksu_sucompat_non_kp st) eqn:Hen;
    [|left; by rewrite common_gate_closed by auto].
  destruct (ksu_is_allow_uid st (current_uid st)) eqn:Hal;
    [|left; by rewrite common_gate_closed by auto].
  destruct fu as [p|]; [|left; by rewrite common_gate_closed by auto].
  rewrite common_enabled_allowed by done. cbv zeta.
  destruct (retry_frame st (replicate 16 x00) p 16) as (Hm & _ & Hsp & _).
  set (st1 := (ksu_copy_from_user_retry st (replicate 16 x00) p 16).2) in *.
  destruct (_ && _); [|by left]. right.
  destruct esc; cbn [snd].
  - unfold ksud_user_path. cbn [ksu_escape_to_root umem].
    rewrite stack_buffer_umem. unfold stack_slot. cbn. by rewrite Hm, Hsp.
  - unfold sh_user_path. change (c_string "/system/bin/sh") with
      (c_string SH_PATH).
    rewrite stack_buffer_umem. unfold stack_slot. cbn. by rewrite Hm, Hsp.
Qed.

(** X11.  Only the execute handler can raise the credentials, and it does
    so exactly when the hooks are enabled, the caller is allow-listed, the
    16-byte path buffer can be read and the target is the trigger path
    "/system/bin/su".  The check and stat handlers never raise them: the
    credentials after the call are those before it, and no escalation event
    is recorded. *)
Theorem escalation_only_by_execve
    (st : task) (filename_user : option Z) :
  let wanted :=
    ksu_sucompat_non_kp st = true ∧
    ksu_is_allow_uid st (current_uid st) = true ∧
    ∃ p, filename_user = Some p ∧ path_readable st p = true ∧
         target_path_is (umem st) p SU_PATH = true in
  let a := ksu_handle_faccessat KSUD_PATH st filename_user in
  let s := ksu_handle_stat KSUD_PATH st filename_user in
  let e := ksu_handle_execve_sucompat KSUD_PATH st filename_user in
  (cred_is_root a.2 = cred_is_root st ∧ EvEscapeToRoot ∉ new_events st a) ∧
  (cred_is_root s.2 = cred_is_root st ∧ EvEscapeToRoot ∉ new_events st s) ∧
  (EvEscapeToRoot ∈ new_events st e ↔ wanted) ∧
  (wanted → cred_is_root e.2 = true) ∧
  (¬ wanted → cred_is_root e.2 = cred_is_root st).
Proof.
  cbv zeta.
  assert (∀ name (esc : bool),
    ¬ (ksu_sucompat_non_kp st = true ∧
       ksu_is_allow_uid st (current_uid st) = true ∧
       ∃ p, filename_user = Some p ∧ path_readable st p = true ∧
            target_path_is (umem st) p SU_PATH = true) →
    let r := ksu_sucompat_common KSUD_PATH st filename_user name esc in
    cred_is_root r.2 = cred_is_root st ∧ EvEscapeToRoot ∉ new_events st r)
    as Hquiet.
  { intros name esc Hno. cbv zeta.
    assert (EvEscapeToRoot ∉ new_events st (0, filename_user, st)) as Hsame.
    { unfold new_events. cbn [snd]. rewrite drop_all. apply not_elem_of_nil. }
    destruct (ksu_sucompat_non_kp st) eqn:Hen;
      [|by rewrite common_gate_closed by auto].
    destruct (ksu_is_allow_uid st (current_uid st)) eqn:Hal;
      [|by rewrite common_gate_closed by auto].
    destruct filename_user as [p|];
      [|by rewrite common_gate_closed by auto].
    rewrite common_enabled_allowed by done. cbv zeta.
    destruct (path_readable st p) eqn:Hrd;
      [destruct (target_path_is (umem st) p SU_PATH) eqn:Hm|].
    - exfalso. apply Hno. split_and!; try done. by exists p.
    - cbn [andb]. unfold new_events. cbn [snd].
      by destruct (retry_frame st (replicate 16 x00) p 16) as (_ & ? & _ & ?).
    - cbn [andb]. unfold new_events. cbn [snd].
      by destruct (retry_frame st (replicate 16 x00) p 16) as (_ & ? & _ & ?). }
  assert (∀ name,
    (ksu_sucompat_non_kp st = true ∧
     ksu_is_allow_uid st (current_uid st) = true ∧
     ∃ p, filename_user = Some p ∧ path_readable st p = true ∧
          target_path_is (umem st) p SU_PATH = true) →
    let r := ksu_sucompat_common KSUD_PATH st filename_user name false in
    cred_is_root r.2 = cred_is_root st ∧ EvEscapeToRoot ∉ new_events st r)
    as Hsh.
  { intros name (Hen & Hal & p & -> & Hrd & Hm).
    destruct (common_match_sh KSUD_PATH st p name Hen Hal Hrd Hm) as (_ & ? & ? & _).
    done. }
  set (wanted := ksu_sucompat_non_kp st = true ∧ _) in *.
  assert (wanted ∨ ¬ wanted) as Hdec.
  { subst wanted.
    destruct (ksu_sucompat_non_kp st); [|right; by intros [? _]].
    destruct (ksu_is_allow_uid st (current_uid st));
      [|right; by intros (_ & ? & _)].
    destruct filename_user as [p|]; [|right; by intros (_ & _ & ? & ? & _)].
    destruct (path_readable st p) eqn:Hrd;
      [|right; intros (_ & _ & ? & [= <-] & ? & _); congruence].
    destruct (target_path_is (umem st) p SU_PATH) eqn:Hm;
      [|right; intros (_ & _ & ? & [= <-] & _ & ?); congruence].
    left. split_and!; try done. by exists p. }
  unfold ksu_handle_faccessat, ksu_handle_stat, ksu_handle_execve_sucompat.
  split; [|split; [|split; [|split]]].
  - destruct Hdec as [Hw|Hw]; [by apply Hsh|by apply Hquiet].
  - destruct Hdec as [Hw|Hw]; [by apply Hsh|by apply Hquiet].
  - split.
    + intros Hin. destruct Hdec as [Hw|Hw]; [done|].
      by destruct (Hquiet "sys_execve" true Hw) as [_ ?].
    + intros (Hen & Hal & p & -> & Hrd & Hm).
      by destruct (common_match_ksud KSUD_PATH st p "sys_execve" Hen Hal
                     Hrd Hm) as (_ & _ & ? & _).
  - intros (Hen & Hal & p & -> & Hrd & Hm).
    by destruct (common_match_ksud KSUD_PATH st p "sys_execve" Hen Hal
                   Hrd Hm) as (_ & ? & _).
  - intros Hw. by destruct (Hquiet "sys_execve" true Hw) as [? _].
Qed.

(** X12.  The handlers write to the caller's memory only inside the slot
    just below the user stack pointer where the replacement path is staged:
    every address outside that slot holds after the call what it held
    before, and no address is mapped or unmapped.  The slot is that of
    "/system/bin/sh" for the check and stat handlers and that of the
    helper's path for the execute handler. *)
Theorem only_the_stack_slot_is_written
    (st : task) (filename_user : option Z) (a : Z) :
  let sh := c_string SH_PATH in
  let ksud := c_string KSUD_PATH in
  let fa := ksu_handle_faccessat KSUD_PATH st filename_user in
  let fs := ksu_handle_stat KSUD_PATH st filename_user in
  let fe := ksu_handle_execve_sucompat KSUD_PATH st filename_user in
  (¬ in_stack_slot st sh a →
   umem fa.2 !! a = umem st !! a ∧ umem fs.2 !! a = umem st !! a) ∧
  (¬ in_stack_slot st ksud a → umem fe.2 !! a = umem st !! a) ∧
  dom (umem fa.2) = dom (umem st) ∧ dom (umem fs.2) = dom (umem st) ∧
  dom (umem fe.2) = dom (umem st).
Proof.
  cbv zeta.
  assert (∀ name (esc : bool),
    let d := c_string (if esc then KSUD_PATH else SH_PATH) in
    let r := ksu_sucompat_common KSUD_PATH st filename_user name esc in
    (¬ in_stack_slot st d a → umem r.2 !! a = umem st !! a) ∧
    dom (umem r.2) = dom (umem st)) as Hall.
  { intros name esc. cbv zeta.
    destruct (common_umem st filename_user name esc) as [->| ->]; [done|].
    split; [|apply user_write_dom].
    unfold in_stack_slot. intros Hout.
    destruct (decide (a < stack_slot st
                (c_string (if esc then KSUD_PATH else SH_PATH)))).
    - by apply user_write_lookup_lt.
    - apply user_write_lookup_ge. lia. }
  unfold ksu_handle_faccessat, ksu_handle_stat, ksu_handle_execve_sucompat.
  split; [|split; [|split; [|split]]].
  - intros Hout. split.
    + by apply (Hall "faccessat" false).
    + by apply (Hall "newfstatat" false).
  - apply (Hall "sys_execve" true).
  - apply (Hall "faccessat" false).
  - apply (Hall "newfstatat" false).
  - apply (Hall "sys_execve" true).
Qed.


(** X14.  Switching the hooks off with [ksu_sucompat_exit] makes every hook
    a pass-through: the three path handlers, the in-kernel execute handler
    and the pts hook return 0 and change neither their argument nor the
    state.  [ksu_sucompat_init] switches them on again; the two calls
    change nothing of the task but the switch, and each records one log
    line. *)
Theorem hooks_off_pass_through
    (st : task) (filename_user : option Z) (filename_ptr : filename_arg)
    (has_mm : bool) (ksu_devpts_sid : Z) (sec_sid : option Z) :
  let off := ksu_sucompat_exit st in
  let on := ksu_sucompat_init off in
  ksu_handle_faccessat KSUD_PATH off filename_user = (0, filename_user, off) ∧
  ksu_handle_stat KSUD_PATH off filename_user = (0, filename_user, off) ∧
  ksu_handle_execve_sucompat KSUD_PATH off filename_user
    = (0, filename_user, off) ∧
  ksu_handle_execveat_sucompat KSUD_PATH off filename_ptr
    = (0, filename_ptr, off) ∧
  __ksu_handle_devpts off has_mm ksu_devpts_sid sec_sid = (0, sec_sid) ∧
  ksu_sucompat_non_kp on = true ∧
  umem on = umem st ∧ cred_is_root on = cred_is_root st ∧
  current_uid on = current_uid st ∧
  current_user_stack_pointer on = current_user_stack_pointer st ∧
  length (trace on) = S (S (length (trace st))).
Proof.
  cbv zeta.
  unfold ksu_handle_faccessat, ksu_handle_stat, ksu_handle_execve_sucompat.
  split_and!; try (apply common_gate_closed; by left); try done.
  cbn. rewrite !length_app. simpl. lia.
Qed.

(** X15.  The in-kernel execute handler, given a name buffer of at least
    15 bytes that can hold the helper's path: when the hooks are enabled,
    the caller is allow-listed and the buffer starts with
    "/system/bin/su" and its terminator (15 bytes), the helper's path and
    its terminator are written over the start of the buffer, whose length
    does not change, and the credentials are raised; in every other case
    the buffer and the state are left as they were.  A null or error-valued
    argument is always left alone. *)
Theorem execveat_rewrites_in_place (st : task) (name : list byte) :
  (length (c_string SU_PATH) ≤ length name)%nat →
  (length (c_string KSUD_PATH) ≤ length name)%nat →
  let r := ksu_handle_execveat_sucompat KSUD_PATH st (Filename name) in
  let hit :=
    ksu_sucompat_non_kp st = true ∧
    ksu_is_allow_uid st (current_uid st) = true ∧
    take 15 name = c_string SU_PATH in
  r.1.1 = 0 ∧
  (hit →
   ∃ name', r.1.2 = Filename name' ∧
     length name' = length name ∧
     take (length (c_string KSUD_PATH)) name' = c_string KSUD_PATH ∧
     drop (length (c_string KSUD_PATH)) name'
       = drop (length (c_string KSUD_PATH)) name ∧
     cred_is_root r.2 = true ∧ umem r.2 = umem st ∧
     drop (length (trace st)) (trace r.2)
       = [EvPrInfo "" "do_execveat_common su found"; EvEscapeToRoot]) ∧
  (¬ hit → r = (0, Filename name, st)) ∧
  (∀ e, ksu_handle_execveat_sucompat KSUD_PATH st (FilenameErr e)
        = (0, FilenameErr e, st)) ∧
  ksu_handle_execveat_sucompat KSUD_PATH st FilenameNull
    = (0, FilenameNull, st).
Proof.
  intros Hsu Hsh. cbv zeta. unfold ksu_handle_execveat_sucompat.
  pose proof (memcmp_zero_iff name (c_string SU_PATH)
                (length (c_string SU_PATH)) Hsu (Nat.le_refl _)) as Hcmp.
  change (length (c_string SU_PATH)) with 15%nat in *.
  change (take 15 (c_string SU_PATH)) with (c_string SU_PATH) in Hcmp.
  destruct (ksu_sucompat_non_kp st) eqn:Hen; cbn [negb]; cbv iota;
    [|split_and!; try done; by intros (? & _)].
  destruct (ksu_is_allow_uid st (current_uid st)) eqn:Hal; cbn [negb];
    cbv iota; [|split_and!; try done; by intros (_ & ? & _)].
  destruct (decide (memcmp name (c_string SU_PATH) 15 ≠ 0)) as [Hne|Heq].
  - split_and!; try done. intros (_ & _ & Hp). exfalso. apply Hne.
    by apply Hcmp.
  - split_and!; try done.
    + intros _. eexists. split; [done|]. unfold memcpy.
      rewrite firstn_all.
      split_and!.
      * rewrite length_app, length_drop. lia.
      * by rewrite take_app_length.
      * by rewrite drop_app_length.
      * done.
      * done.
      * cbn. rewrite <- app_assoc. by rewrite drop_app_length.
    + intros Hno. exfalso. apply Hno. split_and!; try done.
      apply Hcmp. lia.
Qed.

(** X16.  The pts hook returns 0 and relabels nothing for a caller whose
    app id (the uid modulo 100000) is below 10000, in any Android user and
    whether allow-listed or not; nor for a kernel thread, nor when no
    devpts sid is configured, nor when the inode has no security
    structure.  When it does relabel, the new sid is the configured one and
    the caller is an allow-listed app with the hooks enabled.  The hook
    named [ksu_handle_devpts] never relabels. *)
Theorem devpts_never_relabels_system_uids
    (st : task) (has_mm : bool) (ksu_devpts_sid : Z) (sec_sid : option Z)
    (user app_id : Z) :
  let r := __ksu_handle_devpts st has_mm ksu_devpts_sid sec_sid in
  r.1 = 0 ∧
  (0 ≤ user → 0 ≤ app_id < 10000 →
   current_uid st = user * 100000 + app_id → r.2 = sec_sid) ∧
  (has_mm = false ∨ ksu_devpts_sid = 0 ∨ sec_sid = None → r.2 = sec_sid) ∧
  (r.2 ≠ sec_sid →
   r.2 = Some ksu_devpts_sid ∧ ksu_sucompat_non_kp st = true ∧
   ksu_is_allow_uid st (current_uid st) = true ∧
   10000 ≤ current_uid st `mod` 100000) ∧
  ksu_handle_devpts sec_sid = (0, sec_sid).
Proof.
  cbv zeta. unfold __ksu_handle_devpts, ksu_handle_devpts.
  assert (0 ≤ user → 0 ≤ app_id < 10000 →
          current_uid st = user * 100000 + app_id →
          current_uid st `mod` 100000 < 10000) as Hsys.
  { intros Hu Ha E. rewrite E, Z.add_comm, Z.mod_add by lia.
    rewrite Z.mod_small; lia. }
  destruct (ksu_sucompat_non_kp st); cbn [negb]; cbv iota;
    [|split_and!; done].
  destruct has_mm; cbn [negb]; cbv iota; [|split_and!; done].
  destruct (decide (current_uid st `mod` 100000 < 10000)) as [Hlo|Hhi];
    [split_and!; done|].
  destruct (ksu_is_allow_uid st (current_uid st)); cbn [negb]; cbv iota;
    [|split_and!; done].
  destruct (decide (ksu_devpts_sid ≠ 0)) as [Hs|Hs]; cbn [fst snd];
    [|split_and!; done].
  split_and!; try done.
  - intros Hu Ha E. exfalso. auto.
  - intros [?|[?| ->]]; done.
  - destruct sec_sid; [|done]. intros _. split_and!; try done. lia.
Qed.

End SucompatMoreFacts.

(** * Further properties of the SUSFS registries *)

Section SusfsMoreFacts.

Import Susfs SusfsCalls.

Context `{constants}.

Local Arguments hash_buckets : simpl never.
Local Arguments HASH_SIZE : simpl never.

Ltac log_frame :=
  unfold SUSFS_LOGI, SUSFS_LOGE;
  rewrite ?SUSFS_LOG_namei, ?SUSFS_LOG_i_state, ?SUSFS_LOG_path_refs,
    ?SUSFS_LOG_hlist, ?SUSFS_LOG_sus_mount, ?SUSFS_LOG_try_umount,
    ?SUSFS_LOG_enabled, ?SUSFS_LOG_umounts, ?SUSFS_LOG_klog.

(** ** Lookup by inode number *)

Lemma filldir_spec k ino :
  (susfs_sus_ino_for_filldir64 k ino = 1 ↔
   ∃ e, e ∈ bucket (SUS_PATH_HLIST k) (hash_min ino) ∧ sp_target_ino e = ino) ∧
  (susfs_sus_ino_for_filldir64 k ino = 0 ∨
   susfs_sus_ino_for_filldir64 k ino = 1).
Proof.
  unfold susfs_sus_ino_for_filldir64.
  destruct (existsb _ _) eqn:Hex.
  - split; [|by right]. split; [intros _|done].
    apply existsb_exists in Hex as (e & Hin & He).
    exists e. split; [by apply list_elem_of_In|].
    by apply bool_decide_eq_true in He.
  - split; [|by left]. split; [done|]. intros (e & Hin & He).
    assert (existsb (λ entry, bool_decide (sp_target_ino entry = ino))
              (bucket (SUS_PATH_HLIST k) (hash_min ino)) = true) as Ht.
    { apply existsb_exists. exists e.
      split; [by apply list_elem_of_In|]. by apply bool_decide_eq_true. }
    congruence.
Qed.







(** X1.  A registration that returns 0 makes [susfs_sus_ino_for_filldir64]
    answer 1 for the inode number that came with the record, in any state
    and whatever else the table holds. *)
Theorem filldir_reports_registered_ino (k : kernel)
    (info : st_susfs_sus_path) (kmalloc_ok : bool) :
  let r := susfs_add_sus_path k (Some info) kmalloc_ok in
  r.1 = 0 → susfs_sus_ino_for_filldir64 r.2 (sp_target_ino info) = 1.
Proof.
  intros r Hok. apply filldir_spec.
  destruct (add_sus_path_spec k info kmalloc_ok) as (_&_&_&_&_&_&Hcase).
  cbv zeta in Hcase. fold r in Hcase.
  destruct (if kmalloc_ok then _ else _);
    [|destruct Hcase as (H1 & _); rewrite Hok in H1; done].
  destruct Hcase as (_ & -> & _).
  exists (SusPath (sp_target_ino info)
            (strncpy (sp_target_pathname info) (SUSFS_MAX_LEN_PATHNAME - 1))).
  split; [|done].
  unfold hash_add. rewrite bucket_insert_eq. apply elem_of_cons. by left.
Qed.


(** ** What a registration leaves alone *)


(** X4.  A mount registration does not depend on the pathname resolving:
    it returns 0 exactly when the pathname is already on the list or the
    allocation succeeds, and then the decoded record is on the list; when
    it returns 1 nothing but the log has changed. *)
Theorem add_sus_mount_best_effort (k : kernel)
    (info : st_susfs_sus_mount) (kmalloc_ok : bool) :
  let decoded := SusMount (sm_target_pathname info)
                          (decode_dev (sm_target_dev info)) (sm_flags info) in
  let r := susfs_add_sus_mount k (Some info) kmalloc_ok in
  (r.1 = 0 ↔
   sm_target_pathname info ∈ sus_mount_names k ∨ kmalloc_ok = true) ∧
  (r.1 = 0 → decoded ∈ LH_SUS_MOUNT r.2) ∧
  (r.1 ≠ 0 → r.1 = 1 ∧ same_but_log k r.2).
Proof.
  intros decoded r.
  destruct (add_sus_mount_spec k info kmalloc_ok) as (Hn&Ht&Hu&Hl&Hum&Hcase).
  cbv zeta in Hcase. fold decoded r in Hn, Ht, Hu, Hl, Hum, Hcase.
  destruct (sus_mount_find _ _) as [i|] eqn:Hfind.
  - destruct (sus_mount_find_Some _ _ _ Hfind) as (old & Hold & Hname).
    destruct Hcase as (Hrc & Hlist & _).
    assert (sm_target_pathname info ∈ sus_mount_names k) as Hin.
    { unfold sus_mount_names. rewrite <- Hname. apply list_elem_of_fmap_2.
      by apply list_elem_of_lookup_2 in Hold. }
    split_and!; [by split; auto| |by rewrite Hrc].
    intros _. rewrite Hlist. apply list_elem_of_lookup. exists i.
    apply list_lookup_insert_eq. by apply lookup_lt_Some in Hold.
  - apply sus_mount_find_None in Hfind. destruct kmalloc_ok.
    + destruct Hcase as (Hrc & Hlist & _).
      split_and!; [by split; auto| |by rewrite Hrc].
      intros _. rewrite Hlist. apply elem_of_app. right.
      by apply list_elem_of_singleton.
    + destruct Hcase as (Hrc & Hlist & Hi).
      split_and!.
      * rewrite Hrc. split; [done|]. by intros [?|?].
      * by rewrite Hrc.
      * intros _. split; [done|].
        subst r. unfold susfs_add_sus_mount. cbn [sm_target_pathname].
        rewrite (proj2 (sus_mount_find_None _ _) Hfind).
        cbn [negb snd]. apply SUSFS_LOG_same.
Qed.

Lemma land_lor_nonzero s flag flag' :
  Z.land s flag' ≠ 0 → Z.land (Z.lor s flag) flag' ≠ 0.
Proof.
  intros Hs Hz. rewrite Z.land_lor_distr_l in Hz.
  apply Z.lor_eq_0_iff in Hz as [? _]. done.
Qed.

Lemma inode_set_flag_keeps_marks flag flag' i j k :
  inode_marked flag' k j = true →
  inode_marked flag' (inode_set_flag flag i k) j = true.
Proof.
  unfold inode_marked. rewrite !bool_decide_eq_true.
  rewrite inode_set_flag_state. intros Hm.
  destruct (decide (j = i ∧ _)) as [[-> _]|]; [|done].
  by apply land_lor_nonzero.
Qed.

(** What a call may do to the inode states: nothing, or one conditional
    OR of a flag into one inode. *)
Lemma run_i_state k c :
  i_state (run k c) = i_state k ∨
  ∃ flag i, i_state (run k c) = i_state (inode_set_flag flag i k).
Proof.
  destruct c as [[info|] ok|[info|] ok|[info|] ok|uid|b]; cbn [run].
  - destruct (add_sus_path_spec k info ok) as (_&_&_&_&_&_&Hcase).
    cbv zeta in Hcase. destruct (if ok then _ else _) as [i|].
    + right. exists INODE_STATE_SUS_PATH, i. by destruct Hcase as (_&_&?).
    + left. by destruct Hcase as (_&_&?).
  - left. unfold susfs_add_sus_path. cbn [snd]. by log_frame.
  - destruct (add_sus_mount_spec k info ok) as (_&_&_&_&_&Hcase).
    cbv zeta in Hcase.
    destruct (update_sus_mount_inode_spec k (sm_target_pathname info))
      as (_&_&_&_&_&_&Hup).
    assert (i_state (susfs_update_sus_mount_inode k (sm_target_pathname info))
            = i_state k ∨
            ∃ flag i,
              i_state (susfs_update_sus_mount_inode k
                         (sm_target_pathname info))
              = i_state (inode_set_flag flag i k)) as Hup'.
    { rewrite Hup. destruct (sus_mount_target _ _) as [i|]; [right|by left].
      by exists INODE_STATE_SUS_MOUNT, i. }
    destruct (sus_mount_find _ _).
    + destruct Hcase as (_&_&->). done.
    + destruct ok; destruct Hcase as (_&_&->); [done|by left].
  - left. unfold susfs_add_sus_mount. cbn [snd]. by log_frame.
  - left. by destruct (add_try_umount_spec k info ok) as (_&->&_).
  - left. unfold susfs_add_try_umount. cbn [snd]. by log_frame.
  - left. unfold susfs_try_umount, list_for_each_entry_reverse.
    generalize (reverse (LH_TRY_UMOUNT_PATH k)) as l. intros l.
    revert k; induction l as [|e l IH]; intros k; [done|].
    cbn [foldl]. rewrite IH. unfold try_umount_one.
    repeat destruct (decide _); unfold ksu_try_umount; log_frame; done.
  - by left.
Qed.

(** X5.  No call into [susfs.c] ever clears a concealment mark: an inode
    that tests positive for a flag before a call tests positive after
    it. *)
Theorem marks_are_never_cleared (k : kernel) (c : susfs_call)
    (flag : Z) (i : nat) :
  inode_marked flag k i = true → inode_marked flag (run k c) i = true.
Proof.
  intros Hm. destruct (run_i_state k c) as [E|(f & j & E)].
  - by rewrite (inode_marked_i_state _ _ _ _ E).
  - rewrite (inode_marked_i_state _ _ _ _ E).
    by apply inode_set_flag_keeps_marks.
Qed.

(** ** The two lists only grow *)

(** X6.  No call removes or reorders what the two list registries hold:
    the pathnames of the mount registry before a call are a prefix of
    those after it, and the records of the unmount ledger before a call
    are a prefix of those after it, so a ledger record keeps its place and
    its mode for good. *)
Theorem lists_are_append_only (k : kernel) (c : susfs_call) :
  sus_mount_names k `prefix_of` sus_mount_names (run k c) ∧
  LH_TRY_UMOUNT_PATH k `prefix_of` LH_TRY_UMOUNT_PATH (run k c).
Proof.
  destruct c as [[info|] ok|[info|] ok|[info|] ok|uid|b]; cbn [run].
  - destruct (add_sus_path_spec k info ok) as (_&_&Hm&Hu&_).
    unfold sus_mount_names. by rewrite Hm, Hu.
  - unfold susfs_add_sus_path, sus_mount_names. cbn [snd]. by log_frame.
  - destruct (add_sus_mount_spec k info ok) as (_&_&Hu&_&_&Hcase).
    cbv zeta in Hcase. rewrite Hu. split; [|done]. unfold sus_mount_names.
    destruct (sus_mount_find _ _) as [i|] eqn:Hfind.
    + destruct (sus_mount_find_Some _ _ _ Hfind) as (old & Hold & Hname).
      destruct Hcase as (_ & -> & _). rewrite list_fmap_insert.
      cbn [sm_target_pathname]. rewrite list_insert_id; [done|].
      by rewrite list_lookup_fmap, Hold, <- Hname.
    + destruct ok; destruct Hcase as (_ & -> & _); [|done].
      rewrite fmap_app. by apply prefix_app_r.
  - unfold susfs_add_sus_mount, sus_mount_names. cbn [snd]. by log_frame.
  - destruct (add_try_umount_spec k info ok) as (_&_&_&_&Hm&_&_&Hcase).
    cbv zeta in Hcase. unfold sus_mount_names. rewrite Hm. split; [done|].
    destruct (decide _); [by destruct Hcase as (_ & -> & _)|].
    destruct ok; destruct Hcase as (_ & ->); [by apply prefix_app_r|done].
  - unfold susfs_add_try_umount, sus_mount_names. cbn [snd]. by log_frame.
  - destruct (try_umount_registries uid k) as (_ & Hm & Hu).
    unfold sus_mount_names. by rewrite Hm, Hu.
  - done.
Qed.

(** ** The unmount ledger and its replay *)

Lemma replay_calls target_uid l :
  ∃ calls,
    um_mnt <$> calls `sublist_of` tu_target_pathname <$> l ∧
    ∀ k, umounts (foldl (try_umount_one target_uid) k l) = umounts k ++ calls.
Proof.
  induction l as [|e l (calls & Hsub & Hcalls)].
  - exists []. split; [done|]. intros k. cbn. by rewrite app_nil_r.
  - unfold try_umount_one at 1.
    destruct (decide (tu_mnt_mode e = TRY_UMOUNT_DEFAULT)) as [Hd|Hd];
      [|destruct (decide (tu_mnt_mode e = TRY_UMOUNT_DETACH)) as [Ht|Ht]].
    + exists (UmountCall (tu_target_pathname e) false 0 target_uid :: calls).
      split; [rewrite !fmap_cons; by apply sublist_skip|].
      intros k. cbn [foldl]. rewrite Hcalls. unfold try_umount_one.
      rewrite decide_True by done. unfold ksu_try_umount. cbn.
      by rewrite <- app_assoc.
    + exists (UmountCall (tu_target_pathname e) false MNT_DETACH target_uid
              :: calls).
      split; [rewrite !fmap_cons; by apply sublist_skip|].
      intros k. cbn [foldl]. rewrite Hcalls. unfold try_umount_one.
      rewrite decide_False, decide_True by done. unfold ksu_try_umount. cbn.
      by rewrite <- app_assoc.
    + exists calls. split; [rewrite fmap_cons; by apply sublist_cons|].
      intros k. cbn [foldl]. rewrite Hcalls. unfold try_umount_one.
      rewrite !decide_False by done. by log_frame.
Qed.

Lemma NoDup_sublist {A} (l1 l2 : list A) :
  l1 `sublist_of` l2 → NoDup l2 → NoDup l1.
Proof.
  induction 1 as [|x l1 l2 Hsub IH|x l1 l2 Hsub IH]; [done| |].
  - rewrite !NoDup_cons. intros [Hx Hnd]. split; [|by apply IH].
    intros Hin. apply Hx. by apply (sublist_subseteq _ _ Hsub).
  - rewrite NoDup_cons. intros [_ Hnd]. by apply IH.
Qed.

Lemma reachable_ledger_distinct k : reachable k → NoDup (try_umount_names k).
Proof.
  unfold try_umount_names.
  induction 1 as [fs|k k' _ IH (_ & _ & Hu)|k ui ok _ IH _
                 |k ui ok _ IH|k ui ok _ IH|k uid _ IH].
  - apply NoDup_nil_2.
  - by rewrite Hu.
  - destruct ui as [info|].
    + by destruct (add_sus_path_spec k info ok) as (_&_&_&->&_).
    + unfold susfs_add_sus_path. cbn [snd]. by log_frame.
  - destruct ui as [info|].
    + by destruct (add_sus_mount_spec k info ok) as (_&_&->&_).
    + unfold susfs_add_sus_mount. cbn [snd]. by log_frame.
  - destruct ui as [info|].
    + destruct (add_try_umount_spec k info ok) as (_&_&_&_&_&_&_&Hcase).
      cbv zeta in Hcase. unfold try_umount_names in Hcase.
      destruct (decide _) as [Hin|Hnin]; [by destruct Hcase as (_ & -> & _)|].
      destruct ok; destruct Hcase as (_ & ->); [|done].
      rewrite fmap_app. apply NoDup_app.
      split_and!; [done| |apply NoDup_singleton].
      intros x Hx Hx'. apply list_elem_of_singleton in Hx'. by subst x.
    + unfold susfs_add_try_umount. cbn [snd]. by log_frame.
  - by destruct (try_umount_registries uid k) as (_ & _ & ->).
Qed.

(** X7.  In every state the system can reach no pathname is on the unmount
    ledger twice, and a replay calls [ksu_try_umount] at most once per
    pathname. *)
Theorem replay_unmounts_each_path_once (k : kernel) (target_uid : Z) :
  reachable k →
  NoDup (try_umount_names k) ∧
  NoDup (um_mnt <$> replayed k target_uid).
Proof.
  intros Hreach. apply reachable_ledger_distinct in Hreach as Hnd.
  split; [done|].
  destruct (replay_calls target_uid (reverse (LH_TRY_UMOUNT_PATH k)))
    as (calls & Hsub & Hcalls).
  unfold replayed, susfs_try_umount, list_for_each_entry_reverse.
  rewrite Hcalls, drop_app_length.
  apply (NoDup_sublist _ _ Hsub). rewrite fmap_reverse.
  by rewrite reverse_Permutation.
Qed.

(** X8.  A replay does not use the ledger up: it leaves the three
    registries as they are, and a second replay for the same uid issues
    the same calls again, after those of the first. *)
Theorem replay_can_be_repeated (k : kernel) (target_uid : Z) :
  let k1 := susfs_try_umount k target_uid in
  let k2 := susfs_try_umount k1 target_uid in
  same_registries k k1 ∧
  replayed k1 target_uid = replayed k target_uid ∧
  umounts k2
  = umounts k ++ replayed k target_uid ++ replayed k target_uid.
Proof.
  intros k1 k2.
  pose proof (try_umount_registries target_uid k) as Hreg.
  fold k1 in Hreg. split; [done|]. destruct Hreg as (_ & _ & Hled).
  destruct (replay_calls target_uid (reverse (LH_TRY_UMOUNT_PATH k)))
    as (calls & _ & Hcalls).
  assert (umounts k1 = umounts k ++ calls) as H1 by apply Hcalls.
  assert (umounts k2 = umounts k1 ++ calls) as H2.
  { subst k2. unfold susfs_try_umount at 1, list_for_each_entry_reverse.
    rewrite Hled. apply Hcalls. }
  assert (replayed k target_uid = calls) as Hr.
  { unfold replayed. fold k1. by rewrite H1, drop_app_length. }
  assert (replayed k1 target_uid = calls) as Hr1.
  { unfold replayed. fold k2. by rewrite H2, drop_app_length. }
  rewrite Hr, Hr1, H2, H1. split; [done|]. by rewrite <- app_assoc.
Qed.

(** ** Logging *)

Lemma SUSFS_LOG_off lvl func fmt args k :
  susfs_is_log_enabled k = false → SUSFS_LOG lvl func fmt args k = k.
Proof. unfold SUSFS_LOG. by intros ->. Qed.

Lemma quiet_update_sus_path_inode k name :
  susfs_is_log_enabled k = false →
  klog (susfs_update_sus_path_inode k name).2 = klog k.
Proof.
  intros Hq. unfold susfs_update_sus_path_inode, kern_path, SUSFS_LOGE.
  destruct (namei k !! name) as [p|]; [|by rewrite SUSFS_LOG_off].
  destruct (decide _); [by rewrite SUSFS_LOG_off|].
  destruct (d_inode p); [|by rewrite SUSFS_LOG_off].
  unfold inode_set_flag. by destruct (decide _).
Qed.

Lemma quiet_update_sus_mount_inode k name :
  susfs_is_log_enabled k = false →
  klog (susfs_update_sus_mount_inode k name) = klog k.
Proof.
  intros Hq. unfold susfs_update_sus_mount_inode, kern_path, SUSFS_LOGE.
  destruct (namei k !! name) as [p|]; [|by rewrite SUSFS_LOG_off].
  destruct (decide _); [by rewrite SUSFS_LOG_off|].
  destruct (d_inode p); [|by rewrite SUSFS_LOG_off].
  unfold inode_set_flag. by destruct (decide _).
Qed.

Lemma quiet_try_umount k target_uid :
  susfs_is_log_enabled k = false →
  klog (susfs_try_umount k target_uid) = klog k.
Proof.
  unfold susfs_try_umount, list_for_each_entry_reverse.
  generalize (reverse (LH_TRY_UMOUNT_PATH k)) as l. intros l.
  revert k; induction l as [|e l IH]; intros k Hq; [done|].
  cbn [foldl]. unfold try_umount_one at 2.
  repeat destruct (decide _); unfold SUSFS_LOGE;
    rewrite ?SUSFS_LOG_off by done; by rewrite IH.
Qed.

(** X9.  While [susfs_is_log_enabled] is off no registration and no replay
    writes to the kernel log, and none of them turns logging back on;
    [susfs_set_log] itself always writes one line and sets the switch to
    its argument without touching a registry. *)
Theorem logging_switch (k : kernel) :
  (susfs_is_log_enabled k = false →
   ∀ c, (∀ enabled, c ≠ SetLog enabled) →
        klog (run k c) = klog k ∧ susfs_is_log_enabled (run k c) = false) ∧
  (∀ enabled,
     susfs_is_log_enabled (susfs_set_log k enabled) = enabled ∧
     length (klog (susfs_set_log k enabled)) = S (length (klog k)) ∧
     same_registries k (susfs_set_log k enabled)).
Proof.
  split; [|intros b; cbn; rewrite length_app; cbn; split_and!; [done|lia|done]].
  intros Hq c Hc.
  destruct c as [[info|] ok|[info|] ok|[info|] ok|uid|b]; cbn [run].
  - destruct (add_sus_path_spec k info ok) as (_&_&_&_&->&_).
    split; [|done]. unfold susfs_add_sus_path.
    set (st := match hash_del_first _ _ _ with
               | Some t => (true, set_SUS_PATH_HLIST t k)
               | None => (false, k)
               end).
    assert (susfs_is_log_enabled st.2 = false ∧ klog st.2 = klog k)
      as [Hq1 Hk1] by (subst st; by destruct (hash_del_first _ _ _)).
    destruct st as [upd k1]. cbn [fst snd] in *.
    destruct ok; cbn [negb]; [|unfold SUSFS_LOGE; by rewrite SUSFS_LOG_off].
    cbn [sp_target_pathname sp_target_ino].
    pose proof (quiet_update_sus_path_inode k1
                  (strncpy (sp_target_pathname info)
                     (SUSFS_MAX_LEN_PATHNAME - 1)) Hq1) as Hup.
    destruct (update_sus_path_inode_spec k1
                (strncpy (sp_target_pathname info)
                   (SUSFS_MAX_LEN_PATHNAME - 1))) as (_&_&_&_&_&Hq2&_).
    destruct (susfs_update_sus_path_inode k1 _) as [rc k2].
    cbn [fst snd] in Hup, Hq2. rewrite Hq1 in Hq2.
    destruct rc as [|rc|rc]; cbv iota; cbn [snd]; [|congruence..].
    unfold SUSFS_LOGI. destruct upd; rewrite SUSFS_LOG_off by done;
      cbn; congruence.
  - unfold susfs_add_sus_path, SUSFS_LOGE. cbn [snd].
    by rewrite SUSFS_LOG_off.
  - destruct (add_sus_mount_spec k info ok) as (_&_&_&->&_).
    split; [|done]. unfold susfs_add_sus_mount.
    cbn [sm_target_pathname sm_target_dev].
    destruct (sus_mount_find _ _) as [i|].
    + cbn [snd]. unfold SUSFS_LOGI. rewrite SUSFS_LOG_off.
      * by rewrite quiet_update_sus_mount_inode.
      * by destruct (update_sus_mount_inode_spec
                       (set_LH_SUS_MOUNT
                          (<[i:=SusMount (sm_target_pathname info)
                                  (decode_dev (sm_target_dev info))
                                  (sm_flags info)]> (LH_SUS_MOUNT k)) k)
                       (sm_target_pathname info)) as (_&_&_&_&->&_).
    + destruct ok; cbn [negb snd];
        [|unfold SUSFS_LOGE; by rewrite SUSFS_LOG_off].
      unfold SUSFS_LOGI. rewrite SUSFS_LOG_off.
      * cbn. by rewrite quiet_update_sus_mount_inode.
      * cbn. by destruct (update_sus_mount_inode_spec k
                            (sm_target_pathname info)) as (_&_&_&_&->&_).
  - unfold susfs_add_sus_mount, SUSFS_LOGE. cbn [snd].
    by rewrite SUSFS_LOG_off.
  - destruct (add_try_umount_spec k info ok) as (_&_&_&_&_&->&_).
    split; [|done]. unfold susfs_add_try_umount.
    destruct (existsb _ _); [unfold SUSFS_LOGE; by rewrite SUSFS_LOG_off|].
    destruct ok; cbn [negb snd];
      [|unfold SUSFS_LOGE; by rewrite SUSFS_LOG_off].
    unfold SUSFS_LOGI. by rewrite SUSFS_LOG_off.
  - unfold susfs_add_try_umount, SUSFS_LOGE. cbn [snd].
    by rewrite SUSFS_LOG_off.
  - split; [by apply quiet_try_umount|].
    unfold susfs_try_umount, list_for_each_entry_reverse.
    generalize (reverse (LH_TRY_UMOUNT_PATH k)) as l. intros l.
    clear Hc. revert k Hq; induction l as [|e l IH]; intros k Hq; [done|].
    cbn [foldl]. apply IH. unfold try_umount_one.
    repeat destruct (decide _); unfold ksu_try_umount; by log_frame.
  - by destruct (Hc b).
Qed.

(** ** Path references *)

Lemma update_sus_mount_inode_path_refs k name :
  path_refs (susfs_update_sus_mount_inode k name)
  = path_refs k
    + match namei k !! name with
      | Some p =>
          if decide (0 < mnt_group_id p < DEFAULT_SUS_MNT_GROUP_ID)
          then 1 else 0
      | None => 0
      end.
Proof.
  unfold susfs_update_sus_mount_inode, kern_path.
  destruct (namei k !! name) as [p|]; [|log_frame; lia].
  destruct (decide (mnt_group_id p > 0 ∧ _)).
  - rewrite decide_True by lia. by log_frame.
  - rewrite decide_False by lia.
    destruct (d_inode p); log_frame; unfold inode_set_flag;
      try destruct (decide _); cbn; lia.
Qed.

(** X10.  A path registration gives back every path reference it takes,
    whatever its outcome.  [susfs_update_sus_mount_inode] gives its
    reference back except on the early return for a mount whose peer group
    identifier lies above 0 and below [DEFAULT_SUS_MNT_GROUP_ID]: each such
    call leaves exactly one reference taken. *)
Theorem path_reference_balance (k : kernel) :
  (∀ user_info kmalloc_ok,
     path_refs (susfs_add_sus_path k user_info kmalloc_ok).2 = path_refs k) ∧
  (∀ name,
     (namei k !! name = None →
      path_refs (susfs_update_sus_mount_inode k name) = path_refs k) ∧
     (∀ p, namei k !! name = Some p →
           path_refs (susfs_update_sus_mount_inode k name)
           = if decide (0 < mnt_group_id p < DEFAULT_SUS_MNT_GROUP_ID)
             then path_refs k + 1 else path_refs k)).
Proof.
  split.
  - intros [info|] ok.
    + by destruct (add_sus_path_spec k info ok) as (_&->&_).
    + unfold susfs_add_sus_path. cbn [snd]. by log_frame.
  - intros name. rewrite update_sus_mount_inode_path_refs. split.
    + intros ->. lia.
    + intros p ->. destruct (decide _); lia.
Qed.

End SusfsMoreFacts.
(** * Properties of the uname store *)

Section UnameFacts.

Import Susfs Uname.

Variable NEW_UTS_LEN : nat.

Lemma strncpy_length s n : (String.length (strncpy s n) ≤ n)%nat.
Proof.
  unfold strncpy. revert n; induction s as [|c s IH]; intros n.
  - destruct n; simpl; lia.
  - destruct n as [|n]; simpl; [lia|]. specialize (IH n). lia.
Qed.

Lemma strncpy_short s n : (String.length s ≤ n)%nat → strncpy s n = s.
Proof.
  unfold strncpy. revert n; induction s as [|c s IH]; intros n Hn.
  - by destruct n.
  - destruct n as [|n]; simpl in *; [lia|]. rewrite IH; [done|lia].
Qed.

Lemma strncpy_idem s n : strncpy (strncpy s n) n = strncpy s n.
Proof. apply strncpy_short, strncpy_length. Qed.

(** X17.  Until a record has been set, and whenever the lock is held,
    [susfs_spoof_uname] hands back the structure it was given: after
    [susfs_my_uname_init], after a [susfs_set_uname] whose copy from user
    space failed (which returns 1 and keeps the stored record), and for
    any stored record while the lock is taken.  In every case the four
    fields other than release and version are never touched. *)
Theorem spoof_uname_off_by_default
    (uk : uts_kernel) (locked : bool) (tmp : new_utsname) :
  let t := susfs_spoof_uname NEW_UTS_LEN uk locked tmp in
  let failed := susfs_set_uname NEW_UTS_LEN uk None in
  susfs_spoof_uname NEW_UTS_LEN (susfs_my_uname_init uk) locked tmp = tmp ∧
  susfs_spoof_uname NEW_UTS_LEN uk true tmp = tmp ∧
  (un_release (my_uname uk) = "" → t = tmp) ∧
  failed.1 = 1 ∧ my_uname failed.2 = my_uname uk ∧
  susfs_spoof_uname NEW_UTS_LEN failed.2 locked tmp = t ∧
  sysname t = sysname tmp ∧ nodename t = nodename tmp ∧
  machine t = machine tmp ∧ domainname t = domainname tmp.
Proof.
  cbv zeta. unfold susfs_spoof_uname, susfs_my_uname_init, susfs_set_uname.
  cbn [my_uname un_release fst snd].
  split_and!; try done.
  - by rewrite orb_true_r.
  - intros ->. done.
  - by destruct (_ || _).
  - by destruct (_ || _).
  - by destruct (_ || _).
  - by destruct (_ || _).
Qed.

(** X18.  Setting a record and then spoofing: [susfs_set_uname] returns 0,
    and a later [susfs_spoof_uname] (lock free) reports for release and
    version the values given, or the live ones where "default" was given,
    each cut to [__NEW_UTS_LEN] characters, and never more than that many.
    If the release so obtained is empty the structure is handed back
    unchanged, version included.  With "default" for both fields and live
    values that fit, spoofing the live structure changes nothing. *)
Theorem set_uname_then_spoof
    (uk : uts_kernel) (info : st_susfs_uname) (tmp : new_utsname) :
  let r := susfs_set_uname NEW_UTS_LEN uk (Some info) in
  let rel :=
    effective NEW_UTS_LEN (release (utsname uk)) (un_release info) in
  let ver :=
    effective NEW_UTS_LEN (version (utsname uk)) (un_version info) in
  let t := susfs_spoof_uname NEW_UTS_LEN r.2 false tmp in
  r.1 = 0 ∧ utsname r.2 = utsname uk ∧
  (rel = "" → t = tmp) ∧
  (rel ≠ "" →
   t = NewUtsname (sysname tmp) (nodename tmp) rel ver
         (machine tmp) (domainname tmp) ∧
   (String.length (release t) ≤ NEW_UTS_LEN)%nat ∧
   (String.length (version t) ≤ NEW_UTS_LEN)%nat) ∧
  (un_release info = "default" → un_version info = "default" →
   (String.length (release (utsname uk)) ≤ NEW_UTS_LEN)%nat →
   (String.length (version (utsname uk)) ≤ NEW_UTS_LEN)%nat →
   susfs_spoof_uname NEW_UTS_LEN r.2 false (utsname uk) = utsname uk).
Proof.
  cbv zeta. unfold susfs_spoof_uname, susfs_set_uname, effective.
  cbn [my_uname un_release un_version fst snd utsname]. rewrite orb_false_r.
  assert (∀ live given,
    strncpy (if decide (given = "default")
             then strncpy live NEW_UTS_LEN
             else strncpy given NEW_UTS_LEN) NEW_UTS_LEN
    = strncpy (if decide (given = "default") then live else given)
        NEW_UTS_LEN) as Htwice.
  { intros live given. destruct (decide _); apply strncpy_idem. }
  assert (∀ live given,
    (if decide (given = "default")
     then strncpy live NEW_UTS_LEN
     else strncpy given NEW_UTS_LEN)
    = strncpy (if decide (given = "default") then live else given)
        NEW_UTS_LEN) as Honce.
  { intros live given. by destruct (decide _). }
  split_and!; try done.
  - intros E. rewrite Honce, E. done.
  - intros Hne. rewrite !Htwice. rewrite Honce.
    rewrite bool_decide_eq_false_2 by done.
    split_and!; [done|apply strncpy_length..].
  - intros -> -> Hr Hv.
    rewrite !decide_True by done. rewrite !strncpy_idem.
    rewrite !strncpy_short by done.
    destruct (bool_decide _); [done|]. by destruct (utsname uk).
Qed.

End UnameFacts.
(** * Properties of the FPC1020 platform driver *)

Section Fpc1020Facts.

Import Fpc1020.

Variable env : list (hw_call * Z) → hw_call → Z.

Context `{fb_constants}.

Variable sscanf_name_op : string → option (string * Ascii.ascii).

Lemma IS_ERR_nonzero p : IS_ERR p = true → PTR_ERR p ≠ 0.
Proof. unfold IS_ERR, PTR_ERR. rewrite bool_decide_eq_true. lia. Qed.

Lemma insert_default_id (l : list Z) i :
  default 0 (l !! i) = 0 → <[i := 0]> l = l.
Proof.
  intros Hd. destruct (l !! i) as [v|] eqn:E.
  - simpl in Hd. subst v. by apply list_insert_id.
  - apply lookup_ge_None in E. by apply list_insert_ge.
Qed.

(** One call into the kernel: it is recorded, and nothing else changes. *)
Lemma call_spec c d :
  ∃ r d', call env c d = (r, d') ∧ hw d' = hw d ++ [(c, r)] ∧
    vreg d' = vreg d ∧ same_settings d d'.
Proof. eexists _, _. split; [done|]. by repeat split. Qed.

Lemma got_app a b : got (a ++ b) = got a ++ got b.
Proof. apply omap_app. Qed.

Lemma puts_app a b : puts (a ++ b) = puts a ++ puts b.
Proof. apply omap_app. Qed.

Lemma locks_app a b : locks (a ++ b) = locks a ++ locks b.
Proof. apply omap_app. Qed.

Lemma selects_app a b : selects (a ++ b) = selects a ++ selects b.
Proof. apply omap_app. Qed.

Lemma gets_app a b : gets (a ++ b) = gets a ++ gets b.
Proof. apply omap_app. Qed.

Lemma enables_app a b : enables (a ++ b) = enables a ++ enables b.
Proof. apply omap_app. Qed.

Lemma without_logs_app a b :
  without_logs (a ++ b) = without_logs a ++ without_logs b.
Proof. apply omap_app. Qed.

Lemma since_app d d' evs : hw d' = hw d ++ evs → since d d' = evs.
Proof. unfold since. intros ->. by rewrite drop_app_length. Qed.

Lemma since_trans d d1 d2 e1 e2 :
  hw d1 = hw d ++ e1 → hw d2 = hw d1 ++ e2 →
  since d d2 = since d d1 ++ since d1 d2.
Proof.
  intros H1 H2. rewrite (since_app _ _ _ H1), (since_app _ _ _ H2).
  apply since_app. rewrite H2, H1. by rewrite app_assoc.
Qed.

Lemma conserved_refl d : conserved d d.
Proof.
  unfold conserved. split; [done|]. split; [exists []; by rewrite app_nil_r|].
  unfold since. rewrite drop_all. cbn. by rewrite app_nil_r.
Qed.

Lemma conserved_trans d d1 d2 :
  conserved d d1 → conserved d1 d2 → conserved d d2.
Proof.
  unfold conserved. intros (Hl1 & [e1 H1] & Hp1) (Hl2 & [e2 H2] & Hp2).
  split; [congruence|]. split.
  { exists (e1 ++ e2). rewrite H2, H1. by rewrite app_assoc. }
  rewrite (since_trans _ _ _ _ _ H1 H2), got_app, puts_app.
  rewrite app_assoc, Hp1. rewrite <- !app_assoc.
  apply Permutation_app_head. exact Hp2.
Qed.

(** A step that neither touches the slots nor gets or puts a handle. *)
Lemma conserved_quiet d d' evs :
  hw d' = hw d ++ evs → vreg d' = vreg d → got evs = [] → puts evs = [] →
  conserved d d'.
Proof.
  intros Hh Hv Hg Hp. unfold conserved.
  split; [by rewrite Hv|]. split; [by exists evs|].
  rewrite (since_app _ _ _ Hh), Hg, Hp. unfold held. rewrite Hv.
  by rewrite app_nil_r.
Qed.

Ltac step :=
  match goal with
  | |- context [call env ?c ?d] =>
      is_var d;
      let r := fresh "r" in
      let d' := fresh "d" in
      let Hhw := fresh "Hhw" in
      let Hv := fresh "Hv" in
      let Hs := fresh "Hs" in
      destruct (call_spec c d) as (r & d' & -> & Hhw & Hv & Hs);
      cbn [fst snd];
      try pose proof (conserved_quiet d d' _ Hhw Hv eq_refl eq_refl)
  end.

Ltac branch :=
  match goal with
  | |- context [decide ?P] => destruct (decide P) as [?|?]
  end.

Ltac unfold_log :=
  unfold dev_err, dev_dbg, dev_info, printk, pr_info, void.

Ltac unfold_set :=
  unfold set_vreg, set_prepared, set_wakeup_enabled, set_fb_black,
    set_wait_finger_down, set_fingerprint_pinctrl, set_pinctrl_state,
    set_irq_gpio, set_rst_gpio, set_compatible_enabled;
  cbn [fst snd fingerprint_pinctrl pinctrl_state vreg irq_gpio rst_gpio
       prepared compatible_enabled wakeup_enabled fb_black
       wait_finger_down hw].

(** Closes [hw dn = hw d ++ ?evs] from the facts the steps left. *)
Ltac chain_hw :=
  unfold_set;
  repeat match goal with
         | Hh : hw _ = _ |- _ => rewrite Hh; clear Hh
         end;
  rewrite <- ?app_assoc; reflexivity.

Ltac chain_settings :=
  unfold same_settings in *; unfold_set;
  repeat match goal with
         | Hs : _ ∧ _ |- _ => destruct Hs
         end;
  repeat split; congruence.

Ltac chain_vreg :=
  unfold_set;
  repeat match goal with
         | Hv : vreg _ = _ |- _ => rewrite Hv; clear Hv
         end.

Ltac conserve Herr :=
  unfold got, puts, held1; cbn; rewrite ?Herr;
  repeat case_decide; first [done|lia|congruence].

(** What one call of [vreg_setup] does. *)
Lemma vreg_setup_spec d name enable :
  let r := vreg_setup env d name enable in
  ∃ evs, hw r.2 = hw d ++ evs ∧ same_settings d r.2 ∧
    locks evs = [] ∧ selects evs = [] ∧
    match first_match (vc_name <$> vreg_conf) name 0 with
    | None =>
        r.1 = - EINVAL ∧ vreg r.2 = vreg d ∧ got evs = [] ∧ puts evs = [] ∧
        gets evs = [] ∧ enables evs = []
    | Some i =>
        let v0 := default 0 (vreg d !! i) in
        ∃ v1, vreg r.2 = <[i := v1]> (vreg d) ∧
          held1 v0 ++ got evs = puts evs ++ held1 v1 ∧
          (if enable then
             (r.1 = 0 ∧ puts evs = [] ∧ (v0 = 0 → IS_ERR v1 = false)) ∨
             (r.1 ≠ 0 ∧ v1 = 0)
           else r.1 = 0 ∧ v1 = 0 ∧ got evs = []) ∧
          (if enable then
             (v0 = 0 →
              ∃ g, gets evs = [(name, g)] ∧
                if IS_ERR g then r.1 = PTR_ERR g ∧ enables evs = []
                else enables evs = [(g, r.1)] ∧ (r.1 = 0 → v1 = g)) ∧
             (v0 ≠ 0 → gets evs = [] ∧ enables evs = [(v0, r.1)])
           else gets evs = [] ∧ enables evs = [])
    end.
Proof.
  cbv zeta. unfold vreg_setup.
  destruct (first_match (vc_name <$> vreg_conf) name 0) as [i|].
  2:{ unfold_log. step. eexists. split; [chain_hw|].
      split; [chain_settings|]. done. }
  set (v0 := default 0 (vreg d !! i)).
  assert (v0 = default 0 (vreg d !! i)) as Hv0 by done. clearbody v0.
  destruct enable.
  - destruct (decide (v0 = 0)) as [Hz|Hnz].
    + step. destruct (IS_ERR r) eqn:Herr.
      * unfold_log. step. eexists. split; [chain_hw|].
        split; [chain_settings|]. split; [done|]. split; [done|].
        exists 0. split; [chain_vreg; rewrite insert_default_id; [done|lia]|].
        split; [conserve Herr|].
        split; [right; split; [by apply IS_ERR_nonzero|done]|].
        split; [|done]. intros _. exists r. split; [done|].
        by rewrite Herr.
      * unfold_log. repeat (first [step|branch]).
        all: eexists; (split; [chain_hw|]); (split; [chain_settings|]);
          (split; [done|]); (split; [done|]); cbn [fst snd].
        all: first
          [ exists 0; split; [by chain_vreg|]; split; [conserve Herr|];
            split; [right; split; [done|done]|];
            split; [|done]; intros _; exists r; split; [done|];
            rewrite Herr; split; [done|lia]
          | exists r; split; [by chain_vreg|]; split; [conserve Herr|];
            split; [left; split; [lia|]; split; [done|done]|];
            split; [|done]; intros _; exists r; split; [done|];
            rewrite Herr; split; [f_equal; f_equal; lia|done] ].
    + unfold_log. repeat (first [step|branch]).
      all: eexists; (split; [chain_hw|]); (split; [chain_settings|]);
        (split; [done|]); (split; [done|]); cbn [fst snd].
      all: first
        [ exists 0; split; [by chain_vreg|]; split; [conserve Hnz|];
          split; [right; split; [done|done]|]; split; [done|];
          intros _; split; [done|done]
        | exists v0; split; [by chain_vreg|]; split; [conserve Hnz|];
          split; [left; split; [lia|]; split; [done|done]|]; split; [done|];
          intros _; split; [done|]; f_equal; f_equal; lia ].
  - destruct (decide (v0 ≠ 0)) as [Hnz|Hz].
    + unfold_log. repeat (first [step|branch]).
      all: eexists; (split; [chain_hw|]); (split; [chain_settings|]);
        (split; [done|]); (split; [done|]).
      all: exists 0; (split; [by chain_vreg|]); (split; [conserve Hnz|]);
        done.
    + exists []. rewrite app_nil_r. split; [done|]. split; [done|].
      split; [done|]. split; [done|]. exists 0.
      split; [cbn [snd]; rewrite insert_default_id; [done|lia]|].
      split; [conserve Hz|done].
Qed.

(** What one call of [select_pin_ctl] does. *)
Lemma select_pin_ctl_spec d name :
  let r := select_pin_ctl env d name in
  ∃ evs, hw r.2 = hw d ++ evs ∧ same_settings d r.2 ∧ vreg r.2 = vreg d ∧
    locks evs = [] ∧ got evs = [] ∧ puts evs = [] ∧
    match first_match pctl_names name 0 with
    | Some i =>
        selects evs = [(default 0 (pinctrl_state d !! i), r.1)] ∧
        without_logs evs
        = [PinctrlSelectState (fingerprint_pinctrl d)
             (default 0 (pinctrl_state d !! i))] ∧
        gets evs = [] ∧ enables evs = []
    | None =>
        r.1 = - EINVAL ∧ selects evs = [] ∧ without_logs evs = [] ∧
        gets evs = [] ∧ enables evs = []
    end.
Proof.
  cbv zeta. unfold select_pin_ctl.
  destruct (first_match pctl_names name 0) as [i|].
  - unfold_log. repeat (first [step|branch]).
    all: eexists; (split; [chain_hw|]); (split; [chain_settings|]);
      (split; [by chain_vreg|]); done.
  - unfold_log. step. eexists. split; [chain_hw|].
    split; [chain_settings|]. split; [by chain_vreg|]. done.
Qed.

Lemma held_insert (l : list Z) i v1 :
  (i < length l)%nat →
  held1 (default 0 (l !! i)) ++ filter (λ v, v ≠ 0) (<[i := v1]> l)
  ≡ₚ held1 v1 ++ filter (λ v, v ≠ 0) l.
Proof.
  intros Hi. destruct (lookup_lt_is_Some_2 l i Hi) as [v0 Hv0].
  rewrite Hv0. cbn [default].
  rewrite <- (take_drop_middle l i v0 Hv0) at 2.
  rewrite insert_take_drop by done.
  rewrite !filter_app, !filter_cons. unfold held1.
  repeat case_decide; try done; cbn.
  all: rewrite <- ?Permutation_middle; try done; apply perm_swap.
Qed.

Lemma first_match_lt names name k i :
  first_match names name k = Some i → (i < k + length names)%nat.
Proof.
  revert k; induction names as [|n names IH]; intros k; simpl; [done|].
  destruct (String.prefix n name).
  - intros [= <-]. lia.
  - intros Hf. apply IH in Hf. lia.
Qed.

Lemma vreg_setup_conserved d name enable :
  length (vreg d) = 3%nat →
  conserved d (vreg_setup env d name enable).2.
Proof.
  intros Hlen.
  destruct (vreg_setup_spec d name enable)
    as (evs & Hhw & _ & _ & _ & Hcase).
  unfold conserved at 1.
  destruct (first_match (vc_name <$> vreg_conf) name 0) as [i|] eqn:Hfm.
  - destruct Hcase as (v1 & Hv & Hcons & _).
    apply first_match_lt in Hfm. cbn in Hfm.
    split; [by rewrite Hv, length_insert|]. split; [by exists evs|].
    rewrite (since_app _ _ _ Hhw). unfold held. rewrite Hv.
    pose proof (held_insert (vreg d) i v1 ltac:(lia)) as Hins.
    apply (Permutation_app_inv_l (held1 (default 0 (vreg d !! i)))).
    symmetry. rewrite Permutation_app_swap_app, Hins.
    rewrite app_assoc, <- Hcons, <- app_assoc.
    apply Permutation_app_head, Permutation_app_comm.
  - destruct Hcase as (_ & Hv & Hg & Hp & _).
    by apply (conserved_quiet _ _ evs).
Qed.

Lemma fm_spi : first_match (vc_name <$> vreg_conf) "vcc_spi" 0 = Some 1%nat.
Proof. reflexivity. Qed.

Lemma fm_io : first_match (vc_name <$> vreg_conf) "vdd_io" 0 = Some 2%nat.
Proof. reflexivity. Qed.

Lemma fm_ana : first_match (vc_name <$> vreg_conf) "vdd_ana" 0 = Some 0%nat.
Proof. reflexivity. Qed.

Lemma fm_reset : first_match pctl_names "fpc1020_reset_reset" 0 = Some 0%nat.
Proof. reflexivity. Qed.

Lemma fm_active :
  first_match pctl_names "fpc1020_reset_active" 0 = Some 1%nat.
Proof. reflexivity. Qed.

Lemma select_pin_ctl_conserved d name :
  conserved d (select_pin_ctl env d name).2.
Proof.
  destruct (select_pin_ctl_spec d name)
    as (evs & Hhw & _ & Hv & _ & Hg & Hp & _).
  by apply (conserved_quiet _ _ evs).
Qed.

Lemma setter_conserved d d' : hw d' = hw d → vreg d' = vreg d → conserved d d'.
Proof.
  intros Hh Hv. apply (conserved_quiet _ _ []); try done.
  by rewrite app_nil_r.
Qed.

Ltac step_vreg :=
  match goal with
  | |- context [vreg_setup env ?d ?name ?en] =>
      is_var d;
      let Hspec := fresh "Hspec" in
      let Hc := fresh "Hcons" in
      pose proof (vreg_setup_spec d name en) as Hspec;
      pose proof (vreg_setup_conserved d name en) as Hc;
      cbv zeta in Hspec;
      rewrite ?fm_spi, ?fm_io, ?fm_ana in Hspec;
      destruct (vreg_setup env d name en) as [? ?];
      cbn [fst snd] in Hspec, Hc |- *;
      destruct Hspec as (? & ? & ? & ? & ? & ? & ? & ? & ?)
  end.

Ltac step_select :=
  match goal with
  | |- context [select_pin_ctl env ?d ?name] =>
      is_var d;
      let Hspec := fresh "Hspec" in
      let Hc := fresh "Hcons" in
      pose proof (select_pin_ctl_spec d name) as Hspec;
      pose proof (select_pin_ctl_conserved d name) as Hc;
      cbv zeta in Hspec;
      rewrite ?fm_reset, ?fm_active in Hspec;
      destruct (select_pin_ctl env d name) as [? ?];
      cbn [fst snd] in Hspec, Hc |- *;
      destruct Hspec as (? & ? & ? & ? & ? & ? & ? & ?)
  end.

(** Names a state built with a setter, keeping what is known of it. *)
Ltac simpl_set_in Hx :=
  unfold set_vreg, set_prepared, set_wakeup_enabled, set_fb_black,
    set_wait_finger_down, set_fingerprint_pinctrl, set_pinctrl_state,
    set_irq_gpio, set_rst_gpio, set_compatible_enabled in Hx;
  cbn [fingerprint_pinctrl pinctrl_state vreg irq_gpio rst_gpio prepared
       compatible_enabled wakeup_enabled fb_black wait_finger_down hw]
    in Hx.

Ltac name_setter t d :=
  is_var d;
  let d' := fresh "d" in
  let E := fresh "E" in
  let H1 := fresh "Hset" in
  let H2 := fresh "Hset" in
  let H3 := fresh "Hset" in
  let H4 := fresh "Hset" in
  let H5 := fresh "Hset" in
  let H6 := fresh "Hset" in
  let H7 := fresh "Hset" in
  let H8 := fresh "Hset" in
  let H9 := fresh "Hset" in
  remember t as d' eqn:E;
  assert (hw d' = hw d) by (by subst d');
  assert (vreg d' = vreg d) by (by subst d');
  assert (conserved d d') by (by apply setter_conserved; subst d');
  assert (prepared d' = prepared t) as H1 by (by subst d');
  assert (wakeup_enabled d' = wakeup_enabled t) as H2 by (by subst d');
  assert (fb_black d' = fb_black t) as H3 by (by subst d');
  assert (wait_finger_down d' = wait_finger_down t) as H4 by (by subst d');
  assert (pinctrl_state d' = pinctrl_state t) as H5 by (by subst d');
  assert (irq_gpio d' = irq_gpio t) as H6 by (by subst d');
  assert (rst_gpio d' = rst_gpio t) as H7 by (by subst d');
  assert (compatible_enabled d' = compatible_enabled t) as H8
    by (by subst d');
  assert (fingerprint_pinctrl d' = fingerprint_pinctrl t) as H9
    by (by subst d');
  simpl_set_in H1; simpl_set_in H2; simpl_set_in H3; simpl_set_in H4;
  simpl_set_in H5; simpl_set_in H6; simpl_set_in H7; simpl_set_in H8;
  simpl_set_in H9;
  clear E.

Ltac name_set :=
  match goal with
  | |- context [set_prepared ?b ?d] => name_setter (set_prepared b d) d
  | |- context [set_wakeup_enabled ?b ?d] =>
      name_setter (set_wakeup_enabled b d) d
  | |- context [set_fb_black ?b ?d] => name_setter (set_fb_black b d) d
  | |- context [set_wait_finger_down ?b ?d] =>
      name_setter (set_wait_finger_down b d) d
  | |- context [set_fingerprint_pinctrl ?b ?d] =>
      name_setter (set_fingerprint_pinctrl b d) d
  | |- context [set_pinctrl_state ?b ?d] =>
      name_setter (set_pinctrl_state b d) d
  | |- context [set_irq_gpio ?b ?d] => name_setter (set_irq_gpio b d) d
  | |- context [set_rst_gpio ?b ?d] => name_setter (set_rst_gpio b d) d
  | |- context [set_compatible_enabled ?b ?d] =>
      name_setter (set_compatible_enabled b d) d
  end.

Ltac flat := unfold same_settings, same_device in *;
  repeat match goal with Hs : _ ∧ _ |- _ => destruct Hs end.

Lemma held1_0 : held1 0 = [].
Proof. reflexivity. Qed.

(** Brings what is known of the slots to closed form. *)
Ltac norm_vreg :=
  repeat match goal with
         | Hx : vreg ?X = _, Hy : context [vreg ?X] |- _ =>
             tryif constr_eq Hx Hy then fail
             else (rewrite Hx in Hy;
                   cbn [lookup list_lookup default insert list_insert id
                        length] in Hy;
                   rewrite ?held1_0 in Hy)
         end;
  repeat match goal with
         | Hc : ?a = ?a → conserved _ _ |- _ => specialize (Hc eq_refl)
         end.

Ltac focus f :=
  pattern f;
  match goal with |- ?P _ => let Q := fresh "Q" in set (Q := P) end.

Ltac leaf d :=
  match goal with
  | Q := _ |- _ (_, ?df) =>
      let Hevs := fresh "Hevs" in
      eassert (hw df = hw d ++ _) as Hevs by chain_hw;
      subst Q; cbv beta; cbn [fst snd];
      rewrite ?(since_app _ _ _ Hevs);
      rewrite ?got_app, ?puts_app, ?locks_app, ?selects_app,
        ?without_logs_app, ?gets_app, ?enables_app
  end.

(** Splits what the steps left into cases and drops the impossible
    ones. *)
Ltac tidy :=
  flat;
  repeat match goal with
         | Hd : _ ∨ _ |- _ => destruct Hd as [Hd|Hd]
         end;
  flat; try (exfalso; lia); subst;
  repeat match goal with
         | Hp : puts _ = [] |- _ => rewrite ?Hp in *; clear Hp
         | Hg : got _ = [] |- _ => rewrite ?Hg in *; clear Hg
         end;
  rewrite ?held1_0, ?app_nil_r in *; cbn [app] in *.

Ltac use_cons :=
  cbn [app];
  repeat match goal with
         | Hg : got _ = _ |- _ => rewrite Hg; clear Hg
         | Hp : _ = puts _ |- _ => rewrite <- Hp; clear Hp
         end.

Ltac chain_cons :=
  first
    [ apply conserved_refl
    | match goal with
      | Hc : conserved ?a ?b |- conserved ?a ?c =>
          apply (conserved_trans a b c Hc); chain_cons
      end ].

Ltac no_locks :=
  repeat match goal with
         | Hl : locks _ = [] |- _ => rewrite Hl; clear Hl
         end;
  done.

(** Brings what the steps left about [regulator_get] and
    [regulator_enable] into the open. *)
Ltac use_calls :=
  repeat match goal with
         | Hi : ?a = ?a → _ |- _ => specialize (Hi eq_refl)
         | Hi : ?a ≠ ?a → _ |- _ => clear Hi
         | He : ∃ g, gets _ = _ ∧ _ |- _ => destruct He as (? & ? & ?)
         end.

Ltac use_gets :=
  repeat match goal with
         | Hg : gets _ = _ |- _ => rewrite Hg; clear Hg
         | Hg : enables _ = _ |- _ => rewrite Hg; clear Hg
         end.

Ltac err_cases :=
  repeat match goal with
         | Hif : if IS_ERR ?g then _ else _ |- _ =>
             destruct (IS_ERR g) eqn:?; flat
         end;
  try (exfalso;
       match goal with
       | He : IS_ERR ?g = true, Hz : 0 = PTR_ERR ?g |- _ =>
           by apply (IS_ERR_nonzero g He)
       end);
  use_calls; subst.

(** Closes a branch of [device_prepare] that ended in an error. *)
Ltac prepare_failed :=
  right; (split; [done|]); (split; [congruence|]); (split; [done|]);
  (split; [use_cons; first [done|solve_Permutation]|]);
  use_gets; cbn [app];
  first [ eexists [], _, _; split; [reflexivity|]
        | eexists [(_, _)], _, _; split; [reflexivity|]
        | eexists [(_, _); (_, _)], _, _; split; [reflexivity|] ];
  (split; [by eexists|]);
  (split; [repeat (constructor; [cbn; assumption|]); constructor|]);
  match goal with
  | Hq : IS_ERR _ = _ |- _ => rewrite Hq
  end;
  done.

(** X19.  Powering the sensor up is all or nothing.  From a device that is
    not prepared and holds no regulator, [device_prepare(true)] asks for
    the regulators vcc_spi, vdd_io and vdd_ana in that order and enables
    each one it gets.  Either all three are obtained and enabled: then it
    returns 0 with the device prepared, the three handles held in their
    slots and nothing given back.  Or it stops at the first regulator
    that cannot be obtained or enabled, the earlier ones having been
    obtained and enabled: then it returns that error (the error value of
    [regulator_get], or the result of [regulator_enable]), with the
    device not prepared, all three slots empty again and every handle it
    had obtained given back. *)
Theorem device_prepare_all_or_nothing (d : fpc1020_data) :
  prepared d = false → vreg d = [0; 0; 0] →
  let r := device_prepare env d true in
  let evs := since d r.2 in
  (r.1 = 0 ∧ prepared r.2 = true ∧ puts evs = [] ∧
   ∃ ana spi io,
     gets evs = [("vcc_spi", spi); ("vdd_io", io); ("vdd_ana", ana)] ∧
     enables evs = [(spi, 0); (io, 0); (ana, 0)] ∧
     vreg r.2 = [ana; spi; io] ∧
     IS_ERR ana = false ∧ IS_ERR spi = false ∧ IS_ERR io = false ∧
     got evs = held1 spi ++ held1 io ++ held1 ana) ∨
  (r.1 ≠ 0 ∧ prepared r.2 = false ∧ vreg r.2 = [0; 0; 0] ∧
   got evs ≡ₚ puts evs ∧
   ∃ earlier name g,
     gets evs = earlier ++ [(name, g)] ∧
     (earlier ++ [(name, g)]).*1
       `prefix_of` ["vcc_spi"; "vdd_io"; "vdd_ana"] ∧
     Forall (λ e, IS_ERR e.2 = false) earlier ∧
     if IS_ERR g
     then r.1 = PTR_ERR g ∧ enables evs = (λ e, (e.2, 0)) <$> earlier
     else enables evs = ((λ e, (e.2, 0)) <$> earlier) ++ [(g, r.1)]).
Proof.
  intros Hprep Hv. cbv zeta. focus (device_prepare env d true).
  unfold device_prepare. unfold_log.
  step. assert (prepared d0 = false) as -> by (flat; congruence).
  cbn [andb negb]. name_set. step_select. step_vreg. norm_vreg.
  branch.
  - unfold device_prepare_exit. name_set. step. norm_vreg. leaf d.
    tidy. use_calls. err_cases. all: prepare_failed.
  - step_vreg. norm_vreg. branch.
    + unfold device_prepare_exit_1, device_prepare_exit.
      step_vreg. name_set. step. norm_vreg. leaf d. tidy.
      use_calls. err_cases. all: prepare_failed.
    + step_vreg. norm_vreg. branch.
      * unfold device_prepare_exit_2, device_prepare_exit_1,
          device_prepare_exit.
        step_vreg. step_vreg. name_set. step. norm_vreg. leaf d. tidy.
        use_calls. err_cases. all: prepare_failed.
      * step. step_select. step. norm_vreg. leaf d. tidy.
        use_calls. err_cases.
        left. split; [done|]. split; [congruence|]. split; [done|].
        eexists _, _, _. use_gets. cbn [app].
        split; [reflexivity|]. split; [reflexivity|].
        split; [done|]. split_and!; auto.
        use_cons. done.
Qed.

Lemma vreg_3 (d : fpc1020_data) :
  length (vreg d) = 3%nat → ∃ a b c, vreg d = [a; b; c].
Proof.
  destruct (vreg d) as [|a [|b [|c [|]]]]; try done. by exists a, b, c.
Qed.

(** [device_prepare] on any device with three slots: handles are
    conserved, and the lock is taken once and released. *)
Lemma device_prepare_effect d enable :
  length (vreg d) = 3%nat →
  let r := device_prepare env d enable in
  conserved d r.2 ∧ locks (since d r.2) = [MutexLock; MutexUnlock].
Proof.
  intros Hlen. destruct (vreg_3 d Hlen) as (a & b & c & Hv). clear Hlen.
  cbv zeta. focus (device_prepare env d enable).
  unfold device_prepare. unfold_log. step.
  assert (prepared d0 = prepared d) as -> by (flat; congruence).
  destruct enable, (prepared d); cbn [andb negb].
  - step. leaf d. split; [chain_cons|no_locks].
  - name_set. step_select. step_vreg. norm_vreg. branch.
    { unfold device_prepare_exit. name_set. step. leaf d.
      split; [chain_cons|no_locks]. }
    step_vreg. norm_vreg. branch.
    { unfold device_prepare_exit_1, device_prepare_exit.
      step_vreg. norm_vreg. name_set. step. leaf d.
      split; [chain_cons|no_locks]. }
    step_vreg. norm_vreg. branch.
    { unfold device_prepare_exit_2, device_prepare_exit_1,
        device_prepare_exit.
      step_vreg. norm_vreg. step_vreg. norm_vreg. name_set. step. leaf d.
      split; [chain_cons|no_locks]. }
    step. step_select. step. leaf d. split; [chain_cons|no_locks].
  - step_select. step. step_vreg. norm_vreg.
    unfold device_prepare_exit_2, device_prepare_exit_1,
      device_prepare_exit.
    step_vreg. norm_vreg. step_vreg. norm_vreg. name_set. step. leaf d.
    split; [chain_cons|no_locks].
  - step. leaf d. split; [chain_cons|no_locks].
Qed.

(** X20.  Powering down gives back everything.  [device_prepare(false)] on
    a prepared device returns 0 whatever the kernel answers, leaves the
    device not prepared and its three slots empty, obtains nothing, and
    gives back each handle that was held exactly once, in the order
    vdd_ana, vdd_io, vcc_spi.  [fpc1020_remove] gives back the same
    handles in the same order and returns 0.  A request for the state the
    device is already in returns 0 and does nothing but take and release
    the lock. *)
Theorem power_down_releases_everything
    (d : fpc1020_data) (ana spi io : Z) :
  vreg d = [ana; spi; io] →
  let off := device_prepare env d false in
  let rm := fpc1020_remove env d in
  let again := device_prepare env d (prepared d) in
  (prepared d = true →
   off.1 = 0 ∧ prepared off.2 = false ∧ vreg off.2 = [0; 0; 0] ∧
   got (since d off.2) = [] ∧
   puts (since d off.2) = held1 ana ++ held1 io ++ held1 spi) ∧
  (rm.1 = 0 ∧ vreg rm.2 = [0; 0; 0] ∧ got (since d rm.2) = [] ∧
   puts (since d rm.2) = held1 ana ++ held1 io ++ held1 spi) ∧
  (again.1 = 0 ∧ same_device d again.2 ∧
   calls_since d again.2 = [MutexLock; MutexUnlock]).
Proof.
  intros Hv. cbv zeta. split; [|split].
  - intros Hprep. focus (device_prepare env d false).
    unfold device_prepare. unfold_log. step.
    assert (prepared d0 = true) as -> by (flat; congruence).
    cbn [andb negb]. step_select. step. step_vreg. norm_vreg.
    unfold device_prepare_exit_2, device_prepare_exit_1,
      device_prepare_exit.
    step_vreg. norm_vreg. step_vreg. norm_vreg. name_set. step.
    norm_vreg. leaf d. tidy.
    split; [done|]. split; [congruence|]. split; [done|].
    split; [done|]. use_cons. done.
  - focus (fpc1020_remove env d). unfold fpc1020_remove. unfold_log.
    do 4 step. step_vreg. norm_vreg. step_vreg. norm_vreg.
    step_vreg. norm_vreg. step. norm_vreg. leaf d. tidy.
    split; [done|]. split; [done|]. split; [done|]. use_cons. done.
  - focus (device_prepare env d (prepared d)).
    unfold device_prepare. unfold_log. step.
    assert (prepared d0 = prepared d) as -> by (flat; congruence).
    assert ((prepared d && negb (prepared d) = false) ∧
            (negb (prepared d) && prepared d = false)) as [-> ->]
      by (by destruct (prepared d)).
    step. leaf d. unfold calls_since. rewrite (since_app _ _ _ Hevs).
    split; [done|]. split; [|done]. flat. repeat split; congruence.
Qed.

Ltac norm_pins :=
  flat;
  repeat match goal with
         | Hq : pinctrl_state ?X = pinctrl_state ?Y |- _ =>
             rewrite ?Hq in *; clear Hq
         | Hq : irq_gpio ?X = irq_gpio ?Y |- _ =>
             rewrite ?Hq in *; clear Hq
         | Hq : fingerprint_pinctrl ?X = fingerprint_pinctrl ?Y |- _ =>
             rewrite ?Hq in *; clear Hq
         end.

Ltac use_selects :=
  repeat match goal with
         | Hq : selects _ = _ |- _ => rewrite ?Hq; clear Hq
         | Hq : without_logs _ = _ |- _ => rewrite ?Hq; clear Hq
         end.

Ltac same_dev := flat; repeat split; congruence.

(** X21.  The reset pulse: [hw_reset] selects the pin states active,
    reset, active, sleeping 100-200, 5000-5100 and 5000-5100 microseconds
    after them, then reads the interrupt line, and returns 0.  If
    selecting a state fails it stops there and returns that error: no
    later state is selected and the line is not read.  No field of the
    device changes either way. *)
Theorem hw_reset_sequence (d : fpc1020_data) :
  let r := hw_reset env d in
  let active := default 0 (pinctrl_state d !! 1%nat) in
  let reset := default 0 (pinctrl_state d !! 0%nat) in
  let pinctrl := fingerprint_pinctrl d in
  let pulse :=
    [PinctrlSelectState pinctrl active; UsleepRange 100 200;
     PinctrlSelectState pinctrl reset; UsleepRange 5000 5100;
     PinctrlSelectState pinctrl active; UsleepRange 5000 5100;
     GpioGetValue (irq_gpio d)] in
  same_device d r.2 ∧ locks (since d r.2) = [] ∧
  ((r.1 = 0 ∧
    selects (since d r.2) = [(active, 0); (reset, 0); (active, 0)] ∧
    without_logs (since d r.2) = pulse) ∨
   (r.1 ≠ 0 ∧ ∃ n, (n < 3)%nat ∧
    selects (since d r.2)
    = take n [(active, 0); (reset, 0); (active, 0)]
      ++ [(default 0 ([active; reset; active] !! n), r.1)] ∧
    without_logs (since d r.2) = take (2 * n + 1) pulse)).
Proof.
  cbv zeta. focus (hw_reset env d). unfold hw_reset. unfold_log.
  step_select. branch.
  { leaf d. norm_pins. use_selects. split; [same_dev|]. split; [done|].
    right. split; [done|]. exists 0%nat. split; [lia|]. by split. }
  step. step_select. branch.
  { leaf d. norm_pins. use_selects. split; [same_dev|].
    split; [no_locks|].
    right. split; [done|]. exists 1%nat. split; [lia|].
    assert (z = 0) as -> by lia. by split. }
  step. step_select. branch.
  { leaf d. norm_pins. use_selects. split; [same_dev|].
    split; [no_locks|].
    right. split; [done|]. exists 2%nat. split; [lia|].
    assert (z = 0) as -> by lia. assert (z0 = 0) as -> by lia.
    by split. }
  step. step. step. leaf d. norm_pins. use_selects.
  split; [same_dev|]. split; [no_locks|].
  left. assert (z = 0) as -> by lia. assert (z0 = 0) as -> by lia.
  assert (z1 = 0) as -> by lia. by split_and!.
Qed.

Ltac branch_if :=
  match goal with
  | |- context [if ?b then _ else _] => destruct b eqn:?
  end.

Ltac run :=
  unfold_log;
  repeat first
    [ step | step_select | step_vreg; norm_vreg | name_set | branch
    | branch_if ].

Ltac use_locks :=
  repeat match goal with
         | Hl : locks _ = _ |- _ => rewrite Hl; clear Hl
         end.

(** Uses what is known of a function called on the state [d0]. *)
Ltac step_with lem f d0 :=
  let Hc := fresh "Hcons" in
  let Hl := fresh "Hlocks" in
  let evs := fresh "evs" in
  let Hh := fresh "Hhw" in
  destruct lem as [Hc Hl];
  destruct f as [? ?]; cbn [fst snd] in Hc, Hl |- *;
  pose proof Hc as (_ & [evs Hh] & _);
  rewrite (since_app _ _ _ Hh) in Hl.

Lemma hw_reset_effect d :
  let r := hw_reset env d in
  conserved d r.2 ∧ locks (since d r.2) = [].
Proof.
  cbv zeta. focus (hw_reset env d). unfold hw_reset. run.
  all: leaf d; (split; [chain_cons|use_locks; done]).
Qed.

Lemma vreg_setup_effect d name enable :
  length (vreg d) = 3%nat →
  let r := vreg_setup env d name enable in
  conserved d r.2 ∧ locks (since d r.2) = [].
Proof.
  intros Hlen. split; [by apply vreg_setup_conserved|].
  destruct (vreg_setup_spec d name enable) as (evs & Hhw & _ & Hl & _).
  by rewrite (since_app _ _ _ Hhw).
Qed.

Lemma request_irq_gpio_effect d label :
  let r := fpc1020_request_named_gpio env d label set_irq_gpio in
  conserved d r.2 ∧ locks (since d r.2) = [].
Proof.
  cbv zeta. focus (fpc1020_request_named_gpio env d label set_irq_gpio).
  unfold fpc1020_request_named_gpio. run.
  all: leaf d; (split; [chain_cons|use_locks; done]).
Qed.

Lemma request_rst_gpio_effect d label :
  let r := fpc1020_request_named_gpio env d label set_rst_gpio in
  conserved d r.2 ∧ locks (since d r.2) = [].
Proof.
  cbv zeta. focus (fpc1020_request_named_gpio env d label set_rst_gpio).
  unfold fpc1020_request_named_gpio. run.
  all: leaf d; (split; [chain_cons|use_locks; done]).
Qed.

Lemma lookup_states_effect names i d :
  let r := lookup_states env names i d in
  conserved d r.2 ∧ locks (since d r.2) = [].
Proof.
  cbv zeta. revert i d. induction names as [|n names IH]; intros i d.
  - cbn. split; [apply conserved_refl|]. unfold since. by rewrite drop_all.
  - focus (lookup_states env (n :: names) i d). cbn [lookup_states].
    unfold_log. step. destruct (IS_ERR r).
    + step. leaf d. split; [chain_cons|use_locks; done].
    + step. name_set.
      step_with (IH (S i) d2) (lookup_states env names (S i) d2) d2.
      leaf d. split; [chain_cons|use_locks; done].
Qed.

(** The slots are three in every state the steps went through. *)
Ltac len3 :=
  unfold conserved in *; flat; congruence.

Ltac step_fn :=
  match goal with
  | |- context [fpc1020_request_named_gpio env ?d ?l set_irq_gpio] =>
      is_var d;
      step_with (request_irq_gpio_effect d l)
        (fpc1020_request_named_gpio env d l set_irq_gpio) d
  | |- context [fpc1020_request_named_gpio env ?d ?l set_rst_gpio] =>
      is_var d;
      step_with (request_rst_gpio_effect d l)
        (fpc1020_request_named_gpio env d l set_rst_gpio) d
  | |- context [lookup_states env ?n ?i ?d] =>
      is_var d;
      step_with (lookup_states_effect n i d) (lookup_states env n i d) d
  | |- context [hw_reset env ?d] =>
      is_var d; step_with (hw_reset_effect d) (hw_reset env d) d
  | |- context [device_prepare env ?d ?en] =>
      is_var d;
      let Hl := fresh "Hlen" in
      assert (length (vreg d) = 3%nat) as Hl by len3;
      step_with (device_prepare_effect d en Hl) (device_prepare env d en) d
  | |- context [vreg_setup env ?d ?name ?en] =>
      is_var d;
      let Hl := fresh "Hlen" in
      assert (length (vreg d) = 3%nat) as Hl by len3;
      step_with (vreg_setup_effect d name en Hl) (vreg_setup env d name en) d
  end.

Ltac run_fn :=
  unfold_log;
  repeat first [ step | step_select | step_fn | name_set | branch | branch_if ].

Ltac locks_done :=
  first [ left; use_locks; done | right; use_locks; done ].

(** What every operation on the device keeps. *)
Lemma run_op_effect d op :
  length (vreg d) = 3%nat →
  let r := run_op env sscanf_name_op d op in
  conserved d r.2 ∧
  (locks (since d r.2) = [] ∨ locks (since d r.2) = [MutexLock; MutexUnlock]).
Proof.
  intros Hlen. cbv zeta. focus (run_op env sscanf_name_op d op).
  destruct op; cbn [run_op].
  - unfold pinctl_set. run.
    all: leaf d; (split; [chain_cons|right; use_locks; done]).
  - unfold regulator_enable_set.
    destruct (sscanf_name_op buf) as [[name op]|]; cbv zeta; run_fn.
    all: try (leaf d; (split; [chain_cons|locks_done])).
    all: subst Q; cbv beta; cbn [snd]; (split; [apply conserved_refl|]);
      left; unfold since; by rewrite drop_all.
  - unfold compatible_all_set. cbv zeta. run_fn.
    all: leaf d; (split; [chain_cons|locks_done]).
  - unfold hw_reset_set. destruct (String.prefix "reset" buf).
    + unfold_log. step.
      step_with (hw_reset_effect d0) (hw_reset env d0) d0. run.
      all: leaf d; (split; [chain_cons|right; use_locks; done]).
    + subst Q. cbv beta. cbn [snd]. split; [apply conserved_refl|].
      left. unfold since. by rewrite drop_all.
  - unfold device_prepare_set.
    destruct (String.prefix "enable" buf);
      [|destruct (String.prefix "disable" buf)].
    + step_with (device_prepare_effect d true Hlen)
        (device_prepare env d true) d.
      run. all: leaf d; (split; [chain_cons|right; use_locks; done]).
    + step_with (device_prepare_effect d false Hlen)
        (device_prepare env d false) d.
      run. all: leaf d; (split; [chain_cons|right; use_locks; done]).
    + subst Q. cbv beta. cbn [snd]. split; [apply conserved_refl|].
      left. unfold since. by rewrite drop_all.
  - unfold wakeup_enable_set. run.
    all: leaf d; (split; [chain_cons|right; use_locks; done]).
  - unfold clk_enable_set. run.
    all: leaf d; (split; [chain_cons|left; use_locks; done]).
  - unfold irq_ack. run.
    all: leaf d; (split; [chain_cons|left; use_locks; done]).
  - unfold fingerdown_wait_set. run.
    all: leaf d; (split; [chain_cons|left; use_locks; done]).
  - unfold fpc1020_irq_handler. run.
    all: leaf d; (split; [chain_cons|left; use_locks; done]).
  - unfold fpc_fb_notif_callback. destruct data as [[blank|]|]; run.
    all: try (leaf d; (split; [chain_cons|left; use_locks; done])).
    all: subst Q; cbv beta; cbn [snd]; (split; [apply conserved_refl|]);
      left; unfold since; by rewrite drop_all.
  - unfold notification_work. run.
    all: leaf d; (split; [chain_cons|left; use_locks; done]).
  - destruct (vreg_3 d Hlen) as (a & b & c & Hv).
    unfold fpc1020_remove. run.
    all: leaf d; (split; [chain_cons|left; use_locks; done]).
Qed.

Lemma run_ops_snoc ops op d :
  run_ops env sscanf_name_op (ops ++ [op]) d
  = (run_op env sscanf_name_op (run_ops env sscanf_name_op ops d) op).2.
Proof. unfold run_ops. by rewrite foldl_app. Qed.

Lemma run_ops_effect ops d :
  length (vreg d) = 3%nat →
  conserved d (run_ops env sscanf_name_op ops d) ∧
  ∃ n, locks (since d (run_ops env sscanf_name_op ops d))
       = concat (replicate n [MutexLock; MutexUnlock]).
Proof.
  intros Hlen. induction ops as [|op ops IH] using rev_ind.
  - split; [apply conserved_refl|]. exists 0%nat. unfold since.
    by rewrite drop_all.
  - destruct IH as [Hc [n Hn]]. rewrite run_ops_snoc.
    set (d1 := run_ops env sscanf_name_op ops d) in *.
    assert (length (vreg d1) = 3%nat) as Hlen1.
    { destruct Hc as (Hl & _). by rewrite Hl. }
    destruct (run_op_effect d1 op Hlen1) as [Hc1 Hl1].
    split; [by apply (conserved_trans _ d1)|].
    destruct Hc as (_ & [e1 He1] & _). pose proof Hc1 as (_ & [e2 He2] & _).
    rewrite (since_trans _ _ _ _ _ He1 He2), locks_app, Hn.
    destruct Hl1 as [-> | ->].
    + exists n. by rewrite app_nil_r.
    + exists (S n). rewrite <- (Nat.add_1_r n), replicate_add, concat_app.
      done.
Qed.

Lemma remove_slots d :
  length (vreg d) = 3%nat → vreg (fpc1020_remove env d).2 = [0; 0; 0].
Proof.
  intros Hlen. destruct (vreg_3 d Hlen) as (a & b & c & Hv).
  focus (fpc1020_remove env d). unfold fpc1020_remove. run.
  subst Q. cbv beta. cbn [snd]. norm_vreg. tidy. done.
Qed.

(** X22.  Regulator handles are neither leaked nor given back twice.  On
    a device with its three slots, after [vreg_setup] with any name and
    direction, and after any sequence of writes to the nine sysfs nodes
    of [attributes] ([regulator_enable] and [compatible_all] among
    them), interrupts, framebuffer notifications, deferred work and
    removal, whatever [sscanf] parses, the handles held
    before together with those [regulator_get] handed out since are
    exactly those given back with [regulator_put] since together with
    those held now.  After [fpc1020_remove] nothing is held, so that every
    handle has been given back exactly once. *)
Theorem regulator_handles_are_conserved
    (d : fpc1020_data) (ops : list driver_op) (name : string)
    (enable : bool) :
  length (vreg d) = 3%nat →
  let d1 := (vreg_setup env d name enable).2 in
  let d2 := run_ops env sscanf_name_op ops d in
  let d3 := run_ops env sscanf_name_op (ops ++ [OpRemove]) d in
  held d ++ got (since d d1) ≡ₚ puts (since d d1) ++ held d1 ∧
  held d ++ got (since d d2) ≡ₚ puts (since d d2) ++ held d2 ∧
  held d3 = [] ∧
  held d ++ got (since d d3) ≡ₚ puts (since d d3).
Proof.
  intros Hlen. cbv zeta. split_and!.
  - by destruct (vreg_setup_conserved d name enable Hlen) as (_ & _ & ?).
  - by destruct (run_ops_effect ops d Hlen) as [(_ & _ & ?) _].
  - rewrite run_ops_snoc. cbn [run_op]. unfold held.
    rewrite remove_slots; [done|].
    destruct (run_ops_effect ops d Hlen) as [(Hl & _) _]. by rewrite Hl.
  - destruct (run_ops_effect (ops ++ [OpRemove]) d Hlen)
      as [(_ & _ & Hp) _].
    rewrite Hp. rewrite run_ops_snoc. cbn [run_op]. unfold held at 1.
    rewrite remove_slots; [by rewrite app_nil_r|].
    destruct (run_ops_effect ops d Hlen) as [(Hl & _) _]. by rewrite Hl.
Qed.

(** X23.  The device lock is never left held and never taken twice: on a
    device with its three slots, over any sequence of writes to the nine
    sysfs nodes of [attributes] ([regulator_enable] and [compatible_all]
    among them), interrupts, framebuffer notifications, deferred work and
    removal, the lock and unlock calls made are a sequence of lock/unlock
    pairs. *)
Theorem lock_is_always_released
    (d : fpc1020_data) (ops : list driver_op) :
  length (vreg d) = 3%nat →
  ∃ n, locks (since d (run_ops env sscanf_name_op ops d))
       = concat (replicate n [MutexLock; MutexUnlock]).
Proof. intros Hlen. by destruct (run_ops_effect ops d Hlen) as [_ ?]. Qed.

Lemma count_calls_app p a b :
  count_calls p (a ++ b) = (count_calls p a + count_calls p b)%nat.
Proof. unfold count_calls. by rewrite filter_app, length_app. Qed.

(** One interrupt. *)
Lemma irq_spec d :
  let r := fpc1020_irq_handler env d in
  ∃ evs, hw r.2 = hw d ++ evs ∧ r.1 = IRQ_HANDLED ∧
    vreg r.2 = vreg d ∧ prepared r.2 = prepared d ∧
    wakeup_enabled r.2 = wakeup_enabled d ∧ fb_black r.2 = fb_black d ∧
    wait_finger_down r.2 = wait_finger_down d && negb (fb_black d) ∧
    count_calls is_schedule evs
    = (if wait_finger_down d && fb_black d then 1 else 0)%nat ∧
    count_calls is_notify evs = 1%nat ∧
    count_calls is_wakeup evs
    = (if decide (wakeup_enabled d ≠ 0) then 1%nat else 0%nat).
Proof.
  cbv zeta. focus (fpc1020_irq_handler env d).
  unfold fpc1020_irq_handler. unfold_log. step.
  assert (wakeup_enabled d0 = wakeup_enabled d) as -> by (flat; congruence).
  destruct (decide (wakeup_enabled d ≠ 0)) as [Hw|Hw].
  - step. step.
    assert (wait_finger_down d2 = wait_finger_down d) as ->
      by (flat; congruence).
    assert (fb_black d2 = fb_black d) as -> by (flat; congruence).
    destruct (wait_finger_down d) eqn:Hwait, (fb_black d) eqn:Hfb;
      cbn [andb negb].
    1:{ step. name_set. step. subst Q. cbv beta. cbn [fst snd].
        eexists. split; [chain_hw|]. flat. cbn [andb negb].
        split_and!; try done; congruence. }
    all: subst Q; cbv beta; cbn [fst snd]; eexists; (split; [chain_hw|]);
      flat; cbn [andb negb]; split_and!; try done; congruence.
  - step.
    assert (wait_finger_down d1 = wait_finger_down d) as ->
      by (flat; congruence).
    assert (fb_black d1 = fb_black d) as -> by (flat; congruence).
    destruct (wait_finger_down d) eqn:Hwait, (fb_black d) eqn:Hfb;
      cbn [andb negb].
    1:{ step. name_set. step. subst Q. cbv beta. cbn [fst snd].
        eexists. split; [chain_hw|]. flat. cbn [andb negb].
        split_and!; try done; congruence. }
    all: subst Q; cbv beta; cbn [fst snd]; eexists; (split; [chain_hw|]);
      flat; cbn [andb negb]; split_and!; try done; congruence.
Qed.

(** X24.  The unblank work is scheduled at most once per arming.  Over
    [n] interrupts in a row the handler schedules the work exactly once if
    the driver was waiting for a finger with the screen black, on the
    first of them, and never otherwise; it notifies the irq node [n]
    times, and takes the wake-up event each time if wake-up is enabled
    and never if not.  Afterwards the driver waits for a finger only if it
    did before and the screen was not black.  Each call returns
    [IRQ_HANDLED]. *)
Theorem finger_down_work_is_one_shot (d : fpc1020_data) (n : nat) :
  let d' := interrupts env n d in
  count_calls is_schedule (since d d')
  = (if wait_finger_down d && fb_black d && bool_decide (0 < n)%nat
     then 1 else 0)%nat ∧
  count_calls is_notify (since d d') = n ∧
  count_calls is_wakeup (since d d')
  = (if decide (wakeup_enabled d ≠ 0) then n else 0%nat) ∧
  ((0 < n)%nat →
   wait_finger_down d' = wait_finger_down d && negb (fb_black d)) ∧
  fb_black d' = fb_black d ∧ wakeup_enabled d' = wakeup_enabled d ∧
  vreg d' = vreg d ∧ prepared d' = prepared d ∧
  (fpc1020_irq_handler env d).1 = IRQ_HANDLED.
Proof.
  cbv zeta.
  assert (∀ n d, ∃ evs,
    hw (interrupts env n d) = hw d ++ evs ∧
    count_calls is_schedule evs
    = (if wait_finger_down d && fb_black d && bool_decide (0 < n)%nat
       then 1 else 0)%nat ∧
    count_calls is_notify evs = n ∧
    count_calls is_wakeup evs
    = (if decide (wakeup_enabled d ≠ 0) then n else 0%nat) ∧
    ((0 < n)%nat →
     wait_finger_down (interrupts env n d)
     = wait_finger_down d && negb (fb_black d)) ∧
    fb_black (interrupts env n d) = fb_black d ∧
    wakeup_enabled (interrupts env n d) = wakeup_enabled d ∧
    vreg (interrupts env n d) = vreg d ∧
    prepared (interrupts env n d) = prepared d) as Hall.
  { clear d n. induction n as [|n IH]; intros d.
    - exists []. rewrite app_nil_r. cbn [interrupts].
      rewrite andb_false_r. split_and!; try done; [by case_decide|lia].
    - cbn [interrupts].
      destruct (irq_spec d)
        as (e1 & Hh1 & _ & Hv1 & Hp1 & Hw1 & Hf1 & Hd1 & Hs1 & Hn1 & Hk1).
      destruct (IH (fpc1020_irq_handler env d).2)
        as (e2 & Hh2 & Hs2 & Hn2 & Hk2 & Hd2 & Hf2 & Hw2 & Hv2 & Hp2).
      exists (e1 ++ e2). rewrite !count_calls_app.
      rewrite Hh2, Hh1, Hs1, Hs2, Hn1, Hn2, Hk1, Hk2, Hf2, Hw2, Hv2, Hp2.
      rewrite Hd1, Hf1, Hw1, Hv1, Hp1.
      split_and!; try done.
      + by rewrite app_assoc.
      + rewrite (bool_decide_eq_true_2 (0 < S n)%nat) by lia.
        destruct (wait_finger_down d), (fb_black d); cbn; try done.
        all: by case_bool_decide.
      + repeat case_decide; first [lia|done].
      + intros _. destruct n as [|n].
        * done.
        * rewrite Hd2 by lia. rewrite Hd1, Hf1.
          by destruct (wait_finger_down d), (fb_black d). }
  destruct (Hall n d) as (evs & Hh & ? & ? & ? & ? & ? & ? & ? & ?).
  rewrite (since_app _ _ _ Hh).
  destruct (irq_spec d) as (? & _ & ? & _).
  split_and!; done.
Qed.

(** One framebuffer notification. *)
Lemma fb_spec d (e : Z * option (option Z)) :
  let r := fpc_fb_notif_callback env d e.1 e.2 in
  ∃ evs, hw r.2 = hw d ++ evs ∧ without_logs evs = [] ∧
    fb_black r.2
    = match blank_of e with
      | Some b =>
          if decide (b = FB_BLANK_POWERDOWN) then true
          else if decide (b = FB_BLANK_UNBLANK) then false
          else fb_black d
      | None => fb_black d
      end ∧
    wait_finger_down r.2 = wait_finger_down d ∧
    wakeup_enabled r.2 = wakeup_enabled d ∧
    vreg r.2 = vreg d ∧ prepared r.2 = prepared d ∧
    r.1 = if decide (e.1 = FB_EVENT_BLANK) then NOTIFY_OK else 0.
Proof.
  destruct e as [val data]. cbv zeta. cbn [fst snd].
  unfold blank_of, fpc_fb_notif_callback. cbn [fst snd].
  destruct (decide (val = FB_EVENT_BLANK)) as [Hv|Hne].
  2:{ rewrite decide_True by done.
      cbn [fst snd]. exists []. by rewrite app_nil_r. }
  rewrite decide_False by lia. unfold_log. step.
  destruct data as [[blank|]|]; simpl mjoin; cbv iota.
  - destruct (decide (blank = FB_BLANK_POWERDOWN));
      [|destruct (decide (blank = FB_BLANK_UNBLANK))].
    + name_set. eexists.
      split; [chain_hw|]. flat. split_and!; try done; congruence.
    + name_set. eexists.
      split; [chain_hw|]. flat. split_and!; try done; congruence.
    + step. eexists.
      split; [chain_hw|]. flat. split_and!; try done; congruence.
  - eexists. split; [chain_hw|]. flat. split_and!; try done; congruence.
  - eexists. split; [chain_hw|]. flat. split_and!; try done; congruence.
Qed.

(** X25.  [fb_black] follows the display.  After any run of framebuffer
    notifications the flag says whether the last blank event that carried
    [FB_BLANK_POWERDOWN] or [FB_BLANK_UNBLANK] was a power-down; if there
    was none it is what it was.  Other events, blank events without data
    and other blank states leave it alone.  The notifier changes no other
    field, makes no call but log lines, and returns [NOTIFY_OK] for a
    blank event and 0 otherwise. *)
Theorem fb_black_follows_last_blank_event
    (d : fpc1020_data) (evs : list (Z * option (option Z))) :
  let d' := notifications env evs d in
  let seen :=
    filter (λ b, b = FB_BLANK_POWERDOWN ∨ b = FB_BLANK_UNBLANK)
      (omap blank_of evs) in
  fb_black d'
  = match last seen with
    | Some b => bool_decide (b = FB_BLANK_POWERDOWN)
    | None => fb_black d
    end ∧
  wait_finger_down d' = wait_finger_down d ∧
  wakeup_enabled d' = wakeup_enabled d ∧
  vreg d' = vreg d ∧ prepared d' = prepared d ∧
  without_logs (since d d') = [] ∧
  ∀ val data,
    (fpc_fb_notif_callback env d val data).1
    = if decide (val = FB_EVENT_BLANK) then NOTIFY_OK else 0.
Proof.
  cbv zeta. split_and!.
  7:{ intros val data.
      by destruct (fb_spec d (val, data)) as (? & _ & _ & _ & _ & _ & _ & _ & ?). }
  all: induction evs as [|e evs IH] using rev_ind;
    [first [done|unfold since; by rewrite drop_all]|].
  all: unfold notifications; rewrite foldl_app; cbn [foldl].
  all: fold (notifications env evs d).
  all: destruct (fb_spec (notifications env evs d) e)
         as (x & Hh & Hl & Hf & Hw & Hk & Hv & Hp & _).
  - rewrite Hf, omap_app, filter_app. cbn [omap list_omap].
    destruct (blank_of e) as [b|]; cbn [omap list_omap].
    + rewrite filter_cons, filter_nil.
      destruct (decide (b = FB_BLANK_POWERDOWN)) as [->|Hnp].
      { rewrite decide_True by auto. rewrite last_snoc.
        by rewrite bool_decide_eq_true_2. }
      destruct (decide (b = FB_BLANK_UNBLANK)) as [->|Hnu].
      { rewrite decide_True by auto. rewrite last_snoc.
        by rewrite bool_decide_eq_false_2. }
      rewrite decide_False by (intros [?|?]; done).
      by rewrite app_nil_r.
    + rewrite filter_nil, app_nil_r. done.
  - by rewrite Hw.
  - by rewrite Hk.
  - by rewrite Hv.
  - by rewrite Hp.
  - unfold since in *. rewrite Hh.
    assert (length (hw d) ≤ length (hw (notifications env evs d)))%nat
      as Hle.
    { clear. induction evs as [|e evs IH] using rev_ind; [done|].
      unfold notifications. rewrite foldl_app. cbn [foldl].
      fold (notifications env evs d).
      destruct (fb_spec (notifications env evs d) e) as (x & -> & _).
      rewrite length_app. lia. }
    rewrite drop_app_le by done. rewrite without_logs_app, IH, Hl. done.
Qed.

End Fpc1020Facts.
(** * Further runs on concrete inputs *)

Section SucompatMoreExamples.

Import Sucompat SucompatRest.

Lemma escalation_only_by_execve_witness :
  cred_is_root
    (ksu_handle_execve_sucompat ksud_path_demo task_su (Some 4096)).2 = true.
Proof.
  destruct (escalation_only_by_execve ksud_path_demo task_su (Some 4096))
    as (_ & _ & _ & Hw & _).
  apply Hw. split; [reflexivity|]. split; [reflexivity|].
  exists 4096. split; [reflexivity|]. split; vm_compute; reflexivity.
Defined.

Lemma only_the_stack_slot_is_written_witness :
  umem (ksu_handle_faccessat ksud_path_demo task_su (Some 4096)).2 !! 4096
  = umem task_su !! 4096.
Proof.
  destruct (only_the_stack_slot_is_written ksud_path_demo task_su
              (Some 4096) 4096) as (Hsh & _).
  apply Hsh. unfold in_stack_slot. vm_compute. intros [Hlo _].
  apply Hlo. reflexivity.
Defined.


Lemma execveat_rewrites_in_place_witness :
  (ksu_handle_execveat_sucompat ksud_path_demo task_su
     (Filename name_su)).1.2
  = Filename (c_string ksud_path_demo ++ replicate 17 x00).
Proof.
  destruct (execveat_rewrites_in_place ksud_path_demo task_su name_su)
    as (_ & Hhit & _).
  - vm_compute. lia.
  - vm_compute. lia.
  - destruct Hhit as (name' & -> & _ & Htake & Hdrop & _).
    + split; [reflexivity|]. split; vm_compute; reflexivity.
    + rewrite <- (take_drop (length (c_string ksud_path_demo)) name').
      rewrite Htake, Hdrop. reflexivity.
Defined.

Lemma devpts_never_relabels_system_uids_witness :
  (__ksu_handle_devpts task_shell true 77 (Some 5)).2 = Some 5.
Proof.
  destruct (devpts_never_relabels_system_uids task_shell true 77 (Some 5)
              0 2000) as (_ & Hsys & _).
  apply Hsys; [lia|lia|reflexivity].
Defined.

End SucompatMoreExamples.

Section SusfsMoreExamples.

Import Susfs SusfsCalls Uname.

#[local] Existing Instance demo_constants.

Lemma filldir_reports_registered_ino_witness :
  susfs_sus_ino_for_filldir64
    (susfs_add_sus_path demo_kernel (Some hide_addon_d) true).2 4242 = 1.
Proof.
  apply (filldir_reports_registered_ino demo_kernel hide_addon_d true).
  vm_compute. reflexivity.
Defined.



Lemma add_sus_mount_best_effort_witness :
  SusMount "/data/adb/modules" (new_decode_dev 2049) 0
  ∈ LH_SUS_MOUNT (susfs_add_sus_mount demo_kernel (Some mount_modules) true).2.
Proof.
  destruct (add_sus_mount_best_effort demo_kernel mount_modules true)
    as (_ & Hin & _).
  apply Hin. vm_compute. reflexivity.
Defined.

Lemma marks_are_never_cleared_witness :
  let k := (susfs_add_sus_path demo_kernel (Some hide_addon_d) true).2 in
  inode_marked INODE_STATE_SUS_PATH
    (run k (AddSusMount (Some mount_addon_d) true)) 11 = true.
Proof.
  intros k. apply marks_are_never_cleared. vm_compute. reflexivity.
Defined.

Lemma replay_unmounts_each_path_once_witness :
  let k1 := (susfs_add_try_umount demo_kernel (Some umount_system) true).2 in
  let k2 := (susfs_add_try_umount k1 (Some umount_vendor) true).2 in
  let again := susfs_add_try_umount k2 (Some umount_system_detach) true in
  let k := (susfs_add_try_umount again.2 (Some umount_product) true).2 in
  again.1 = 1 ∧
  try_umount_names k = ["/system"; "/vendor"; "/product"] ∧
  um_mnt <$> replayed k 10123 = ["/product"; "/vendor"; "/system"] ∧
  NoDup (try_umount_names k) ∧
  NoDup (um_mnt <$> replayed k 10123).
Proof.
  intros k1 k2 again k.
  split; [vm_compute; reflexivity|].
  split; [vm_compute; reflexivity|].
  split; [vm_compute; reflexivity|].
  apply (replay_unmounts_each_path_once k 10123).
  repeat apply reach_add_try_umount. apply reach_boot.
Defined.

Lemma logging_switch_witness :
  let c := AddSusPath (Some hide_twrp) true in
  let k := susfs_set_log demo_kernel false in
  susfs_is_log_enabled demo_kernel = true ∧
  length (klog (run demo_kernel c)) = S (length (klog demo_kernel)) ∧
  susfs_is_log_enabled k = false ∧
  length (klog k) = S (length (klog demo_kernel)) ∧
  klog (run k c) = klog k ∧
  susfs_is_log_enabled (run k c) = false.
Proof.
  intros c k.
  split; [vm_compute; reflexivity|].
  split; [vm_compute; reflexivity|].
  destruct (logging_switch demo_kernel) as [_ Hset].
  destruct (Hset false) as (Hq & Hlen & _).
  split; [exact Hq|]. split; [exact Hlen|].
  destruct (logging_switch k) as [Hoff _].
  apply (Hoff Hq c). intros enabled. discriminate.
Defined.

Lemma path_reference_balance_witness :
  path_refs (susfs_update_sus_mount_inode demo_kernel "/data/adb/modules")
  = path_refs demo_kernel + 1 ∧
  path_refs (susfs_update_sus_mount_inode demo_kernel "/system/etc/hosts")
  = path_refs demo_kernel ∧
  path_refs (susfs_update_sus_mount_inode demo_kernel "/system/addon.d")
  = path_refs demo_kernel ∧
  path_refs (susfs_update_sus_mount_inode demo_kernel "/no/such/path")
  = path_refs demo_kernel ∧
  path_refs (susfs_add_sus_path demo_kernel (Some hide_addon_d) true).2
  = path_refs demo_kernel.
Proof.
  destruct (path_reference_balance demo_kernel) as [Hadd Hm].
  split.
  { destruct (Hm "/data/adb/modules") as [_ Hsome].
    rewrite (Hsome (Path "f2fs" 5 (Some 15%nat)));
      [reflexivity|vm_compute; reflexivity]. }
  split.
  { destruct (Hm "/system/etc/hosts") as [_ Hsome].
    rewrite (Hsome (Path "ext4" 1000 (Some 16%nat)));
      [reflexivity|vm_compute; reflexivity]. }
  split.
  { destruct (Hm "/system/addon.d") as [_ Hsome].
    rewrite (Hsome (Path "ext4" 0 (Some 11%nat)));
      [reflexivity|vm_compute; reflexivity]. }
  split.
  { destruct (Hm "/no/such/path") as [Hnone _].
    apply Hnone. vm_compute. reflexivity. }
  apply Hadd.
Defined.

Lemma spoof_uname_off_by_default_witness :
  susfs_spoof_uname 64 demo_uts false (utsname demo_uts) = utsname demo_uts.
Proof.
  destruct (spoof_uname_off_by_default 64 demo_uts false (utsname demo_uts))
    as (_ & _ & Hempty & _).
  apply Hempty. reflexivity.
Defined.

Lemma set_uname_then_spoof_witness :
  let r := susfs_set_uname 64 demo_uts
             (Some (SusfsUname "4.14.186-gki" "default")) in
  susfs_spoof_uname 64 r.2 false (utsname demo_uts)
  = NewUtsname "Linux" "localhost" "4.14.186-gki"
      "#1 SMP PREEMPT Mon Nov 2 2026" "aarch64" "(none)".
Proof.
  intros r.
  destruct (set_uname_then_spoof 64 demo_uts
              (SusfsUname "4.14.186-gki" "default") (utsname demo_uts))
    as (_ & _ & _ & Hset & _).
  destruct Hset as (Ht & _).
  - vm_compute. discriminate.
  - exact Ht.
Defined.

End SusfsMoreExamples.

Section Fpc1020Examples.

Import Fpc1020.

#[local] Existing Instance demo_fb_constants.

Lemma device_prepare_all_or_nothing_witness :
  let ok := device_prepare env_ok demo_device true in
  let bad := device_prepare env_no_third demo_device true in
  (ok.1 = 0 ∧ prepared ok.2 = true ∧ puts (since demo_device ok.2) = [] ∧
   gets (since demo_device ok.2)
   = [("vcc_spi", 1001); ("vdd_io", 1002); ("vdd_ana", 1003)] ∧
   enables (since demo_device ok.2) = [(1001, 0); (1002, 0); (1003, 0)] ∧
   vreg ok.2 = [1003; 1001; 1002]) ∧
  (bad.1 = -5 ∧ prepared bad.2 = false ∧ vreg bad.2 = [0; 0; 0] ∧
   got (since demo_device bad.2) ≡ₚ puts (since demo_device bad.2) ∧
   gets (since demo_device bad.2)
   = [("vcc_spi", 1001); ("vdd_io", 1002); ("vdd_ana", 1003)] ∧
   enables (since demo_device bad.2)
   = [(1001, 0); (1002, 0); (1003, -5)]).
Proof.
  cbv zeta. split.
  - destruct (device_prepare_all_or_nothing env_ok demo_device)
      as [(H0 & Hp & Hputs & ana & spi & io & Hgets & Hen & Hv & _)
         |(Hn & _)].
    + reflexivity.
    + reflexivity.
    + assert (spi = 1001 ∧ io = 1002 ∧ ana = 1003) as (-> & -> & ->).
      { clear -Hgets. vm_compute in Hgets. by simplify_eq. }
      split; [exact H0|]. split; [exact Hp|]. split; [exact Hputs|].
      split; [exact Hgets|]. split; [exact Hen|exact Hv].
    + exfalso. apply Hn. vm_compute. reflexivity.
  - destruct (device_prepare_all_or_nothing env_no_third demo_device)
      as [(H0 & _)|(_ & Hp & Hv & Hperm & earlier & name & g & Hgets & _
                    & _ & Hif)].
    + reflexivity.
    + reflexivity.
    + exfalso. vm_compute in H0. discriminate.
    + assert (earlier = [("vcc_spi", 1001); ("vdd_io", 1002)]
              ∧ name = "vdd_ana" ∧ g = 1003) as (-> & -> & ->).
      { clear -Hgets. vm_compute in Hgets.
        destruct earlier as [|e1 [|e2 [|e3 earlier]]]; simplify_eq; [done|].
        by destruct earlier. }
      assert ((device_prepare env_no_third demo_device true).1 = -5) as Hr
        by (vm_compute; reflexivity).
      assert (IS_ERR 1003 = false) as He by (vm_compute; reflexivity).
      rewrite He, Hr in Hif.
      split; [exact Hr|]. split; [exact Hp|].
      split; [exact Hv|]. split; [exact Hperm|]. split; [exact Hgets|].
      exact Hif.
Defined.

Lemma power_down_releases_everything_witness :
  puts (since demo_powered (fpc1020_remove env_ok demo_powered).2)
  = [1003; 1002; 1001].
Proof.
  destruct (power_down_releases_everything env_ok demo_powered
              1003 1001 1002) as (_ & (_ & _ & _ & Hputs) & _).
  - reflexivity.
  - exact Hputs.
Defined.

Lemma regulator_handles_are_conserved_witness :
  let ops :=
    [OpRegulatorEnableSet "vdd_io,e" 8; OpCompatibleAllSet "enable" 6] in
  let d2 := run_ops env_board demo_sscanf ops demo_device in
  let d3 := run_ops env_board demo_sscanf (ops ++ [OpRemove]) demo_device in
  got (since demo_device d2) = [1001; 1002; 1003] ∧
  held d2 = [1003; 1002; 1001] ∧
  held demo_device ++ got (since demo_device d2)
  ≡ₚ puts (since demo_device d2) ++ held d2 ∧
  held d3 = [] ∧
  held demo_device ++ got (since demo_device d3)
  ≡ₚ puts (since demo_device d3).
Proof.
  intros ops d2 d3.
  split; [vm_compute; reflexivity|].
  split; [vm_compute; reflexivity|].
  destruct (regulator_handles_are_conserved env_board demo_sscanf
              demo_device ops "vdd_io" true)
    as (_ & Hops & Hnone & Hall).
  - reflexivity.
  - split; [exact Hops|]. split; [exact Hnone|exact Hall].
Defined.

Lemma lock_is_always_released_witness :
  let ops :=
    [OpRegulatorEnableSet "vdd_io,e" 8; OpCompatibleAllSet "enable" 6;
     OpDevicePrepareSet "disable" 7; OpIrq] in
  let d' := run_ops env_board demo_sscanf ops demo_device in
  length (locks (since demo_device d')) = 6%nat ∧
  ∃ n, locks (since demo_device d')
       = concat (replicate n [MutexLock; MutexUnlock]).
Proof.
  cbv zeta.
  split; [vm_compute; reflexivity|].
  exact (lock_is_always_released env_board demo_sscanf demo_device
           [OpRegulatorEnableSet "vdd_io,e" 8; OpCompatibleAllSet "enable" 6;
            OpDevicePrepareSet "disable" 7; OpIrq] eq_refl).
Defined.

Lemma finger_down_work_is_one_shot_witness :
  let d' := interrupts env_ok 3 demo_waiting in
  count_calls is_schedule (since demo_waiting d') = 1%nat ∧
  count_calls is_notify (since demo_waiting d') = 3%nat ∧
  count_calls is_wakeup (since demo_waiting d') = 3%nat ∧
  wait_finger_down d' = false.
Proof.
  intros d'.
  destruct (finger_down_work_is_one_shot env_ok demo_waiting 3)
    as (Hs & Hn & Hw & Hwait & _).
  split; [exact Hs|]. split; [exact Hn|]. split; [exact Hw|].
  apply Hwait. lia.
Defined.

End Fpc1020Examples.
